(** * The easyviz movie encoder ([lib/scitools/easyviz/movie.py])

    A shallow embedding of [MovieEncoder] and [movie]: Python values, the
    string and path helpers the module calls, [fnmatch]/[glob], the
    regular expression the builders use to recognise printf-style file
    names, the file system and the external processes as an explicit
    world, and the constructor, [encode], the five command builders,
    [_any2any], [_get_aspect_ratio] and [_get_size] in a state-and-error
    monad over that world. *)

From Stdlib Require Import ZArith String Ascii List Floats Permutation Sorted Lia.
From Stdlib Require Import OrdersEx.
From stdpp Require Import gmap strings list sorting.
Import ListNotations.
Open Scope string_scope.
Open Scope Z_scope.

Set Warnings "-inexact-float,-register-all".

(** ** Exceptions *)

(** Exceptions raised by the interpreter and its library rather than by a
    [raise] statement of the module. *)
Inductive builtin_error :=
| TypeError | IndexError | KeyError | NameError | AttributeError
| OSError | IOError | ZeroDivisionError | OverflowError | ValueError
| ReError.

(** One constructor per [raise] statement of [movie.py] (statements with
    the same message share one), plus the interpreter's own. *)
Inductive error :=
| NoEncoderInstalled                  (* Exception, line 53 *)
| IllegalEncoder                      (* ValueError, lines 57 and 102 *)
| EncoderNotInstalled (enc : string)  (* Exception, line 60 *)
| BadInputType                        (* ValueError, line 69 *)
| NoMatchingFiles (pattern : string)  (* IOError, line 77 *)
| MissingInputFiles                   (* IOError, line 86 *)
| UnknownFileType                     (* ValueError, line 90 *)
| IllegalFileType (file_type : string)(* TypeError, line 93 *)
| InvalidFileSpec                     (* ValueError, lines 150, 187, 360 *)
| OutputExists (output_file : string) (* Exception, lines 160, 244, 380, 529 *)
| UnsupportedFrameRate                (* ValueError, line 329 *)
| UnsupportedAspectRatio              (* ValueError, lines 340 and 572 *)
| NoYuvConverter                      (* Exception, line 506 *)
| NoImageConverter                    (* Exception, line 614 *)
| Builtin (e : builtin_error).

Definition result (A : Type) : Type := (error + A)%type.

(** ** Python values *)

Module Py.

(** The values a keyword argument of [movie] can hold. Floats are IEEE
    binary64, as in CPython; [str] is the byte string of Python 2.
    [PInt] is a plain [int]: the [long] integers of Python 2, which
    fail [isinstance(v, (float,int))], are not among these values. *)
Inductive pyval :=
| PNone
| PBool (b : bool)
| PInt (z : Z)
| PFloat (f : float)
| PStr (s : string)
| PTuple (l : list pyval)
| PList (l : list pyval).

(** [bool(v)] *)
Definition truthy (v : pyval) : bool :=
  match v with
  | PNone => false
  | PBool b => b
  | PInt z => negb (z =? 0)
  | PFloat f => negb (PrimFloat.eqb f 0%float)
  | PStr s => negb (String.eqb s "")
  | PTuple l | PList l => match l with [] => false | _ => true end
  end.

(** [v is None] *)
Definition is_none (v : pyval) : bool :=
  match v with PNone => true | _ => false end.

(** [isinstance(v, str)], [isinstance(v, (tuple,list))] and
    [isinstance(v, (float,int))]; [bool] is a subclass of [int]. *)
Definition is_str (v : pyval) : bool :=
  match v with PStr _ => true | _ => false end.
Definition is_seq (v : pyval) : bool :=
  match v with PTuple _ | PList _ => true | _ => false end.
Definition is_float_or_int (v : pyval) : bool :=
  match v with PBool _ | PInt _ | PFloat _ => true | _ => false end.

(** *** Numbers *)

(** The integer a finite float denotes when it denotes one. *)
Definition float_integral (f : float) : option Z :=
  match Prim2SF f with
  | S754_zero _ => Some 0
  | S754_finite s m e =>
      let v := if s then Z.neg m else Z.pos m in
      if 0 <=? e then Some (v * 2 ^ e)
      else if (v mod 2 ^ (- e)) =? 0 then Some (v / 2 ^ (- e)) else None
  | _ => None
  end.

(** [int(f)] on a float: truncation toward zero. *)
Definition float_trunc (f : float) : result Z :=
  match Prim2SF f with
  | S754_zero _ => inr 0
  | S754_finite s m e =>
      let a := if 0 <=? e then Z.pos m * 2 ^ e else Z.pos m / 2 ^ (- e) in
      inr (if s then - a else a)
  | S754_infinity _ => inl (Builtin OverflowError)
  | S754_nan => inl (Builtin ValueError)
  end.

(** [float(z)] on an integer: the nearest float, ties to even;
    [OverflowError] when there is none. *)
Definition float_of_Z (z : Z) : result float :=
  let f := SF2Prim (binary_normalize prec emax z 0 false) in
  if PrimFloat.is_infinity f then inl (Builtin OverflowError) else inr f.

Definition number (v : pyval) : option (Z + float) :=
  match v with
  | PBool b => Some (inl (if b then 1 else 0))
  | PInt z => Some (inl z)
  | PFloat f => Some (inr f)
  | _ => None
  end.

(** [==] on numbers compares an integer and a float by value. *)
Definition num_eq (a b : Z + float) : bool :=
  match a, b with
  | inl x, inl y => x =? y
  | inr f, inr g => PrimFloat.eqb f g
  | inl x, inr f | inr f, inl x =>
      match float_integral f with Some y => x =? y | None => false end
  end.

(** [a == b] *)
Fixpoint py_eq (a b : pyval) {struct a} : bool :=
  let seq_eq :=
    fix go (l m : list pyval) {struct l} : bool :=
      match l, m with
      | [], [] => true
      | x :: l', y :: m' => py_eq x y && go l' m'
      | _, _ => false
      end in
  match a, b with
  | PNone, PNone => true
  | PStr s, PStr t => String.eqb s t
  | PTuple l, PTuple m => seq_eq l m
  | PList l, PList m => seq_eq l m
  | _, _ =>
      match number a, number b with
      | Some x, Some y => num_eq x y
      | _, _ => false
      end
  end.

(** [v in l] *)
Definition py_in (v : pyval) (l : list pyval) : bool := existsb (py_eq v) l.

End Py.
Export Py.

(** ** Strings and paths *)

Module Str.

Definition newline : ascii := Ascii.ascii_of_nat 10.
Definition tab : ascii := Ascii.ascii_of_nat 9.
Definition nl : string := String newline "".

(** [sep.join(l)] *)
Fixpoint join (sep : string) (l : list string) : string :=
  match l with
  | [] => ""
  | [s] => s
  | s :: l' => s +:+ sep +:+ join sep l'
  end.

(** [s * n] *)
Fixpoint repeat_str (s : string) (n : nat) : string :=
  match n with
  | O => ""
  | S n' => s +:+ repeat_str s n'
  end.

(** [s.split(c)] for a one-character separator: never empty. *)
Fixpoint split_on (c : ascii) (s : string) : list string :=
  match s with
  | "" => [""]
  | String a s' =>
      let r := split_on c s' in
      if Ascii.eqb a c then "" :: r
      else match r with
           | h :: t => String a h :: t
           | [] => [String a ""]
           end
  end.

(** [c in s] *)
Fixpoint contains (c : ascii) (s : string) : bool :=
  match s with
  | "" => false
  | String a s' => Ascii.eqb a c || contains c s'
  end.

(** [s.find(c)], [None] for -1. *)
Fixpoint find (c : ascii) (s : string) : option nat :=
  match s with
  | "" => None
  | String a s' =>
      if Ascii.eqb a c then Some O
      else match find c s' with Some i => Some (S i) | None => None end
  end.

(** [s.rfind(c)], [None] for -1. *)
Fixpoint rfind (c : ascii) (s : string) : option nat :=
  match s with
  | "" => None
  | String a s' =>
      match rfind c s' with
      | Some i => Some (S i)
      | None => if Ascii.eqb a c then Some O else None
      end
  end.

(** [s[:n]] and [s[n:]] *)
Fixpoint take (n : nat) (s : string) : string :=
  match n, s with
  | S n', String a s' => String a (take n' s')
  | _, _ => ""
  end.
Fixpoint drop (n : nat) (s : string) : string :=
  match n, s with
  | S n', String _ s' => drop n' s'
  | _, _ => s
  end.

Fixpoint all_chars (p : ascii -> bool) (s : string) : bool :=
  match s with
  | "" => true
  | String a s' => p a && all_chars p s'
  end.

(** [s.rstrip(c)] *)
Fixpoint rstrip (c : ascii) (s : string) : string :=
  match s with
  | "" => ""
  | String a s' =>
      match rstrip c s' with
      | "" => if Ascii.eqb a c then "" else String a ""
      | r => String a r
      end
  end.

Definition is_digit (a : ascii) : bool :=
  let n := Ascii.N_of_ascii a in ((48 <=? n) && (n <=? 57))%N.

(** [s.upper()] and [s.lower()] in the C locale. *)
Definition upper_char (a : ascii) : ascii :=
  let n := Ascii.N_of_ascii a in
  if ((97 <=? n) && (n <=? 122))%N then Ascii.ascii_of_N (n - 32) else a.
Definition lower_char (a : ascii) : ascii :=
  let n := Ascii.N_of_ascii a in
  if ((65 <=? n) && (n <=? 90))%N then Ascii.ascii_of_N (n + 32) else a.
Fixpoint map_chars (f : ascii -> ascii) (s : string) : string :=
  match s with
  | "" => ""
  | String a s' => String (f a) (map_chars f s')
  end.
Definition upper : string -> string := map_chars upper_char.
Definition lower : string -> string := map_chars lower_char.

(** [s.startswith(p)] *)
Definition startswith (s p : string) : bool := String.prefix p s.

(** [os.path.split(p)] of [posixpath]. *)
Definition path_split (p : string) : string * string :=
  let i := match rfind "/" p with Some i => S i | None => O end in
  let head := take i p in
  let tail := drop i p in
  let head :=
    if negb (String.eqb head "") && negb (all_chars (Ascii.eqb "/") head)
    then rstrip "/" head else head in
  (head, tail).

(** [os.path.splitext(p)] of [posixpath] (Python 2.6 and later): the
    extension starts at the last dot of the last path component, unless
    only dots precede it there. *)
Definition splitext (p : string) : string * string :=
  let i := match rfind "/" p with Some i => S i | None => O end in
  let name := drop i p in
  match rfind "." name with
  | Some d =>
      if all_chars (Ascii.eqb ".") (take d name) then (p, "")
      else (take (i + d) p, drop (i + d) p)
  | None => (p, "")
  end.

(** *** Decimal numerals *)

Definition digit (d : Z) : ascii := Ascii.ascii_of_N (48 + Z.to_N d).

(** The last [w] decimal digits of [n], most significant first. *)
Fixpoint zpad (w : nat) (n : Z) : string :=
  match w with
  | O => ""
  | S w' => zpad w' (n / 10) +:+ String (digit (n mod 10)) ""
  end.

Fixpoint ndigits_aux (fuel : nat) (n : Z) : nat :=
  match fuel with
  | O => 1
  | S f => if n <? 10 then 1%nat else S (ndigits_aux f (n / 10))
  end.

(** The number of decimal digits of [n >= 0]; a numeral of [n] has at
    most as many digits as [n] has bits. *)
Definition ndigits (n : Z) : nat := ndigits_aux (Z.to_nat (Z.log2 n)) n.

(** ['%0<w>d' % z]: at least [w] characters, the sign included. *)
Definition fmt_0d (w : nat) (z : Z) : string :=
  if z <? 0 then "-" +:+ zpad (Nat.max (w - 1) (ndigits (- z))) (- z)
  else zpad (Nat.max w (ndigits z)) z.

(** ['%d' % z] and [str(z)] on an integer. *)
Definition dec (z : Z) : string := fmt_0d 0 z.

(** [int(s)] on a string of decimal digits. *)
Fixpoint digits_acc (acc : Z) (s : string) : Z :=
  match s with
  | "" => acc
  | String a s' => digits_acc (10 * acc + (Z.of_N (Ascii.N_of_ascii a) - 48)) s'
  end.

Definition digits_value (s : string) : Z := digits_acc 0 s.

End Str.

(** ** Conversions and string formatting *)

(** What the embedding leaves to the interpreter: the text of a float
    and of a sequence, the parsers behind [float(s)] and [int(s)], and
    the [%] operator on a format string supplied by the caller. *)
Class PyRuntime := {
  float_str : float -> string;              (* str(f) *)
  float_fmt_g : float -> string;            (* '%g' % f *)
  seq_str : pyval -> string;                (* str(v), v a tuple or a list *)
  float_of_str : string -> option float;    (* float(s), None: ValueError *)
  int_of_str : string -> option Z;          (* int(s), None: ValueError *)
  str_mod : string -> Z -> result string;   (* fmt % i *)
}.

Module Fmt.
Section Fmt.
Context `{PyRuntime}.

(** [str(v)] *)
Definition py_str (v : pyval) : string :=
  match v with
  | PNone => "None"
  | PBool true => "True"
  | PBool false => "False"
  | PInt z => Str.dec z
  | PFloat f => float_str f
  | PStr s => s
  | PTuple _ | PList _ => seq_str v
  end.

(** ['%s' % v]: a tuple on the right of [%] is the argument list. *)
Definition mod_s (v : pyval) : result string :=
  match v with
  | PTuple [x] => inr (py_str x)
  | PTuple _ => inl (Builtin TypeError)
  | _ => inr (py_str v)
  end.

(** ['%sx%s' % v] *)
Definition mod_s_x_s (v : pyval) : result string :=
  match v with
  | PTuple [a; b] => inr (py_str a +:+ "x" +:+ py_str b)
  | _ => inl (Builtin TypeError)
  end.

(** [int(v)] *)
Definition py_int (v : pyval) : result Z :=
  match v with
  | PBool b => inr (if b then 1 else 0)
  | PInt z => inr z
  | PFloat f => float_trunc f
  | PStr s =>
      match int_of_str s with
      | Some z => inr z
      | None => inl (Builtin ValueError)
      end
  | _ => inl (Builtin TypeError)
  end.

(** [float(v)] *)
Definition py_float (v : pyval) : result float :=
  match v with
  | PBool b => inr (if b then 1%float else 0%float)
  | PInt z => float_of_Z z
  | PFloat f => inr f
  | PStr s =>
      match float_of_str s with
      | Some f => inr f
      | None => inl (Builtin ValueError)
      end
  | _ => inl (Builtin TypeError)
  end.

(** ['%(name)d' % vars()] for the value bound to [name]. *)
Definition fmt_d (v : pyval) : result string :=
  match v with
  | PBool b => inr (if b then "1" else "0")
  | PInt z => inr (Str.dec z)
  | PFloat f =>
      match float_trunc f with
      | inr z => inr (Str.dec z)
      | inl e => inl e
      end
  | _ => inl (Builtin TypeError)
  end.

(** ['%d' % v] *)
Definition mod_d (v : pyval) : result string :=
  match v with
  | PTuple [x] => fmt_d x
  | _ => fmt_d v
  end.

(** [1.0/v*100], the delay of [_convert] in hundredths of a second. *)
Definition delay_of_fps (v : pyval) : result float :=
  let divide (f : float) : result float :=
    if PrimFloat.eqb f 0%float then inl (Builtin ZeroDivisionError)
    else inr (PrimFloat.mul (PrimFloat.div 1%float f) 100%float) in
  match v with
  | PBool b => divide (if b then 1%float else 0%float)
  | PInt z =>
      match float_of_Z z with
      | inr f => divide f
      | inl e => inl e
      end
  | PFloat f => divide f
  | _ => inl (Builtin TypeError)
  end.

End Fmt.
End Fmt.

(** ** [fnmatch] *)

Module Fnmatch.

(** A pattern after [fnmatch.translate]: [*], [?], a bracket expression
    as the ranges of its regular-expression set, or a literal. *)
Inductive gtok :=
| GStar
| GAny
| GSet (negated : bool) (ranges : list (ascii * ascii))
| GLit (c : ascii).

Fixpoint until_close (s : string) : option (string * string) :=
  match s with
  | "" => None
  | String a r =>
      if Ascii.eqb a "]" then Some ("", r)
      else match until_close r with
           | Some (b, r') => Some (String a b, r')
           | None => None
           end
  end.

(** After a [[]: skip one [!], then one []], then scan to the next []].
    Returns what the brackets enclose and what follows them. *)
Definition bracket (s : string) : option (string * string) :=
  let '(p1, s1) :=
    match s with
    | String a r => if Ascii.eqb a "!" then ("!", r) else ("", s)
    | "" => ("", s)
    end in
  let '(p2, s2) :=
    match s1 with
    | String a r => if Ascii.eqb a "]" then ("]", r) else ("", s1)
    | "" => ("", s1)
    end in
  match until_close s2 with
  | Some (b, rest) => Some (p1 +:+ p2 +:+ b, rest)
  | None => None
  end.

(** The set [re] builds from the text between the brackets: every
    character stands for itself ([translate] escapes the backslashes and
    a leading caret), and [c-d] is a range, an error when [d < c]. *)
Fixpoint parse_set (b : list ascii) : option (list (ascii * ascii)) :=
  match b with
  | [] => Some []
  | c :: b' =>
      match b' with
      | m :: d :: rest =>
          if Ascii.eqb m "-" then
            if (Ascii.N_of_ascii d <? Ascii.N_of_ascii c)%N then None
            else option_map (cons (c, d)) (parse_set rest)
          else option_map (cons (c, c)) (parse_set b')
      | _ => option_map (cons (c, c)) (parse_set b')
      end
  end.

(** [fnmatch.translate(pat)] followed by [re.compile]. *)
Fixpoint translate (fuel : nat) (pat : string) : result (list gtok) :=
  match fuel, pat with
  | S f, String c rest =>
      let next (t : gtok) (rest : string) : result (list gtok) :=
        match translate f rest with
        | inr ts => inr (t :: ts)
        | inl e => inl e
        end in
      if Ascii.eqb c "*" then next GStar rest
      else if Ascii.eqb c "?" then next GAny rest
      else if Ascii.eqb c "[" then
        match bracket rest with
        | None => next (GLit "[") rest
        | Some (stuff, rest') =>
            let '(neg, body) :=
              match stuff with
              | String a b => if Ascii.eqb a "!" then (true, b) else (false, stuff)
              | "" => (false, stuff)
              end in
            match parse_set (list_ascii_of_string body) with
            | Some rs => next (GSet neg rs) rest'
            | None => inl (Builtin ReError)
            end
        end
      else next (GLit c) rest
  | _, _ => inr []
  end.

Definition in_set (rs : list (ascii * ascii)) (c : ascii) : bool :=
  existsb (fun r => (Ascii.N_of_ascii (fst r) <=? Ascii.N_of_ascii c)%N
                    && (Ascii.N_of_ascii c <=? Ascii.N_of_ascii (snd r))%N) rs.

(** The compiled pattern matches the whole name; [*] and [?] match any
    character, a newline too. *)
Fixpoint gmatch (p : list gtok) (s : string) : bool :=
  match p with
  | [] => match s with "" => true | _ => false end
  | GStar :: p' =>
      (fix star (s : string) : bool :=
         gmatch p' s || match s with "" => false | String _ s' => star s' end) s
  | GAny :: p' =>
      match s with String _ s' => gmatch p' s' | "" => false end
  | GSet neg rs :: p' =>
      match s with
      | String c s' => xorb neg (in_set rs c) && gmatch p' s'
      | "" => false
      end
  | GLit a :: p' =>
      match s with
      | String c s' => Ascii.eqb a c && gmatch p' s'
      | "" => false
      end
  end.

(** [fnmatch.filter(names, pat)] *)
Definition filter (names : list string) (pat : string) : result (list string) :=
  match translate (String.length pat) pat with
  | inr p => inr (List.filter (gmatch p) names)
  | inl e => inl e
  end.

End Fnmatch.

(** ** The printf-style file name pattern *)

Module Printf.

Fixpoint take_digits (s : string) : string :=
  match s with
  | String a s' => if Str.is_digit a then String a (take_digits s') else ""
  | "" => ""
  end.

(** The placeholder and what follows it, at the head of [r] and within
    one line: a percent sign, one or more digits, the letter d, and the
    rest of the line, which must hold a dot. Returns the digits and that
    rest. *)
Definition placeholder_at (r : string) : option (string * string) :=
  match r with
  | String a r1 =>
      if Ascii.eqb a "%" then
        let ds := take_digits r1 in
        match ds, Str.drop (String.length ds) r1 with
        | String _ _, String b r3 =>
            if Ascii.eqb b "d" && Str.contains "." r3 then Some (ds, r3) else None
        | _, _ => None
        end
      else None
  | "" => None
  end.

(** The whole pattern on one line. Its first group is greedy, so the
    last placeholder of the line is the one found. *)
Fixpoint search_line (ln : string) : option (string * string * string) :=
  match ln with
  | "" => None
  | String c rest =>
      match search_line rest with
      | Some (pre, ds, ext) => Some (String c pre, ds, ext)
      | None =>
          match placeholder_at ln with
          | Some (ds, ext) => Some ("", ds, ext)
          | None => None
          end
      end
  end.

(** [re.search(pattern, s)] for the pattern of lines 140, 177, 262, 350
    and 478 (any text, the placeholder, any text with a dot), as its
    groups 1, 2 and 3. No group crosses a newline, so the match lies in
    the first line that has one and starts where that line starts. *)
Definition re_search (s : string) : option (string * string * string) :=
  (fix first (lns : list string) :=
     match lns with
     | [] => None
     | ln :: lns' =>
         match search_line ln with
         | Some g => Some g
         | None => first lns'
         end
     end) (Str.split_on Str.newline s).

(** [pre + '[0-9]'*num + ext] *)
Definition digit_glob (g : string * string * string) : string :=
  let '(pre, ds, ext) := g in
  pre +:+ Str.repeat_str "[0-9]" (Z.to_nat (Str.digits_value ds)) +:+ ext.

End Printf.

(** ** The world: files, output, processes *)

(** A path names a regular file with its content, a directory, or
    nothing. Paths are the strings the program uses; the files of the
    current directory are the paths without a slash. *)
Inductive node :=
| RegularFile (content : string)
| Directory (st_size : Z).

Record World := mkWorld {
  w_fs : gmap string node;          (* the file system *)
  w_stdout : list string;           (* one entry per [print] statement *)
  w_spawned : list (string * Z);    (* [os.system] calls and their results *)
}.

(** What the host decides: which programs are installed
    ([scitools.misc.findprograms], on one name and on a tuple of names),
    the type check of [misc._check_type], what a shell command does to
    the files and how it exits, and [glob.glob] on a pattern with a
    directory part. *)
Class Host := {
  findprograms : string -> bool;
  findprograms_all : list string -> bool;
  _check_type : list string -> string -> option error;
  os_system : string -> World -> Z * gmap string node;
  glob_nested : gmap string node -> string -> result (list string);
}.

Module Os.

(** [os.path.isfile(p)], [os.path.lexists(p)] and [os.path.isdir(p)] *)
Definition isfile (fs : gmap string node) (p : string) : bool :=
  match fs !! p with Some (RegularFile _) => true | _ => false end.
Definition lexists (fs : gmap string node) (p : string) : bool :=
  match fs !! p with Some _ => true | None => false end.

Definition isdir (fs : gmap string node) (p : string) : bool :=
  match fs !! p with Some (Directory _) => true | _ => false end.

(** [os.path.getsize(p)] *)
Definition getsize (fs : gmap string node) (p : string) : result Z :=
  match fs !! p with
  | Some (RegularFile c) => inr (Z.of_nat (String.length c))
  | Some (Directory n) => inr n
  | None => inl (Builtin OSError)
  end.

(** [os.remove(p)] *)
Definition remove (fs : gmap string node) (p : string) : result (gmap string node) :=
  match fs !! p with
  | Some (RegularFile _) => inr (delete p fs)
  | _ => inl (Builtin OSError)
  end.

(** [open(p, 'w')]: the file exists and is empty afterwards. *)
Definition open_w (fs : gmap string node) (p : string) : result (gmap string node) :=
  match fs !! p with
  | Some (Directory _) => inl (Builtin IOError)
  | _ => inr (<[p := RegularFile ""]> fs)
  end.

(** [f.write(s)] on the file opened at [p]. *)
Definition write (fs : gmap string node) (p s : string) : gmap string node :=
  match fs !! p with
  | Some (RegularFile c) => <[p := RegularFile (c +:+ s)]> fs
  | _ => <[p := RegularFile s]> fs
  end.

(** [os.listdir(os.curdir)], in no particular order. *)
Definition listdir (fs : gmap string node) : list string :=
  List.filter (fun p => negb (Str.contains "/" p)) (map fst (map_to_list fs)).

End Os.

Module Glob.
Section Glob.
Context `{Host}.

Definition has_magic (s : string) : bool :=
  Str.contains "*" s || Str.contains "?" s || Str.contains "[" s.

(** [glob.glob1(os.curdir, pattern)] *)
Definition glob1 (fs : gmap string node) (pat : string) : result (list string) :=
  let names := Os.listdir fs in
  let names :=
    match pat with
    | String c _ =>
        if Ascii.eqb c "." then names
        else List.filter (fun n => negb (Str.startswith n ".")) names
    | "" => names
    end in
  Fnmatch.filter names pat.

(** [glob.glob(pathname)] *)
Definition glob (fs : gmap string node) (pathname : string) : result (list string) :=
  if negb (has_magic pathname) then
    match snd (Str.path_split pathname) with
    | "" => inr (if Os.isdir fs (fst (Str.path_split pathname)) then [pathname] else [])
    | _ => inr (if Os.lexists fs pathname then [pathname] else [])
    end
  else if Str.contains "/" pathname then glob_nested fs pathname
  else glob1 fs pathname.

End Glob.
End Glob.

(** [l.sort()] on strings: ascending in the byte order of [str]. *)
Module Sort.

Definition leb (s t : string) : bool :=
  match String.compare s t with Gt => false | _ => true end.

Fixpoint insert (s : string) (l : list string) : list string :=
  match l with
  | [] => [s]
  | t :: l' => if leb s t then s :: l else t :: insert s l'
  end.

Definition sort (l : list string) : list string := fold_right insert [] l.

End Sort.

(** ** [class MovieEncoder] *)

Module Movie.

(** [input_files] once the constructor has accepted it: a string, or a
    list or tuple of strings. *)
Inductive input_spec :=
| InStr (s : string)
| InSeq (l : list string).

(** [self._prop]: the keys of [_local_prop] and [file_type]. *)
Record Props := mkProps {
  input_files : input_spec;
  output_file : pyval;
  overwrite_output : pyval;
  encoder : pyval;
  vbitrate : pyval;
  vbuffer : pyval;
  fps : pyval;
  vcodec : pyval;
  size : pyval;
  quiet : pyval;
  aspect : pyval;
  preferred_package : pyval;
  qscale : pyval;
  qmin : pyval;
  qmax : pyval;
  iqscale : pyval;
  pqscale : pyval;
  bqscale : pyval;
  pattern : pyval;
  gop_size : pyval;
  force_conversion : pyval;
  cleanup : pyval;
  file_type : string;
}.

(** The object: [self._prop], and [self._tmp_files] when the attribute
    is set. *)
Record MovieEncoder := mkEncoder {
  _prop : Props;
  _tmp_files : option (list string);
}.

Definition _local_prop (input : input_spec) : Props := {|
  input_files := input;
  output_file := PNone;
  overwrite_output := PBool true;
  encoder := PNone;
  vbitrate := PNone;
  vbuffer := PNone;
  fps := PInt 25;
  vcodec := PStr "mpeg4";
  size := PNone;
  quiet := PBool false;
  aspect := PNone;
  preferred_package := PStr "ImageMagick";
  qscale := PNone;
  qmin := PInt 2;
  qmax := PInt 31;
  iqscale := PNone;
  pqscale := PNone;
  bqscale := PNone;
  pattern := PStr "I";
  gop_size := PNone;
  force_conversion := PBool false;
  cleanup := PBool true;
  file_type := "";
|}.

Definition _legal_encoders : list string :=
  ["mencoder"; "ffmpeg"; "mpeg_encode"; "ppmtompeg"; "mpeg2enc"; "convert"].
Definition _legal_file_types : list string :=
  ["png"; "gif"; "jpg"; "ps"; "eps"; "bmp"; "tif"; "tga"; "pnm"].

(** [self._prop[key] = v] for a key of [_local_prop] other than
    [input_files]; any other key leaves [p] as it is. *)
Definition set_prop (key : string) (v : pyval) (p : Props) : Props :=
  let upd (k : string) (old : pyval) : pyval :=
    if String.eqb key k then v else old in
  {|
    input_files := input_files p;
    output_file := upd "output_file" (output_file p);
    overwrite_output := upd "overwrite_output" (overwrite_output p);
    encoder := upd "encoder" (encoder p);
    vbitrate := upd "vbitrate" (vbitrate p);
    vbuffer := upd "vbuffer" (vbuffer p);
    fps := upd "fps" (fps p);
    vcodec := upd "vcodec" (vcodec p);
    size := upd "size" (size p);
    quiet := upd "quiet" (quiet p);
    aspect := upd "aspect" (aspect p);
    preferred_package := upd "preferred_package" (preferred_package p);
    qscale := upd "qscale" (qscale p);
    qmin := upd "qmin" (qmin p);
    qmax := upd "qmax" (qmax p);
    iqscale := upd "iqscale" (iqscale p);
    pqscale := upd "pqscale" (pqscale p);
    bqscale := upd "bqscale" (bqscale p);
    pattern := upd "pattern" (pattern p);
    gop_size := upd "gop_size" (gop_size p);
    force_conversion := upd "force_conversion" (force_conversion p);
    cleanup := upd "cleanup" (cleanup p);
    file_type := file_type p;
  |}.

Definition set_file_type (t : string) (p : Props) : Props := {|
  input_files := input_files p;
  output_file := output_file p;
  overwrite_output := overwrite_output p;
  encoder := encoder p;
  vbitrate := vbitrate p;
  vbuffer := vbuffer p;
  fps := fps p;
  vcodec := vcodec p;
  size := size p;
  quiet := quiet p;
  aspect := aspect p;
  preferred_package := preferred_package p;
  qscale := qscale p;
  qmin := qmin p;
  qmax := qmax p;
  iqscale := iqscale p;
  pqscale := pqscale p;
  bqscale := bqscale p;
  pattern := pattern p;
  gop_size := gop_size p;
  force_conversion := force_conversion p;
  cleanup := cleanup p;
  file_type := t;
|}.

(** *** The monad of methods: the object, the world, and a value or an
    exception. The object and the world survive an exception. *)

Definition M (A : Type) : Type :=
  MovieEncoder -> World -> MovieEncoder * World * result A.

Definition ret {A} (a : A) : M A := fun self w => (self, w, inr a).
Definition raise {A} (e : error) : M A := fun self w => (self, w, inl e).
Definition bind {A B} (c : M A) (k : A -> M B) : M B :=
  fun self w =>
    match c self w with
    | (self', w', inr a) => k a self' w'
    | (self', w', inl e) => (self', w', inl e)
    end.
Definition lift {A} (r : result A) : M A :=
  match r with inr a => ret a | inl e => raise e end.

Notation "x <- c ;; k" := (bind c (fun x => k))
  (at level 100, c at next level, right associativity).
Notation "c ;;; k" := (bind c (fun _ => k))
  (at level 100, right associativity).

Section Methods.
Context `{PyRuntime} `{Host}.

(** [self._prop[key]] *)
Definition prop {A} (key : Props -> A) : M A :=
  fun self w => (self, w, inr (key (_prop self))).

(** [self._prop[key] = v] *)
Definition assign (key : string) (v : pyval) : M unit :=
  fun self w =>
    (mkEncoder (set_prop key v (_prop self)) (_tmp_files self), w, inr tt).

Definition assign_file_type (t : string) : M unit :=
  fun self w =>
    (mkEncoder (set_file_type t (_prop self)) (_tmp_files self), w, inr tt).

(** [self._prop = p] *)
Definition assign_props (p : Props) : M unit :=
  fun self w => (mkEncoder p (_tmp_files self), w, inr tt).

(** [self._tmp_files], [None] without the attribute, and
    [self._tmp_files = l] *)
Definition tmp_files : M (option (list string)) :=
  fun self w => (self, w, inr (_tmp_files self)).
Definition assign_tmp_files (l : list string) : M unit :=
  fun self w => (mkEncoder (_prop self) (Some l), w, inr tt).

(** [print s] *)
Definition print (s : string) : M unit :=
  fun self w =>
    (self, mkWorld (w_fs w) (w_stdout w ++ [s]) (w_spawned w), inr tt).

(** [os.system(cmd)] *)
Definition system (cmd : string) : M Z :=
  fun self w =>
    let '(status, fs) := os_system cmd w in
    (self, mkWorld fs (w_stdout w) (w_spawned w ++ [(cmd, status)]), inr status).

(** Reading and changing the file system. *)
Definition on_fs {A} (f : gmap string node -> result A) : M A :=
  fun self w => (self, w, f (w_fs w)).
Definition update_fs (f : gmap string node -> result (gmap string node)) : M unit :=
  fun self w =>
    match f (w_fs w) with
    | inr fs => (self, mkWorld fs (w_stdout w) (w_spawned w), inr tt)
    | inl e => (self, w, inl e)
    end.

(** [os.path.isfile(v)]: a path that is no string is a [TypeError]. *)
Definition isfile (v : pyval) : M bool :=
  match v with
  | PStr p => on_fs (fun fs => inr (Os.isfile fs p))
  | _ => raise (Builtin TypeError)
  end.

(** The file list of one glob pattern, expanded and sorted (lines
    140-148, 177-185 and 350-358): a printf-style name becomes a glob
    pattern of digit classes first. *)
Definition expand_pattern (files : string) : M (list string) :=
  let files :=
    match Printf.re_search files with
    | Some g => Printf.digit_glob g
    | None => files
    end in
  files <- on_fs (fun fs => Glob.glob fs files) ;;
  ret (Sort.sort files).

Definition dq : string := String (Ascii.ascii_of_nat 34) "".

(** [cmd = encoder] and the first [cmd += s], which needs [encoder] to
    be a string ([encode] has checked that it is). *)
Definition plus_str (encoder : pyval) (s : string) : result string :=
  match encoder with
  | PStr cmd => inr (cmd +:+ s)
  | _ => inl (Builtin TypeError)
  end.

(** *** [_get_size] (lines 678-692) *)

Definition legal_sizes : list (string * pyval) :=
  [("sqcif", PTuple [PInt 128; PInt 96]);
   ("qcif", PTuple [PInt 176; PInt 144]);
   ("cif", PTuple [PInt 352; PInt 288]);
   ("4cif", PTuple [PInt 704; PInt 576])].

Fixpoint assoc {A} (k : string) (l : list (string * A)) : option A :=
  match l with
  | [] => None
  | (k', a) :: l' => if String.eqb k k' then Some a else assoc k l'
  end.

Definition get_size (size : pyval) : pyval :=
  let size :=
    match size with
    | PStr s =>
        match assoc s legal_sizes with
        | Some t => t
        | None => PList (map PStr (Str.split_on "x" s))
        end
    | _ => size
    end in
  match size with
  | PTuple [_; _] | PList [_; _] => size
  | _ => PNone
  end.

Definition _get_size : M pyval :=
  size <- prop size ;;
  ret (get_size size).

(** [size[0]] and [size[1]] of what [_get_size] returned. *)
Definition size_items (size : pyval) : result (pyval * pyval) :=
  match size with
  | PTuple (a :: b :: _) | PList (a :: b :: _) => inr (a, b)
  | PTuple _ | PList _ => inl (Builtin IndexError)
  | _ => inl (Builtin TypeError)
  end.

(** [w, h = size] *)
Definition unpack_size (size : pyval) : result (pyval * pyval) :=
  match size with
  | PTuple [a; b] | PList [a; b] => inr (a, b)
  | PTuple _ | PList _ => inl (Builtin ValueError)
  | _ => inl (Builtin TypeError)
  end.

(** *** [_get_aspect_ratio] (lines 662-676) *)

Definition get_aspect_ratio (aspect : pyval) : pyval :=
  match aspect with
  | PStr s =>
      let parts : option (list string) :=
        match Str.find ":" s with
        | Some (S _) => Some (Str.split_on ":" s)
        | _ =>
            match Str.find "/" s with
            | Some O => None      (* float(aspect) or None: not a sequence *)
            | _ => Some (Str.split_on "/" s)
            end
        end in
      match parts with
      | Some (a :: b :: _) =>
          match float_of_str a, float_of_str b with
          | Some x, Some y =>
              if PrimFloat.eqb y 0%float then PNone
              else PFloat (PrimFloat.div x y)
          | _, _ => PNone
          end
      | _ => PNone
      end
  | _ => aspect
  end.

Definition _get_aspect_ratio : M pyval :=
  aspect <- prop aspect ;;
  ret (get_aspect_ratio aspect).

(** *** [_any2any] (lines 583-660) *)

Definition netpbm_converters : list (string * (string * string)) :=
  [(".png", ("pngtopnm", "pnmtopng"));
   (".gif", ("giftopnm", "ppmtogif"));
   (".jpg", ("jpegtopnm", "pnmtojpeg"));
   (".ps", ("pstopnm", "pnmtops"));
   (".eps", ("pstopnm", "pnmtops"));
   (".bmp", ("bmptopnm", "ppmtobmp"));
   (".tif", ("tifftopnm", "pnmtotiff"));
   (".tga", ("tgatopnm", "ppmtotga"));
   (".pnm", ("cat", ""))].

(** [d[k]] *)
Definition getitem {A} (k : string) (d : list (string * A)) : result A :=
  match assoc k d with
  | Some a => inr a
  | None => inl (Builtin KeyError)
  end.

(** Lines 599-614: the two Netpbm filters for the extensions, and the
    program that converts: [convert], or the first Netpbm filter. *)
Definition any2any_app (files : list string) (ofile_ext : string)
  : M (string * string * string) :=
  match _check_type files "files" with
  | Some e => raise e
  | None =>
      match files with
      | [] => raise (Builtin IndexError)
      | file0 :: _ =>
          let ifile_ext := snd (Str.splitext file0) in
          conv_in <- lift (getitem ifile_ext netpbm_converters) ;;
          conv_out <- lift (getitem ofile_ext netpbm_converters) ;;
          let anytopnm := fst conv_in in
          let pnmtoany := snd conv_out in
          let convert := "convert" in
          if findprograms_all [convert; anytopnm; pnmtoany] then
            package <- prop preferred_package ;;
            match package with
            | PStr s =>
                if String.eqb (Str.lower s) "imagemagick"
                then ret (convert, anytopnm, pnmtoany)
                else ret (anytopnm, anytopnm, pnmtoany)
            | _ => raise (Builtin AttributeError)
            end
          else if findprograms convert then ret (convert, anytopnm, pnmtoany)
          else if negb (findprograms_all [anytopnm; pnmtoany]) then raise NoImageConverter
          else ret (anytopnm, anytopnm, pnmtoany)
      end
  end.

(** Lines 620-644: the output name and the shell command for one
    file. *)
Definition new_file_name (basename : string) (i : Z) (ofile_ext : string) : string :=
  basename +:+ Str.fmt_0d 4 i +:+ ofile_ext.

Definition any2any_cmd (app anytopnm pnmtoany : string) (quiet : bool)
    (size : pyval) (file_ new_file : string) : result string :=
  let pnmscale := "pnmscale" in
  if String.eqb app anytopnm then
    let options := "" in
    let options :=
      if quiet && negb (String.eqb app "cat") then options +:+ "-quiet" else options in
    let options :=
      if String.eqb app "pstopnm" then options +:+ " -stdout" else options in
    let cmd := app +:+ " " +:+ options +:+ " " +:+ file_ +:+ " " in
    match
      (if negb (is_none size) && findprograms pnmscale then
         match unpack_size size with
         | inr (w, h) =>
             inr (cmd +:+ "| " +:+ pnmscale +:+ " -width " +:+ Fmt.py_str w
                      +:+ " -height " +:+ Fmt.py_str h)
         | inl e => inl e
         end
       else inr cmd)
    with
    | inr cmd =>
        let cmd :=
          if negb (String.eqb pnmtoany "") then
            let options := "" in
            let options := if quiet then options +:+ "-quiet" else options in
            let options :=
              if String.eqb pnmtoany "pnmtojpeg" then options +:+ " -quality 100"
              else options in
            cmd +:+ " | " +:+ pnmtoany +:+ " " +:+ options
          else cmd in
        inr (cmd +:+ " > " +:+ new_file)
    | inl e => inl e
    end
  else
    match
      (if negb (is_none size) then
         match Fmt.mod_s_x_s size with
         | inr wxh => inr ("-resize " +:+ wxh)
         | inl e => inl e
         end
       else inr "")
    with
    | inr options => inr (app +:+ " " +:+ options +:+ " " +:+ file_ +:+ " " +:+ new_file)
    | inl e => inl e
    end.

(** Lines 648-649 and 652-657: the two lines the loop prints about a
    file, [bytes] being [os.path.getsize(new_file)]. *)
Definition any2any_failed (app : string) : string :=
  "... " +:+ app +:+ " failed, jumping to next file...".

Definition any2any_transformed (app pnmtoany file_ new_file : string) (bytes : Z)
  : string :=
  let apps := app in
  let apps :=
    if negb (String.eqb app "convert") && negb (String.eqb pnmtoany "")
    then apps +:+ " and " +:+ pnmtoany else apps in
  file_ +:+ " transformed via " +:+ apps +:+ " to " +:+ new_file
        +:+ " (" +:+ Str.dec (bytes / 1000) +:+ " Kb)".

(** Lines 619-658: the loop. A failed command is reported and the file
    skipped; the counter [i] moves on after a success only. *)
Fixpoint any2any_loop (app anytopnm pnmtoany : string) (quiet : bool)
    (basename : string) (size : pyval) (ofile_ext : string)
    (files : list string) (i : Z) (new_files : list string) : M (list string) :=
  match files with
  | [] => ret new_files
  | file_ :: files' =>
      let new_file := new_file_name basename i ofile_ext in
      cmd <- lift (any2any_cmd app anytopnm pnmtoany quiet size file_ new_file) ;;
      (if negb quiet then print cmd else ret tt) ;;;
      failure <- system cmd ;;
      if negb (failure =? 0) then
        print (any2any_failed app) ;;;
        any2any_loop app anytopnm pnmtoany quiet basename size ofile_ext
                     files' i new_files
      else
        let new_files := (new_files ++ [new_file])%list in
        (if negb quiet then
           bytes <- on_fs (fun fs => Os.getsize fs new_file) ;;
           print (any2any_transformed app pnmtoany file_ new_file bytes)
         else ret tt) ;;;
        any2any_loop app anytopnm pnmtoany quiet basename size ofile_ext
                     files' (i + 1) new_files
  end.

Definition _any2any (files : list string) (basename : string) (size : pyval)
    (ofile_ext : string) : M (list string) :=
  sel <- any2any_app files ofile_ext ;;
  let '(app, anytopnm, pnmtoany) := sel in
  quiet <- prop quiet ;;
  any2any_loop app anytopnm pnmtoany (truthy quiet) basename size ofile_ext
               files 1 [].

(** *** The output file

    Lines 156-163, 240-247, 376-383 and 525-532, the same statements in
    [_convert], [_mencoder], [_mpeg_encode] and [_mpeg2enc]: the default
    name replaces [None] in [self._prop] (so do lines 309-310 of
    [_ffmpeg]), and an existing file stops the builder unless
    [overwrite_output] holds. *)
Definition default_output_file (default : string) : M unit :=
  out <- prop output_file ;;
  if is_none out then assign "output_file" (PStr default) else ret tt.

Definition set_output_file (default : string) : M string :=
  default_output_file default ;;;
  output_file <- prop output_file ;;
  match output_file with
  | PStr f =>
      found <- on_fs (fun fs => inr (Os.isfile fs f)) ;;
      overwrite <- prop overwrite_output ;;
      if found && negb (truthy overwrite) then raise (OutputExists f)
      else ret f
  | _ => raise (Builtin TypeError)
  end.

(** *** [_convert] (lines 122-166) *)
Definition _convert : M string :=
  encoder <- prop encoder ;;
  fps <- prop fps ;;
  hundredths <- lift (Fmt.delay_of_fps fps) ;;
  delay <- lift (Fmt.fmt_d (PFloat hundredths)) ;;
  cmd <- lift (plus_str encoder (" -delay " +:+ delay)) ;;
  size <- _get_size ;;
  cmd <- (if negb (is_none size) then
            wh <- lift (size_items size) ;;
            ret (cmd +:+ " -scale " +:+ Fmt.py_str (fst wh) +:+ "x" +:+ Fmt.py_str (snd wh))
          else ret cmd) ;;
  files <- prop input_files ;;
  files <- match files with
           | InStr s => expand_pattern s
           | InSeq l => ret l
           end ;;
  match files with
  | [] => raise InvalidFileSpec
  | _ =>
      let cmd := cmd +:+ " " +:+ Str.join " " files in
      output_file <- set_output_file "movie.gif" ;;
      let cmd := cmd +:+ " " +:+ output_file in
      ret cmd
  end.

(** *** [_mencoder] (lines 168-251) *)
Definition _mencoder : M string :=
  encoder <- prop encoder ;;
  file_type <- prop file_type ;;
  files <- prop input_files ;;
  files <- match files with
           | InStr s =>
               l <- expand_pattern s ;;
               match l with
               | [] => raise InvalidFileSpec
               | _ => ret l
               end
           | InSeq l => ret l
           end ;;
  force <- prop force_conversion ;;
  conv <- (if negb (existsb (String.eqb file_type) ["jpg"; "png"]) || truthy force then
             files <- _any2any files "easyviz_tmp_" PNone ".png" ;;
             assign_tmp_files files ;;;
             ret (files, "png")
           else ret (files, file_type)) ;;
  let '(files, file_type) := conv in
  let files := Str.join "," files in
  cmd <- lift (plus_str encoder (" " +:+ dq +:+ "mf://" +:+ files +:+ dq +:+ " -mf")) ;;
  fps <- prop fps ;;
  fps <- lift (Fmt.py_float fps) ;;
  let cmd := cmd +:+ " fps=" +:+ float_fmt_g fps in
  let cmd := cmd +:+ ":type=" +:+ file_type in
  vbitrate <- prop vbitrate ;;
  let vbitrate := if is_none vbitrate then PInt 800 else vbitrate in
  vcodec <- prop vcodec ;;
  qscale <- prop qscale ;;
  qmin <- prop qmin ;;
  qmax <- prop qmax ;;
  vbuffer <- prop vbuffer ;;
  cmd <- (if py_eq vcodec (PStr "xvid") then
            let cmd := cmd +:+ " -ovc xvid -xvidencopts" in
            if negb (is_none qscale) then
              q <- lift (Fmt.mod_s qscale) ;;
              ret (cmd +:+ " fixed_quant=" +:+ q)
            else
              b <- lift (Fmt.mod_s vbitrate) ;;
              let cmd := cmd +:+ " bitrate=" +:+ b +:+ ":" in
              let cmd := cmd +:+ "min_iquant=" +:+ Fmt.py_str qmin
                             +:+ ":max_iquant=" +:+ Fmt.py_str qmax +:+ ":" in
              let cmd := cmd +:+ "min_pquant=" +:+ Fmt.py_str qmin
                             +:+ ":max_pquant=" +:+ Fmt.py_str qmax +:+ ":" in
              let cmd := cmd +:+ "min_bquant=" +:+ Fmt.py_str qmin
                             +:+ ":max_bquant=" +:+ Fmt.py_str qmax in
              ret cmd
          else
            c <- lift (Fmt.mod_s vcodec) ;;
            let cmd := cmd +:+ " -ovc lavc -lavcopts vcodec=" +:+ c +:+ ":mbd=1" in
            cmd <- (if negb (is_none vbitrate) then
                      b <- lift (Fmt.mod_s vbitrate) ;;
                      ret (cmd +:+ ":vbitrate=" +:+ b)
                    else ret cmd) ;;
            cmd <- (if negb (is_none qscale) then
                      q <- lift (Fmt.mod_s qscale) ;;
                      ret (cmd +:+ ":vqscale=" +:+ q)
                    else
                      ret (cmd +:+ ":vqmin=" +:+ Fmt.py_str qmin
                               +:+ ":vqmax=" +:+ Fmt.py_str qmax)) ;;
            if negb (is_none vbuffer) then
              b <- lift (Fmt.mod_s vbuffer) ;;
              ret (cmd +:+ ":vrc_buf_size=" +:+ b)
            else ret cmd) ;;
  aspect <- prop aspect ;;
  cmd <- (if negb (is_none aspect) then
            a <- lift (Fmt.mod_s aspect) ;;
            ret (cmd +:+ ":aspect=" +:+ a)
          else ret cmd) ;;
  size <- _get_size ;;
  cmd <- (if negb (is_none size) then
            wh <- lift (size_items size) ;;
            ret (cmd +:+ " -vf scale=" +:+ Fmt.py_str (fst wh) +:+ ":" +:+ Fmt.py_str (snd wh))
          else ret cmd) ;;
  output_file <- set_output_file "movie.avi" ;;
  let cmd := cmd +:+ " -o " +:+ output_file in
  quiet <- prop quiet ;;
  let cmd := if truthy quiet then cmd +:+ " > /dev/null 2>&1" else cmd in
  ret cmd.

(** *** The input of [_ffmpeg] and [_mpeg2enc]

    Lines 259-282 and 475-498, the same statements: a printf-style name
    of jpg or png files is passed on as it is; any other input is
    converted to png files numbered by [_any2any], and their printf-style
    name is passed on. Returns [files] and [file_type]. *)
Definition printf_input : M (string * string) :=
  files <- prop input_files ;;
  file_type <- prop file_type ;;
  files <- match files with
           | InStr s =>
               match Printf.re_search s with
               | Some g =>
                   force <- prop force_conversion ;;
                   if negb (existsb (String.eqb file_type) ["jpg"; "png"]) || truthy force then
                     l <- on_fs (fun fs => Glob.glob fs (Printf.digit_glob g)) ;;
                     ret (inr (Sort.sort l))
                   else ret (inl s)
               | None =>
                   l <- on_fs (fun fs => Glob.glob fs s) ;;
                   ret (inr (Sort.sort l))
               end
           | InSeq l => ret (inr l)
           end ;;
  match files with
  | inr l =>
      let basename := "easyviz_tmp_" in
      files <- _any2any l basename PNone ".png" ;;
      assign_tmp_files files ;;;
      ret (basename +:+ "%04d.png", "png")
  | inl s => ret (s, file_type)
  end.

(** *** [_ffmpeg] (lines 253-314) *)
Definition _ffmpeg : M string :=
  encoder <- prop encoder ;;
  input <- printf_input ;;
  let '(files, file_type) := input in
  cmd <- lift (plus_str encoder (" -i " +:+ dq +:+ files +:+ dq)) ;;
  vbitrate <- prop vbitrate ;;
  let vbitrate := if is_none vbitrate then PInt 800 else vbitrate in
  b <- lift (Fmt.mod_s vbitrate) ;;
  let cmd := cmd +:+ " -b " +:+ b in
  fps <- prop fps ;;
  r <- lift (Fmt.mod_s fps) ;;
  let cmd := cmd +:+ " -r " +:+ r in
  size <- _get_size ;;
  cmd <- (if negb (is_none size) then
            wxh <- lift (Fmt.mod_s_x_s size) ;;
            ret (cmd +:+ " -s " +:+ wxh)
          else ret cmd) ;;
  vcodec <- prop vcodec ;;
  cmd <- (if negb (is_none vcodec) then
            c <- lift (Fmt.mod_s vcodec) ;;
            ret (cmd +:+ " -vcodec " +:+ c)
          else ret cmd) ;;
  overwrite <- prop overwrite_output ;;
  let cmd := if truthy overwrite then cmd +:+ " -y" else cmd in
  aspect <- prop aspect ;;
  cmd <- (if negb (is_none aspect) then
            a <- lift (Fmt.mod_s aspect) ;;
            ret (cmd +:+ " -aspect " +:+ a)
          else ret cmd) ;;
  qscale <- prop qscale ;;
  cmd <- (if negb (is_none qscale) then
            q <- lift (Fmt.mod_s qscale) ;;
            ret (cmd +:+ " -qscale " +:+ q)
          else
            qmin <- prop qmin ;;
            qmax <- prop qmax ;;
            ret (cmd +:+ " -qmin " +:+ Fmt.py_str qmin +:+ " -qmax " +:+ Fmt.py_str qmax)) ;;
  vbuffer <- prop vbuffer ;;
  cmd <- (if negb (is_none vbuffer) then
            b <- lift (Fmt.mod_s vbuffer) ;;
            ret (cmd +:+ " -bufsize " +:+ b)
          else ret cmd) ;;
  gop_size <- prop gop_size ;;
  cmd <- (if negb (is_none gop_size) then
            g <- lift (Fmt.py_int gop_size) ;;
            ret (cmd +:+ " -g " +:+ Str.dec g)
          else ret cmd) ;;
  default_output_file "movie.avi" ;;;
  output_file <- prop output_file ;;
  match output_file with
  | PStr f =>
      let cmd := cmd +:+ " " +:+ f in
      quiet <- prop quiet ;;
      let cmd := if truthy quiet then cmd +:+ " > /dev/null 2>&1" else cmd in
      ret cmd
  | _ => raise (Builtin TypeError)
  end.

(** The text of the parameter file (lines 417-441) for the values of
    the names it mentions, each already formatted: the lines down to
    BSEARCH_ALG, the three quantization scales, and the rest. *)
Definition mpeg_encode_input_head (v_pattern v_mpeg_file v_gop_size v_input_dir
    v_files : string) : string :=
  Str.nl +:+
  "PATTERN" +:+ String Str.tab "" +:+ "         " +:+ v_pattern +:+ Str.nl +:+
  "OUTPUT           " +:+ v_mpeg_file +:+ Str.nl +:+
  "BASE_FILE_FORMAT PNM" +:+ Str.nl +:+
  "INPUT_CONVERT    *" +:+ Str.nl +:+
  "GOP_SIZE         " +:+ v_gop_size +:+ Str.nl +:+
  "#GOP_SIZE         16" +:+ Str.nl +:+
  "SLICES_PER_FRAME 1" +:+ Str.nl +:+
  "INPUT_DIR        " +:+ v_input_dir +:+ Str.nl +:+
  "INPUT" +:+ Str.nl +:+
  v_files +:+ Str.nl +:+
  "END_INPUT" +:+ Str.nl +:+
  "PIXEL            FULL" +:+ Str.nl +:+
  "#PIXEL            HALF" +:+ Str.nl +:+
  "RANGE            10" +:+ Str.nl +:+
  "PSEARCH_ALG      LOGARITHMIC" +:+ Str.nl +:+
  "BSEARCH_ALG      CROSS2" +:+ Str.nl.

Definition qscale_lines (v_iqscale v_pqscale v_bqscale : string) : string :=
  "IQSCALE" +:+ String Str.tab "" +:+ "         " +:+ v_iqscale +:+ Str.nl +:+
  "PQSCALE" +:+ String Str.tab "" +:+ "         " +:+ v_pqscale +:+ Str.nl +:+
  "BQSCALE" +:+ String Str.tab "" +:+ "         " +:+ v_bqscale +:+ Str.nl.

Definition mpeg_encode_input_tail (v_fps v_aspect : string) : string :=
  "REFERENCE_FRAME  ORIGINAL" +:+ Str.nl +:+
  "FRAME_RATE       " +:+ v_fps +:+ Str.nl +:+
  "ASPECT_RATIO     " +:+ v_aspect +:+ Str.nl +:+
  "FORCE_ENCODE_LAST_FRAME" +:+ Str.nl.

Definition mpeg_encode_input (v_pattern v_mpeg_file v_gop_size v_input_dir
    v_files v_iqscale v_pqscale v_bqscale v_fps v_aspect : string) : string :=
  mpeg_encode_input_head v_pattern v_mpeg_file v_gop_size v_input_dir v_files
  +:+ qscale_lines v_iqscale v_pqscale v_bqscale
  +:+ mpeg_encode_input_tail v_fps v_aspect.

(** *** [_mpeg_encode] (lines 316-461), under the name [_ppmtompeg]
    too (line 464) *)

Definition legal_frame_rates : list pyval :=
  [PFloat 23.976; PInt 24; PInt 25; PFloat 29.97; PInt 30; PInt 50;
   PFloat 59.94; PInt 60].

Definition legal_aspects : list pyval :=
  [PFloat 1.0; PFloat 0.6735; PFloat 0.7031; PFloat 0.7615; PFloat 0.8055;
   PFloat 0.8437; PFloat 0.8935; PFloat 0.9157; PFloat 0.9815; PFloat 1.0255;
   PFloat 1.0695; PFloat 1.0950; PFloat 1.1575; PFloat 1.2015].

Definition mpeg_encode_file : string := "easyviz_tmp_" +:+ ".mpeg_encode-input".

Definition _mpeg_encode : M string :=
  encoder <- prop encoder ;;
  let basename := "easyviz_tmp_" in
  (* set frame rate *)
  fps <- prop fps ;;
  (if py_in fps legal_frame_rates then ret tt else raise UnsupportedFrameRate) ;;;
  (* set aspect ratio *)
  aspect <- prop aspect ;;
  aspect <- (if negb (is_none aspect) then
               if negb (py_in aspect legal_aspects) then raise UnsupportedAspectRatio
               else ret aspect
             else ret (PFloat 1.0)) ;;
  print (Fmt.py_str aspect) ;;;
  (* get image files *)
  files <- prop input_files ;;
  files <- match files with
           | InStr s => expand_pattern s
           | InSeq l => ret l
           end ;;
  match files with
  | [] => raise InvalidFileSpec
  | _ =>
      size <- _get_size ;;
      file_type <- prop file_type ;;
      force <- prop force_conversion ;;
      files <- (if negb (is_none size) || negb (String.eqb file_type "pnm") || truthy force then
                  files <- _any2any files basename size ".pnm" ;;
                  assign_tmp_files files ;;;
                  ret files
                else ret files) ;;
      let files := Str.join Str.nl files in
      (* set input dir *)
      input_dir <- match files with
                   | String c _ => ret (fst (Str.path_split (String c "")))
                   | "" => raise (Builtin IndexError)
                   end ;;
      let input_dir := if String.eqb input_dir "" then "." else input_dir in
      (* set output file *)
      mpeg_file <- set_output_file "movie.mpeg" ;;
      (* set pattern *)
      pattern <- prop pattern ;;
      let pattern := match pattern with PStr s => Str.upper s | _ => "I" end in
      (* set quantization scale for I, P, and B frames *)
      qscale <- prop qscale ;;
      iqscale <- prop iqscale ;;
      pqscale <- prop pqscale ;;
      bqscale <- prop bqscale ;;
      let '(iqscale, pqscale, bqscale) :=
        if negb (is_none qscale) then
          (if is_none iqscale then qscale else iqscale,
           if is_none pqscale then qscale else pqscale,
           if is_none bqscale then qscale else bqscale)
        else
          (if is_none iqscale then PInt 8 else iqscale,
           if is_none pqscale then PInt 10 else pqscale,
           if is_none bqscale then PInt 25 else bqscale) in
      (* set gop size *)
      gop_size <- prop gop_size ;;
      gop_size <- (if negb (is_none gop_size) then lift (Fmt.py_int gop_size)
                   else ret 15) ;;
      (* create an mpeg_encode parameter file *)
      update_fs (fun fs => Os.open_w fs mpeg_encode_file) ;;;
      v_iqscale <- lift (Fmt.fmt_d iqscale) ;;
      v_pqscale <- lift (Fmt.fmt_d pqscale) ;;
      v_bqscale <- lift (Fmt.fmt_d bqscale) ;;
      v_fps <- lift (Fmt.fmt_d fps) ;;
      update_fs (fun fs => inr (Os.write fs mpeg_encode_file
        (mpeg_encode_input pattern mpeg_file (Str.dec gop_size) input_dir files
           v_iqscale v_pqscale v_bqscale v_fps (Fmt.py_str aspect)))) ;;;
      (* set video bit rate and buffer size *)
      vbitrate <- prop vbitrate ;;
      (if is_float_or_int vbitrate then
         n <- lift (Fmt.py_int vbitrate) ;;
         update_fs (fun fs => inr (Os.write fs mpeg_encode_file
           ("BIT_RATE         " +:+ Str.dec (n * 1000))))
       else ret tt) ;;;
      vbuffer <- prop vbuffer ;;
      (if is_float_or_int vbuffer then
         n <- lift (Fmt.py_int vbuffer) ;;
         update_fs (fun fs => inr (Os.write fs mpeg_encode_file
           ("BUFFER_SIZE      " +:+ Str.dec (n * 1000))))
       else ret tt) ;;;
      registered <- tmp_files ;;
      assign_tmp_files
        (match registered with Some l => l | None => [] end ++ [mpeg_encode_file])%list ;;;
      (* create the command string *)
      quiet <- prop quiet ;;
      lift (plus_str encoder
              ((if truthy quiet then " -realquiet" else "") +:+ " " +:+ mpeg_encode_file))
  end.

Definition _ppmtompeg : M string := _mpeg_encode.

(** *** [_mpeg2enc] (lines 466-581) *)

Definition legal_fps : list (string * Z) :=
  [("23.976", 1); ("24", 2); ("25", 3); ("29.97", 4);
   ("30", 5); ("50", 6); ("59.94", 7); ("60", 8)].

Definition legal_aspect_codes : list (string * Z) :=
  [("1.0", 1); ("1.3", 2); ("1.7", 3); ("2.21", 4)].

(** Lines 511-514: the first [i] of [xrange(n)], counted from [i], for
    which [files % i] is a file. *)
Fixpoint start_image (files : string) (n : nat) (i : Z) : M (option Z) :=
  match n with
  | O => ret None
  | S n' =>
      name <- lift (str_mod files i) ;;
      found <- on_fs (fun fs => inr (Os.isfile fs name)) ;;
      if found then ret (Some i) else start_image files n' (i + 1)
  end.

Definition _mpeg2enc : M string :=
  encoder <- prop encoder ;;
  let png2yuv := "png2yuv" in
  let jpeg2yuv := "jpeg2yuv" in
  let yuvscaler := "yuvscaler" in
  input <- printf_input ;;
  let '(files, file_type) := input in
  let cmd := "" in
  cmd <- (if String.eqb file_type "jpg" && findprograms jpeg2yuv then ret (cmd +:+ jpeg2yuv)
          else if findprograms png2yuv then ret (cmd +:+ png2yuv)
          else raise NoYuvConverter) ;;
  let cmd := cmd +:+ " -f 25" in
  let cmd := cmd +:+ " -I p" in
  let cmd := cmd +:+ " -j " +:+ dq +:+ files +:+ dq in
  (* find start image *)
  start <- start_image files (Z.to_nat 9999) 0 ;;
  let cmd := match start with
             | Some i => cmd +:+ " -b " +:+ Str.dec i
             | None => cmd
             end in
  quiet <- prop quiet ;;
  let cmd := if truthy quiet then cmd +:+ " -v 0" else cmd in
  (* set size of movie *)
  size <- _get_size ;;
  cmd <- (if negb (is_none size) && findprograms yuvscaler then
            wh <- lift (unpack_size size) ;;
            ret (cmd +:+ " | " +:+ yuvscaler +:+ " -O SIZE_" +:+ Fmt.py_str (fst wh)
                     +:+ "x" +:+ Fmt.py_str (snd wh))
          else ret cmd) ;;
  output_file <- set_output_file "movie.mpeg" ;;
  let cmd := cmd +:+ " | " in
  cmd <- lift (match encoder with
               | PStr e => inr (cmd +:+ e)
               | _ => inl (Builtin TypeError)
               end) ;;
  vcodec <- prop vcodec ;;
  let cmd := if py_eq vcodec (PStr "mpeg2video") then cmd +:+ " -f 3"
             else cmd +:+ " -f 0" in
  vbitrate <- prop vbitrate ;;
  cmd <- (if negb (is_none vbitrate) then
            b <- lift (Fmt.py_int vbitrate) ;;
            ret (cmd +:+ " -b " +:+ Str.dec b)
          else ret cmd) ;;
  vbuffer <- prop vbuffer ;;
  cmd <- (if negb (is_none vbuffer) then
            b <- lift (Fmt.py_int vbuffer) ;;
            ret (cmd +:+ " -V " +:+ Str.dec b)
          else ret cmd) ;;
  qscale <- prop qscale ;;
  cmd <- (if negb (is_none qscale) then
            q <- lift (Fmt.mod_s qscale) ;;
            ret (cmd +:+ " -q " +:+ q)
          else ret cmd) ;;
  (* set movie frame rate; line 553 names fps_convert, which is not
     defined, so the ValueError it means to raise is a NameError *)
  fps <- prop fps ;;
  let fps := Fmt.py_str fps in
  code <- match assoc fps legal_fps with
          | Some c => ret c
          | None => raise (Builtin NameError)
          end ;;
  let cmd := cmd +:+ " -F " +:+ Str.dec code in
  gop_size <- prop gop_size ;;
  let cmd := if negb (is_none gop_size)
             then cmd +:+ " -g " +:+ Fmt.py_str gop_size +:+ " -G " +:+ Fmt.py_str gop_size
             else cmd in
  (* set aspect ratio *)
  let codes := map (fun kc => PInt (snd kc)) legal_aspect_codes in
  aspect <- _get_aspect_ratio ;;
  cmd <- (if negb (is_none aspect) then
            aspect <- (if negb (py_in aspect codes) then
                         let aspect := Fmt.py_str aspect in
                         let aspect :=
                           match List.find (fun kc => Str.startswith aspect (fst kc))
                                           legal_aspect_codes with
                           | Some kc => PInt (snd kc)
                           | None => PStr aspect
                           end in
                         if negb (py_in aspect codes) then raise UnsupportedAspectRatio
                         else ret aspect
                       else ret aspect) ;;
            a <- lift (Fmt.mod_s aspect) ;;
            ret (cmd +:+ " -a " +:+ a)
          else ret cmd) ;;
  (* set output file *)
  let cmd := cmd +:+ " -o " +:+ output_file in
  let cmd := if truthy quiet then cmd +:+ " -v 0" else cmd in
  ret cmd.

(** *** [encode] (lines 97-120) *)

(** [exec('cmd=self._%s()' % encoder)] *)
Definition builder (encoder : string) : M string :=
  if String.eqb encoder "mencoder" then _mencoder
  else if String.eqb encoder "ffmpeg" then _ffmpeg
  else if String.eqb encoder "mpeg_encode" then _mpeg_encode
  else if String.eqb encoder "ppmtompeg" then _ppmtompeg
  else if String.eqb encoder "mpeg2enc" then _mpeg2enc
  else if String.eqb encoder "convert" then _convert
  else raise (Builtin AttributeError).

Fixpoint remove_files (l : list string) : M unit :=
  match l with
  | [] => ret tt
  | tmp_file :: l' =>
      update_fs (fun fs => Os.remove fs tmp_file) ;;;
      remove_files l'
  end.

Definition encode : M unit :=
  (* check that the selected encoder is legal *)
  encoder <- prop encoder ;;
  match encoder with
  | PStr enc =>
      if negb (existsb (String.eqb enc) _legal_encoders) then raise IllegalEncoder
      else
        (* get command string *)
        cmd <- builder enc ;;
        (* run command *)
        quiet <- prop quiet ;;
        (if negb (truthy quiet)
         then print ("Running: " +:+ Str.nl +:+ Str.nl +:+ cmd +:+ Str.nl)
         else ret tt) ;;;
        failure <- system cmd ;;
        (if negb (failure =? 0) then
           print (Str.nl +:+ Str.nl +:+ "could not make movie")
         else if negb (truthy quiet) then
           out <- prop output_file ;;
           print (Str.nl +:+ Str.nl +:+ "movie in output file" +:+ " " +:+ Fmt.py_str out)
         else ret tt) ;;;
        (* clean up temporary files *)
        cleanup <- prop cleanup ;;
        registered <- tmp_files ;;
        match registered with
        | Some l => if truthy cleanup then remove_files l else ret tt
        | None => ret tt
        end
  | _ => raise IllegalEncoder
  end.

(** *** [__init__] (lines 37-95) *)

(** [self._prop['input_files'] = input_files]; what is no string and
    no sequence of strings stops the constructor further down. *)
Definition input_spec_of (input_files : pyval) : input_spec :=
  match input_files with
  | PStr s => InStr s
  | PTuple l | PList l =>
      InSeq (omap (fun v => match v with PStr s => Some s | _ => None end) l)
  | _ => InSeq []
  end.

(** What [for f in input_files] visits: the items of a sequence, the
    characters of a string. *)
Definition iterate (input_files : pyval) : list pyval :=
  match input_files with
  | PStr s => map (fun c => PStr (String c "")) (list_ascii_of_string s)
  | PTuple l | PList l => l
  | _ => []
  end.

(** Lines 80-84. [error_encountered] is bound by the first pass of the
    loop and set anew by every pass. *)
Fixpoint check_input_files (l : list pyval) (error_encountered : option bool)
  : M (option bool) :=
  match l with
  | [] => ret error_encountered
  | f :: l' =>
      let error_encountered := Some false in
      found <- isfile f ;;
      error_encountered <-
        (if negb found then
           print ("Input file " +:+ Fmt.py_str f +:+ " does not exist.") ;;;
           ret (Some true)
         else ret error_encountered) ;;
      check_input_files l' error_encountered
  end.

Definition __init__ (input_files : pyval) (kwargs : list (string * pyval)) : M unit :=
  if existsb (fun kv => String.eqb (fst kv) "self"
                         || String.eqb (fst kv) "input_files") kwargs
  then raise (Builtin TypeError)   (* the call itself: two values for self or input_files *)
  else
  assign_props
    (fold_left (fun p kv => set_prop (fst kv) (snd kv) p) kwargs
               (_local_prop (input_spec_of input_files))) ;;;
  (* determine which encoder to be used *)
  encoder <- prop encoder ;;
  (if is_none encoder then
     match List.find findprograms _legal_encoders with
     | Some enc => assign "encoder" (PStr enc)
     | None => raise NoEncoderInstalled
     end
   else
     match encoder with
     | PStr enc =>
         if negb (existsb (String.eqb enc) _legal_encoders) then raise IllegalEncoder
         else if negb (findprograms enc) then raise (EncoderNotInstalled enc)
         else ret tt
     | _ => raise IllegalEncoder
     end) ;;;
  (* determine the file type of the input files *)
  file_ <- match input_files with
           | PTuple l | PList l =>
               match l with
               | x :: _ => ret x
               | [] => raise (Builtin IndexError)
               end
           | PStr _ => ret input_files
           | _ => raise BadInputType
           end ;;
  (* check that the input files do exist *)
  match input_files with
  | PStr s =>
      all_input_files <- on_fs (fun fs => Glob.glob fs s) ;;
      match all_input_files with
      | [] => raise (NoMatchingFiles s)
      | _ => ret tt
      end
  | _ => ret tt
  end ;;;
  error_encountered <- check_input_files (iterate input_files) None ;;
  match error_encountered with
  | None => raise (Builtin NameError)
  | Some true => raise MissingInputFiles
  | Some false =>
      match file_ with
      | PStr file_ =>
          let ext := snd (Str.splitext file_) in
          if String.eqb ext "" then raise UnknownFileType
          else
            let file_type := Str.drop 1 ext in
            if negb (existsb (String.eqb file_type) _legal_file_types)
            then raise (IllegalFileType file_type)
            else assign_file_type file_type
      | _ => raise (Builtin AttributeError)
      end
  end.

(** [MovieEncoder(input_files, **kwargs)]: the new object, or the
    exception of [__init__]. *)
Definition new (input_files : pyval) (kwargs : list (string * pyval)) (w : World)
  : World * result MovieEncoder :=
  match __init__ input_files kwargs (mkEncoder (_local_prop (InSeq [])) None) w with
  | (self, w', inr _) => (w', inr self)
  | (_, w', inl e) => (w', inl e)
  end.

(** [movie(input_files, **kwargs)] (lines 695-962) *)
Definition movie (input_files : pyval) (kwargs : list (string * pyval)) (w : World)
  : World * result unit :=
  match new input_files kwargs w with
  | (w', inr me) =>
      match encode me w' with
      | (_, w'', r) => (w'', r)
      end
  | (w', inl e) => (w', inl e)
  end.

End Methods.
End Movie.

(** * The string functions on sample arguments *)

Example join_two : Str.join "," ["a"; "b"] = "a,b".
Proof. reflexivity. Qed.

Example split_wxh : Str.split_on "x" "320x240" = ["320"; "240"].
Proof. reflexivity. Qed.

Example split_empty : Str.split_on "x" "" = [""].
Proof. reflexivity. Qed.

Example splitext_png : Str.splitext "dir.d/frame_0001.png" = ("dir.d/frame_0001", ".png").
Proof. reflexivity. Qed.

Example splitext_hidden : Str.splitext "dir.d/.png" = ("dir.d/.png", "").
Proof. reflexivity. Qed.

Example path_split_char : Str.path_split "f" = ("", "f").
Proof. reflexivity. Qed.

Example path_split_dir : Str.path_split "a//b.png" = ("a", "b.png").
Proof. reflexivity. Qed.

Example fmt_0d_4 : Str.fmt_0d 4 7 = "0007".
Proof. reflexivity. Qed.

Example fmt_0d_5 : Str.fmt_0d 4 12345 = "12345".
Proof. reflexivity. Qed.

Example dec_neg : Str.dec (-120) = "-120".
Proof. reflexivity. Qed.

Example dec_zero : Str.dec 0 = "0".
Proof. reflexivity. Qed.

Example dec_1000 : Str.dec 1000 = "1000".
Proof. reflexivity. Qed.

Example fnmatch_digits :
  Fnmatch.filter ["f07.png"; "f1.png"; "fab.png"; "f12.png"; "f12.pngx"] "f[0-9][0-9].png"
  = inr ["f07.png"; "f12.png"].
Proof. reflexivity. Qed.

Example fnmatch_star :
  Fnmatch.filter ["tmp_1.eps"; "tmp.eps"; "a/tmp_2.eps"; "tmp_3.ps"] "tmp_*.eps"
  = inr ["tmp_1.eps"].
Proof. reflexivity. Qed.

Example fnmatch_negated :
  Fnmatch.filter ["a]"; "ab"; "a-"] "a[!]b]" = inr ["a-"].
Proof. reflexivity. Qed.

Example fnmatch_unclosed :
  Fnmatch.filter ["a[0"; "a0"] "a[0" = inr ["a[0"].
Proof. reflexivity. Qed.

Example fnmatch_bad_range :
  Fnmatch.filter ["a"] "[z-a]" = inl (Builtin ReError).
Proof. reflexivity. Qed.

Example re_search_frame :
  Printf.re_search "frame_%04d.png" = Some ("frame_", "04", ".png").
Proof. reflexivity. Qed.

Example re_search_last :
  Printf.re_search "a%1d_b%03d.x.png" = Some ("a%1d_b", "03", ".x.png").
Proof. reflexivity. Qed.

Example re_search_none : Printf.re_search "tmp_*.eps" = None.
Proof. reflexivity. Qed.

Example re_search_no_dot : Printf.re_search "tmp_%04d" = None.
Proof. reflexivity. Qed.

Example digit_glob_frame :
  Printf.digit_glob ("frame_", "04", ".png") = "frame_[0-9][0-9][0-9][0-9].png".
Proof. reflexivity. Qed.

Example sort_names : Sort.sort ["f10"; "f2"; "f1"; "F3"; "f"] = ["F3"; "f"; "f1"; "f10"; "f2"].
Proof. reflexivity. Qed.

(** * Reasoning about methods *)

Module Logic.
Import Movie.

Section Hoare.
Context `{PyRuntime} `{Host}.

(** [hoare P c Q]: from an object and a world in [P], [c] ends in [Q],
    whether it returns or raises. *)
Definition hoare {A} (P : MovieEncoder -> World -> Prop) (c : M A)
    (Q : result A -> MovieEncoder -> World -> Prop) : Prop :=
  forall self w, P self w ->
    match c self w with (self', w', r) => Q r self' w' end.

(** [inv Inv c]: [c] keeps [Inv], whether it returns or raises. *)
Definition inv {A} (Inv : MovieEncoder -> World -> Prop) (c : M A) : Prop :=
  hoare Inv c (fun _ => Inv).

(** [fails Inv c]: from [Inv], [c] raises. *)
Definition fails {A} (Inv : MovieEncoder -> World -> Prop) (c : M A) : Prop :=
  hoare Inv c (fun r _ _ => match r with inl _ => True | inr _ => False end).

Lemma hoare_bind {A B} P (c : M A) (k : A -> M B) R Q :
  hoare P c (fun r self w =>
               match r with inr a => R a self w | inl e => Q (inl e) self w end) ->
  (forall a, hoare (R a) (k a) Q) ->
  hoare P (bind c k) Q.
Proof.
  intros Hc Hk self w HP. unfold bind.
  specialize (Hc self w HP). destruct (c self w) as [[self' w'] [e|a]]; [exact Hc|].
  apply Hk, Hc.
Qed.

(** What [bind] does after a first part that returns. *)
Lemma bind_returns {A B} (c : M A) (k : A -> M B) self w self' w' a :
  c self w = (self', w', inr a) -> bind c k self w = k a self' w'.
Proof. intros Hc. unfold bind. rewrite Hc. reflexivity. Qed.

Lemma inv_bind {A B} Inv (c : M A) (k : A -> M B) :
  inv Inv c -> (forall a, inv Inv (k a)) -> inv Inv (bind c k).
Proof.
  intros Hc Hk. apply hoare_bind with (R := fun _ => Inv); [|exact Hk].
  intros self w HI. specialize (Hc self w HI).
  destruct (c self w) as [[self' w'] [e|a]]; exact Hc.
Qed.

Lemma fails_bind_inv {A B} Inv (c : M A) (k : A -> M B) :
  inv Inv c -> (forall a, fails Inv (k a)) -> fails Inv (bind c k).
Proof.
  intros Hc Hk. apply hoare_bind with (R := fun _ => Inv); [|exact Hk].
  intros self w HI. specialize (Hc self w HI).
  destruct (c self w) as [[self' w'] [e|a]]; [exact I|exact Hc].
Qed.

Lemma fails_bind_l {A B} Inv (c : M A) (k : A -> M B) :
  fails Inv c -> fails Inv (bind c k).
Proof.
  intros Hc self w HI. specialize (Hc self w HI). unfold bind.
  destruct (c self w) as [[self' w'] [e|a]]; [exact I|destruct Hc].
Qed.

Lemma inv_ret {A} Inv (a : A) : inv Inv (ret a).
Proof. intros self w HI. exact HI. Qed.

Lemma inv_raise {A} Inv e : inv Inv (@raise A e).
Proof. intros self w HI. exact HI. Qed.

Lemma fails_raise {A} Inv e : fails Inv (@raise A e).
Proof. intros self w HI. exact I. Qed.

Lemma inv_lift {A} Inv (r : result A) : inv Inv (lift r).
Proof. destruct r; [apply inv_raise|apply inv_ret]. Qed.

Lemma inv_prop {A} Inv (key : Props -> A) : inv Inv (prop key).
Proof. intros self w HI. exact HI. Qed.

Lemma inv_tmp_files Inv : inv Inv tmp_files.
Proof. intros self w HI. exact HI. Qed.

Lemma inv_on_fs {A} Inv (f : gmap string node -> result A) : inv Inv (on_fs f).
Proof. intros self w HI. exact HI. Qed.

Lemma inv_isfile Inv v : inv Inv (isfile v).
Proof. destruct v; first [apply inv_on_fs|apply inv_raise]. Qed.

(** Invariants that printing, running a command and registering
    temporary files keep. *)
Class Stable (Inv : MovieEncoder -> World -> Prop) : Prop := {
  stable_stdout : forall self w out,
    Inv self w -> Inv self (mkWorld (w_fs w) out (w_spawned w));
  stable_system : forall self w cmd,
    Inv self w ->
    Inv self (mkWorld (snd (os_system cmd w)) (w_stdout w)
                      (w_spawned w ++ [(cmd, fst (os_system cmd w))]));
  stable_tmp_files : forall self w l,
    Inv self w -> Inv (mkEncoder (_prop self) l) w;
}.

Section Stable.
Context (Inv : MovieEncoder -> World -> Prop) `{!Stable Inv}.

Lemma inv_print s : inv Inv (print s).
Proof. intros self w HI. apply stable_stdout, HI. Qed.

Lemma inv_system cmd : inv Inv (system cmd).
Proof.
  intros self w HI. unfold system.
  pose proof (stable_system self w cmd HI) as HS.
  destruct (os_system cmd w) as [status fs]. exact HS.
Qed.

Lemma inv_assign_tmp_files l : inv Inv (assign_tmp_files l).
Proof. intros self w HI. apply stable_tmp_files, HI. Qed.

End Stable.

End Hoare.

(** One step of a proof that a method keeps an invariant: the rule for
    the statement at the head of the goal. *)
Ltac inv_step :=
  lazymatch goal with
  | |- inv _ (bind _ _) => apply inv_bind; [|intros]
  | |- inv _ (ret _) => apply inv_ret
  | |- inv _ (raise _) => apply inv_raise
  | |- inv _ (lift _) => apply inv_lift
  | |- inv _ (prop _) => apply inv_prop
  | |- inv _ tmp_files => apply inv_tmp_files
  | |- inv _ (on_fs _) => apply inv_on_fs
  | |- inv _ (isfile _) => apply inv_isfile
  | |- inv _ (print _) => apply inv_print; assumption
  | |- inv _ (system _) => apply inv_system; assumption
  | |- inv _ (assign_tmp_files _) => apply inv_assign_tmp_files; assumption
  | |- inv _ (if ?b then _ else _) => destruct b
  | |- inv _ (match ?x with _ => _ end) => destruct x
  end.

Section Methods.
Context `{PyRuntime} `{Host}.
Context (Inv : MovieEncoder -> World -> Prop) `{!Stable Inv}.

Lemma inv__get_size : inv Inv _get_size.
Proof. unfold _get_size. repeat inv_step. Qed.

Lemma inv__get_aspect_ratio : inv Inv _get_aspect_ratio.
Proof. unfold _get_aspect_ratio. repeat inv_step. Qed.

Lemma inv_expand_pattern files : inv Inv (expand_pattern files).
Proof. unfold expand_pattern. repeat inv_step. Qed.

Lemma inv_any2any_app files ofile_ext : inv Inv (any2any_app files ofile_ext).
Proof. unfold any2any_app. repeat inv_step. Qed.

Lemma inv_any2any_loop app anytopnm pnmtoany quiet basename size ofile_ext files :
  forall i new_files,
    inv Inv (any2any_loop app anytopnm pnmtoany quiet basename size ofile_ext
                          files i new_files).
Proof.
  induction files as [|file_ files IH]; intros i new_files; simpl.
  - apply inv_ret.
  - repeat first [apply IH | inv_step].
Qed.

Lemma inv__any2any files basename size ofile_ext :
  inv Inv (_any2any files basename size ofile_ext).
Proof.
  unfold _any2any. repeat first [apply inv_any2any_app | apply inv_any2any_loop | inv_step].
Qed.

Lemma inv_printf_input : inv Inv printf_input.
Proof. unfold printf_input. repeat first [apply inv__any2any | inv_step]. Qed.

Lemma inv_start_image files n : forall i, inv Inv (start_image files n i).
Proof.
  induction n as [|n IH]; intros i; simpl.
  - apply inv_ret.
  - repeat first [apply IH | inv_step].
Qed.

End Methods.

(** A proof that a method keeps an invariant, by the rules and the
    lemmas above; what assigns to [self._prop] or writes a file is
    taken from the context. *)
Ltac inv_auto :=
  repeat first
    [ assumption
    | match goal with
      | Hfs : forall f, inv _ (update_fs f) |- inv _ (update_fs _) => apply Hfs
      end
    | apply inv__get_size; assumption
    | apply inv__get_aspect_ratio; assumption
    | apply inv_expand_pattern; assumption
    | apply inv__any2any; assumption
    | apply inv_printf_input; assumption
    | apply inv_start_image; assumption
    | inv_step ].

Section Builders.
Context `{PyRuntime} `{Host}.
Context (Inv : MovieEncoder -> World -> Prop) `{!Stable Inv}.

Lemma inv_set_output_file d :
  inv Inv (default_output_file d) -> inv Inv (set_output_file d).
Proof. intros Hd. unfold set_output_file. inv_auto. Qed.

Lemma inv__convert :
  inv Inv (default_output_file "movie.gif") -> inv Inv _convert.
Proof.
  intros Hd. pose proof (inv_set_output_file _ Hd) as Hs.
  unfold _convert. inv_auto.
Qed.

Lemma inv__mencoder :
  inv Inv (default_output_file "movie.avi") -> inv Inv _mencoder.
Proof.
  intros Hd. pose proof (inv_set_output_file _ Hd) as Hs.
  unfold _mencoder. inv_auto.
Qed.

Lemma inv__ffmpeg :
  inv Inv (default_output_file "movie.avi") -> inv Inv _ffmpeg.
Proof. intros Hd. unfold _ffmpeg. inv_auto. Qed.

Lemma inv__mpeg_encode :
  inv Inv (default_output_file "movie.mpeg") ->
  (forall f, inv Inv (update_fs f)) ->
  inv Inv _mpeg_encode.
Proof.
  intros Hd Hfs. pose proof (inv_set_output_file _ Hd) as Hs.
  unfold _mpeg_encode. inv_auto.
Qed.

Lemma inv__mpeg2enc :
  inv Inv (default_output_file "movie.mpeg") -> inv Inv _mpeg2enc.
Proof.
  intros Hd. pose proof (inv_set_output_file _ Hd) as Hs.
  unfold _mpeg2enc. inv_auto.
Qed.

End Builders.
End Logic.

(** * A small host to run the methods on *)

Module Sample.
Import Movie.

Definition runtime : PyRuntime := {|
  float_str := fun _ => "1.0";
  float_fmt_g := fun _ => "25";
  seq_str := fun _ => "()";
  float_of_str := fun _ => None;
  int_of_str := fun _ => None;
  str_mod := fun fmt i => inr (fmt +:+ Str.dec i);
|}.

(** The programs of [installed] are found; [run] decides how a command
    exits, and no command touches a file. *)
Definition host (installed : list string) (run : string -> Z) : Host := {|
  findprograms := fun p => existsb (String.eqb p) installed;
  findprograms_all := forallb (fun p => existsb (String.eqb p) installed);
  _check_type := fun _ _ => None;
  os_system := fun cmd w => (run cmd, w_fs w);
  glob_nested := fun _ _ => inr [];
|}.

Definition files (names : list string) : gmap string node :=
  list_to_map (map (fun n => (n, RegularFile "")) names).

Definition world (names : list string) : World := mkWorld (files names) [] [].

Definition blank : MovieEncoder := mkEncoder (_local_prop (InSeq [])) None.

End Sample.

(** * The size option *)

Module SizeOption.
Import Movie.

Lemma split_on_absent c s :
  Str.contains c s = false -> Str.split_on c s = [s].
Proof.
  induction s as [|a s IH]; simpl; [reflexivity|].
  destruct (Ascii.eqb a c); simpl; [discriminate|].
  intros Hs. rewrite (IH Hs). reflexivity.
Qed.

Lemma split_on_once c s t :
  Str.contains c s = false -> Str.contains c t = false ->
  Str.split_on c (s +:+ String c t) = [s; t].
Proof.
  intros Hs Ht. induction s as [|a s IH]; simpl.
  - rewrite Ascii.eqb_refl, (split_on_absent _ _ Ht). reflexivity.
  - simpl in Hs. destruct (Ascii.eqb a c); simpl in Hs; [discriminate|].
    rewrite (IH Hs). reflexivity.
Qed.

(** The four names of [legal_sizes]. *)
Definition preset (s : string) : bool :=
  existsb (String.eqb s) ["sqcif"; "qcif"; "cif"; "4cif"].

Lemma assoc_legal_sizes s :
  assoc s legal_sizes = None <-> preset s = false.
Proof.
  unfold preset, legal_sizes. simpl.
  destruct (String.eqb s "sqcif"), (String.eqb s "qcif"), (String.eqb s "cif"),
    (String.eqb s "4cif"); simpl; split; congruence.
Qed.

Lemma preset_has_no_x s : Str.contains "x" s = true -> preset s = false.
Proof.
  intros Hx. unfold preset. simpl.
  destruct (String.eqb_spec s "sqcif") as [->|_]; [discriminate Hx|].
  destruct (String.eqb_spec s "qcif") as [->|_]; [discriminate Hx|].
  destruct (String.eqb_spec s "cif") as [->|_]; [discriminate Hx|].
  destruct (String.eqb_spec s "4cif") as [->|_]; [discriminate Hx|].
  reflexivity.
Qed.

Lemma contains_app_char c s t : Str.contains c (s +:+ String c t) = true.
Proof.
  induction s as [|a s IH]; simpl.
  - rewrite Ascii.eqb_refl. reflexivity.
  - rewrite IH. apply orb_true_r.
Qed.

(** What [_get_size] reads as a size: a preset name, a string with one
    [x] in it, or a tuple or list of two items. *)
Definition reads_as_size (v : pyval) : bool :=
  match v with
  | PStr s => preset s || (List.length (Str.split_on "x" s) =? 2)%nat
  | PTuple [_; _] | PList [_; _] => true
  | _ => false
  end.

(** C10. [_get_size] never raises and changes neither the object nor the
    world; what it returns is [None] or a sequence of two items: the pair
    of the preset table for sqcif, qcif, cif and 4cif, the two parts of a
    string [wxh], a tuple or list of two items as it is given; for every
    other value of the option it returns [None]. *)
Theorem get_size_total :
  (forall self w, _get_size self w = (self, w, inr (get_size (size (_prop self)))))
  /\ (forall v, get_size v = PNone
                \/ exists a b, get_size v = PTuple [a; b] \/ get_size v = PList [a; b])
  /\ (get_size (PStr "sqcif") = PTuple [PInt 128; PInt 96]
      /\ get_size (PStr "qcif") = PTuple [PInt 176; PInt 144]
      /\ get_size (PStr "cif") = PTuple [PInt 352; PInt 288]
      /\ get_size (PStr "4cif") = PTuple [PInt 704; PInt 576])
  /\ (forall w h, Str.contains "x" w = false -> Str.contains "x" h = false ->
        get_size (PStr (w +:+ String "x" h)) = PList [PStr w; PStr h])
  /\ (forall a b, get_size (PTuple [a; b]) = PTuple [a; b]
                  /\ get_size (PList [a; b]) = PList [a; b])
  /\ (forall v, reads_as_size v = false -> get_size v = PNone).
Proof.
  split; [reflexivity|].
  split.
  { intros v. unfold get_size.
    destruct v as [| | | |s|l|l]; try (left; reflexivity).
    - destruct (assoc s legal_sizes) as [t|] eqn:Ht.
      + unfold legal_sizes in Ht. simpl in Ht.
        repeat match type of Ht with
               | (if ?c then _ else _) = _ => destruct c
               end; try discriminate; injection Ht as <-; right; eauto.
      + destruct (Str.split_on "x" s) as [|a [|b [|c l]]]; simpl; eauto.
    - destruct l as [|a [|b [|c l]]]; eauto.
    - destruct l as [|a [|b [|c l]]]; eauto. }
  split; [repeat split|].
  split.
  { intros w h Hw Hh. unfold get_size.
    pose proof (preset_has_no_x _ (contains_app_char "x" w h)) as Hp.
    apply assoc_legal_sizes in Hp. rewrite Hp.
    rewrite (split_on_once _ _ _ Hw Hh). reflexivity. }
  split; [intros a b; split; reflexivity|].
  intros v Hv. unfold get_size.
  destruct v as [| | | |s|l|l]; try reflexivity.
  - simpl in Hv. apply orb_false_iff in Hv as [Hp Hn].
    apply assoc_legal_sizes in Hp. rewrite Hp.
    destruct (Str.split_on "x" s) as [|a [|b [|c l]]]; try reflexivity.
    discriminate Hn.
  - destruct l as [|a [|b [|c l]]]; try reflexivity. discriminate Hv.
  - destruct l as [|a [|b [|c l]]]; try reflexivity. discriminate Hv.
Qed.

(** The string 320x240 is read as the list of 320 and 240, and the
    number 640 as no size. *)
Lemma get_size_total_witness :
  get_size (PStr "320x240") = PList [PStr "320"; PStr "240"]
  /\ get_size (PInt 640) = PNone.
Proof.
  destruct get_size_total as (_ & _ & _ & Hwxh & _ & Hother).
  split.
  - exact (Hwxh "320" "240" eq_refl eq_refl).
  - exact (Hother (PInt 640) eq_refl).
Defined.

End SizeOption.

(** * Encoder selection *)

Module Selection.
Import Movie Logic.

(** The value a call passes for the keyword [key], [default] when it
    passes none. *)
Definition keyword (key : string) (kwargs : list (string * pyval)) (default : pyval)
  : pyval :=
  fold_left (fun acc kv => if String.eqb (fst kv) key then snd kv else acc)
            kwargs default.

Lemma encoder_of_kwargs kwargs : forall p,
  encoder (fold_left (fun p kv => set_prop (fst kv) (snd kv) p) kwargs p)
  = keyword "encoder" kwargs (encoder p).
Proof.
  unfold keyword. induction kwargs as [|[k v] kwargs IH]; intros p; simpl.
  - reflexivity.
  - rewrite IH. reflexivity.
Qed.

Section Selection.
Context `{PyRuntime} `{Host}.

(** The encoder is settled. *)
Definition selected (enc : string) : MovieEncoder -> World -> Prop :=
  fun self _ => encoder (_prop self) = PStr enc.

#[local] Instance selected_stable enc : Stable (selected enc).
Proof. split; intros; assumption. Qed.

Lemma inv_check_input_files Inv `{!Stable Inv} l :
  forall flag, inv Inv (check_input_files l flag).
Proof.
  induction l as [|f l IH]; intros flag; simpl.
  - apply inv_ret.
  - repeat first [apply IH | inv_step].
Qed.

Lemma find_first {A} (f : A -> bool) before x after :
  Forall (fun y => f y = false) before -> f x = true ->
  List.find f (before ++ x :: after) = Some x.
Proof.
  intros Hb Hx. induction Hb as [|y before Hy Hb IH]; simpl.
  - rewrite Hx. reflexivity.
  - rewrite Hy. exact IH.
Qed.

Lemma find_none {A} (f : A -> bool) l :
  Forall (fun y => f y = false) l -> List.find f l = None.
Proof.
  intros Hl. induction Hl as [|y l Hy Hl IH]; simpl; [reflexivity|].
  rewrite Hy. exact IH.
Qed.

(** [__init__] from where the encoder is determined. *)
Lemma init_unfold input_files kwargs self w :
  existsb (fun kv => String.eqb (fst kv) "self"
                      || String.eqb (fst kv) "input_files") kwargs = false ->
  exists k : M unit,
    (forall enc, inv (selected enc) k)
    /\ __init__ input_files kwargs self w =
       bind (let encoder := keyword "encoder" kwargs PNone in
             if is_none encoder then
               match List.find findprograms _legal_encoders with
               | Some enc => assign "encoder" (PStr enc)
               | None => raise NoEncoderInstalled
               end
             else
               match encoder with
               | PStr enc =>
                   if negb (existsb (String.eqb enc) _legal_encoders) then raise IllegalEncoder
                   else if negb (findprograms enc) then raise (EncoderNotInstalled enc)
                   else ret tt
               | _ => raise IllegalEncoder
               end)
            (fun _ => k)
         (mkEncoder (fold_left (fun p kv => set_prop (fst kv) (snd kv) p) kwargs
                               (_local_prop (input_spec_of input_files)))
                    (_tmp_files self)) w.
Proof.
  intros Hk. unfold __init__. rewrite Hk.
  eexists. split; [|unfold bind at 1 2; simpl; rewrite encoder_of_kwargs; reflexivity].
  intros enc.
  repeat first
    [ apply inv_check_input_files; apply selected_stable
    | match goal with
      | |- inv _ (assign_file_type _) => intros ? ? Hsel; exact Hsel
      end
    | inv_step ].
Qed.

Lemma legal_encoder_In enc :
  existsb (String.eqb enc) _legal_encoders = true <-> In enc _legal_encoders.
Proof.
  rewrite existsb_exists. split.
  - intros (x & Hx & Heq). apply String.eqb_eq in Heq. subst. exact Hx.
  - intros Hin. exists enc. split; [exact Hin|apply String.eqb_refl].
Qed.

(** Where [__init__] leaves the encoder, by what the call asks for. *)
Lemma init_encoder input_files kwargs self w :
  existsb (fun kv => String.eqb (fst kv) "self"
                      || String.eqb (fst kv) "input_files") kwargs = false ->
  let requested := keyword "encoder" kwargs PNone in
  let self0 :=
    mkEncoder (fold_left (fun p kv => set_prop (fst kv) (snd kv) p) kwargs
                         (_local_prop (input_spec_of input_files)))
              (_tmp_files self) in
  match __init__ input_files kwargs self w with
  | (self', w', r) =>
      if is_none requested then
        match List.find findprograms _legal_encoders with
        | Some enc => encoder (_prop self') = PStr enc
        | None => (self', w', r) = (self0, w, inl NoEncoderInstalled)
        end
      else
        match requested with
        | PStr enc =>
            if negb (existsb (String.eqb enc) _legal_encoders)
            then (self', w', r) = (self0, w, inl IllegalEncoder)
            else if negb (findprograms enc)
            then (self', w', r) = (self0, w, inl (EncoderNotInstalled enc))
            else encoder (_prop self') = PStr enc
        | _ => (self', w', r) = (self0, w, inl IllegalEncoder)
        end
  end.
Proof.
  intros Hk requested self0.
  destruct (init_unfold input_files kwargs self w Hk) as (k & Hinv & ->).
  fold requested. fold self0.
  assert (Hself0 : encoder (_prop self0) = requested)
    by apply encoder_of_kwargs.
  unfold bind at 1.
  destruct (is_none requested) eqn:Hnone.
  - destruct (List.find findprograms _legal_encoders) as [enc|]; [|reflexivity].
    apply (Hinv enc). reflexivity.
  - destruct requested as [| | | |enc| |]; try reflexivity; try discriminate Hnone.
    destruct (negb (existsb (String.eqb enc) _legal_encoders)); [reflexivity|].
    destruct (negb (findprograms enc)); [reflexivity|].
    apply (Hinv enc). exact Hself0.
Qed.

(** C4. With no encoder asked for, the constructor takes the first
    installed name of [_legal_encoders], which lists mencoder, ffmpeg,
    mpeg_encode, ppmtompeg, mpeg2enc and convert in this order, and
    raises when none is installed; an encoder asked for must be one of
    the six and installed, or the constructor raises. The keywords of
    the call name neither [self] nor [input_files]: such a call raises
    TypeError before the body of [__init__] runs. *)
Theorem encoder_selection input_files kwargs w :
  existsb (fun kv => String.eqb (fst kv) "self"
                      || String.eqb (fst kv) "input_files") kwargs = false ->
  let requested := keyword "encoder" kwargs PNone in
  _legal_encoders
  = ["mencoder"; "ffmpeg"; "mpeg_encode"; "ppmtompeg"; "mpeg2enc"; "convert"]
  /\ (requested = PNone ->
        (Forall (fun enc => findprograms enc = false) _legal_encoders ->
           new input_files kwargs w = (w, inl NoEncoderInstalled))
        /\ (forall before enc after,
              _legal_encoders = (before ++ enc :: after)%list ->
              Forall (fun e => findprograms e = false) before ->
              findprograms enc = true ->
              forall w' me,
                new input_files kwargs w = (w', inr me) ->
                encoder (_prop me) = PStr enc))
  /\ (requested <> PNone ->
        ((forall enc, requested = PStr enc -> ~ In enc _legal_encoders) ->
           new input_files kwargs w = (w, inl IllegalEncoder))
        /\ (forall enc,
              requested = PStr enc -> In enc _legal_encoders ->
              findprograms enc = false ->
              new input_files kwargs w = (w, inl (EncoderNotInstalled enc)))
        /\ (forall w' me,
              new input_files kwargs w = (w', inr me) ->
              exists enc,
                requested = PStr enc /\ In enc _legal_encoders
                /\ findprograms enc = true /\ encoder (_prop me) = PStr enc)).
Proof.
  intros Hk requested.
  pose proof (init_encoder input_files kwargs
                (mkEncoder (_local_prop (InSeq [])) None) w Hk) as Hinit.
  cbv zeta in Hinit. fold requested in Hinit. unfold new.
  destruct (__init__ input_files kwargs (mkEncoder (_local_prop (InSeq [])) None) w)
    as [[self' w'] r].
  split; [reflexivity|]. split.
  - intros Hreq. rewrite Hreq in Hinit. cbn [is_none] in Hinit. split.
    + intros Hnone. rewrite (find_none _ _ Hnone) in Hinit.
      injection Hinit as -> -> ->. reflexivity.
    + intros before enc after Hlegal Hbefore Henc w'' me Hnew.
      rewrite Hlegal, (find_first _ _ _ _ Hbefore Henc) in Hinit.
      destruct r as [e|[]]; [discriminate Hnew|].
      injection Hnew as <- <-. exact Hinit.
  - intros Hreq.
    assert (Hnone : is_none requested = false)
      by (destruct requested; try reflexivity; contradiction).
    rewrite Hnone in Hinit. repeat split.
    + intros Hnot. destruct requested as [| | | |enc| |];
        try (injection Hinit as -> -> ->; reflexivity); try contradiction.
      destruct (existsb (String.eqb enc) _legal_encoders) eqn:Hin.
      * apply legal_encoder_In in Hin. destruct (Hnot enc eq_refl Hin).
      * cbn [negb] in Hinit. injection Hinit as -> -> ->. reflexivity.
    + intros enc -> Hin Hmissing.
      apply legal_encoder_In in Hin. rewrite Hin, Hmissing in Hinit.
      cbn [negb] in Hinit. injection Hinit as -> -> ->. reflexivity.
    + intros w'' me Hnew.
      destruct r as [e|[]]; [discriminate Hnew|]. injection Hnew as <- <-.
      destruct requested as [| | | |enc| |]; try discriminate Hinit.
      destruct (existsb (String.eqb enc) _legal_encoders) eqn:Hin;
        cbn [negb] in Hinit; [|discriminate Hinit].
      destruct (findprograms enc) eqn:Hfound; cbn [negb] in Hinit; [|discriminate Hinit].
      exists enc. repeat split; [apply legal_encoder_In, Hin|exact Hfound|exact Hinit].
Qed.

End Selection.

(** With ffmpeg and convert installed and no encoder asked for, the
    object made for an existing png file has ffmpeg as its encoder. *)
Lemma encoder_selection_witness :
  let host := Sample.host ["convert"; "ffmpeg"] (fun _ => 0) in
  exists w' me,
    @new Sample.runtime host (PList [PStr "a.png"]) [("fps", PInt 2)]
         (Sample.world ["a.png"]) = (w', inr me)
    /\ encoder (_prop me) = PStr "ffmpeg".
Proof.
  intros host.
  destruct (@new Sample.runtime host (PList [PStr "a.png"]) [("fps", PInt 2)]
                 (Sample.world ["a.png"])) as [w' [e|me]] eqn:Hnew;
    [vm_compute in Hnew; discriminate Hnew|].
  exists w', me. split; [reflexivity|].
  destruct (@encoder_selection Sample.runtime host (PList [PStr "a.png"])
              [("fps", PInt 2)] (Sample.world ["a.png"]) eq_refl)
    as (_ & Hunset & _).
  destruct (Hunset eq_refl) as [_ Hfirst].
  apply (Hfirst ["mencoder"] "ffmpeg" ["mpeg_encode"; "ppmtompeg"; "mpeg2enc"; "convert"])
    with (w' := w'); [reflexivity|repeat constructor|reflexivity|exact Hnew].
Defined.

End Selection.

(** * The frame rates of mpeg_encode *)

Module FrameRate.
Import Movie.
Section FrameRate.
Context `{PyRuntime} `{Host}.

(** C5. Under the names mpeg_encode and ppmtompeg, the builder raises
    for every [fps] that is not in [legal_frame_rates] (23.976, 24, 25,
    29.97, 30, 50, 59.94, 60), and so does [encode]; the object and the
    world are as before, so no parameter file has been written. *)
Theorem mpeg_encode_frame_rate enc self w :
  enc = "mpeg_encode" \/ enc = "ppmtompeg" ->
  py_in (fps (_prop self)) legal_frame_rates = false ->
  legal_frame_rates
  = [PFloat 23.976; PInt 24; PInt 25; PFloat 29.97; PInt 30; PInt 50;
     PFloat 59.94; PInt 60]
  /\ builder enc self w = (self, w, inl UnsupportedFrameRate)
  /\ (encoder (_prop self) = PStr enc ->
      encode self w = (self, w, inl UnsupportedFrameRate)).
Proof.
  intros Henc Hfps. split; [reflexivity|].
  assert (Hb : builder enc self w = (self, w, inl UnsupportedFrameRate)).
  { destruct Henc as [-> | ->]; cbn [builder String.eqb Ascii.eqb Bool.eqb];
      unfold _ppmtompeg, _mpeg_encode, bind, prop; rewrite Hfps; reflexivity. }
  split; [exact Hb|].
  intros Hprop. unfold encode, bind at 1, prop at 1. rewrite Hprop.
  replace (existsb (String.eqb enc) _legal_encoders) with true
    by (destruct Henc as [-> | ->]; reflexivity).
  cbn [negb]. unfold bind at 1. rewrite Hb. reflexivity.
Qed.

End FrameRate.

(** At 10 frames a second mpeg_encode is refused. *)
Lemma mpeg_encode_frame_rate_witness :
  let host := Sample.host ["mpeg_encode"] (fun _ => 0) in
  let self := mkEncoder (set_prop "fps" (PInt 10) (_local_prop (InSeq ["a.pnm"]))) None in
  @builder Sample.runtime host "mpeg_encode" self (Sample.world ["a.pnm"])
  = (self, Sample.world ["a.pnm"], inl UnsupportedFrameRate).
Proof.
  intros host self.
  exact (proj1 (proj2 (@mpeg_encode_frame_rate Sample.runtime host "mpeg_encode" self
                         (Sample.world ["a.pnm"]) (or_introl eq_refl) eq_refl))).
Defined.

End FrameRate.

(** * What a builder does to the configuration *)

Module Config.
Import Movie Logic.

(** The name a builder gives the movie when the caller gave none (lines
    157, 241, 310, 377 and 526). *)
Definition default_output (enc : string) : string :=
  if String.eqb enc "convert" then "movie.gif"
  else if String.eqb enc "mencoder" || String.eqb enc "ffmpeg" then "movie.avi"
  else "movie.mpeg".

(** [p] is [p0], or [p0] with the default name [d] in the place of an
    [output_file] that was [None]. *)
Definition defaulted (d : string) (p0 p : Props) : Prop :=
  p = p0 \/ (output_file p0 = PNone /\ p = set_prop "output_file" (PStr d) p0).

Definition keeps_props (d : string) (p0 : Props) : MovieEncoder -> World -> Prop :=
  fun self _ => defaulted d p0 (_prop self).

Section Config.
Context `{PyRuntime} `{Host}.

#[local] Instance keeps_props_stable d p0 : Stable (keeps_props d p0).
Proof. split; intros; assumption. Qed.

Lemma keeps_props_default d p0 : inv (keeps_props d p0) (default_output_file d).
Proof.
  intros self w Hp. unfold default_output_file, bind, prop.
  destruct (is_none (output_file (_prop self))) eqn:Hnone; [|exact Hp].
  unfold keeps_props, defaulted in *. simpl.
  destruct (output_file (_prop self)) eqn:Hout; try discriminate Hnone.
  destruct Hp as [Hp | [_ Hp]].
  - right. rewrite <- Hp. split; [exact Hout|reflexivity].
  - rewrite Hp in Hout. discriminate Hout.
Qed.

Lemma keeps_props_update_fs d p0 f : inv (keeps_props d p0) (update_fs f).
Proof.
  intros self w Hp. unfold update_fs. destruct (f (w_fs w)); exact Hp.
Qed.

Lemma builder_keeps_props enc p0 :
  inv (keeps_props (default_output enc) p0) (builder enc).
Proof.
  pose proof (keeps_props_stable (default_output enc) p0) as Hstable.
  pose proof (keeps_props_default (default_output enc) p0) as Hdefault.
  pose proof (keeps_props_update_fs (default_output enc) p0) as Hfs.
  unfold builder.
  destruct (String.eqb_spec enc "mencoder") as [->|_]; [apply inv__mencoder; assumption|].
  destruct (String.eqb_spec enc "ffmpeg") as [->|_]; [apply inv__ffmpeg; assumption|].
  destruct (String.eqb_spec enc "mpeg_encode") as [->|_];
    [apply inv__mpeg_encode; assumption|].
  destruct (String.eqb_spec enc "ppmtompeg") as [->|_];
    [apply inv__mpeg_encode; assumption|].
  destruct (String.eqb_spec enc "mpeg2enc") as [->|_]; [apply inv__mpeg2enc; assumption|].
  destruct (String.eqb_spec enc "convert") as [->|_]; [apply inv__convert; assumption|].
  apply inv_raise.
Qed.

(** C9, as the builders have it. Whatever builder runs, and whether it
    returns or raises, every field of the configuration is as before,
    except that an [output_file] that was [None] may have become the
    default name of the encoder; an [output_file] the caller gave stays. *)
Theorem builder_configuration enc self w :
  match builder enc self w with
  | (self', _, _) =>
      (_prop self' = _prop self
       \/ (output_file (_prop self) = PNone
           /\ _prop self' = set_prop "output_file" (PStr (default_output enc)) (_prop self)))
      /\ (output_file (_prop self) <> PNone -> _prop self' = _prop self)
  end.
Proof.
  pose proof (builder_keeps_props enc (_prop self) self w (or_introl eq_refl)) as Hb.
  destruct (builder enc self w) as [[self' w'] r].
  split; [exact Hb|].
  intros Hgiven. destruct Hb as [Hb | [Hnone _]]; [exact Hb|contradiction].
Qed.

End Config.

(** C9 as stated fails: for the object made for one png file with
    convert installed and no output file given, [_convert] returns its
    command and leaves [output_file] set to movie.gif. *)
Lemma convert_assigns_output_file :
  let host := Sample.host ["convert"] (fun _ => 0) in
  let w := Sample.world ["a.png"] in
  exists self self' w' cmd,
    @new Sample.runtime host (PList [PStr "a.png"]) [] w = (w, inr self)
    /\ output_file (_prop self) = PNone
    /\ @builder Sample.runtime host "convert" self w = (self', w', inr cmd)
    /\ output_file (_prop self') = PStr "movie.gif"
    /\ _prop self' <> _prop self.
Proof.
  intros host w. do 4 eexists.
  split; [vm_compute; reflexivity|].
  split; [reflexivity|].
  split; [vm_compute; reflexivity|].
  split; [reflexivity|].
  intros Heq. apply (f_equal output_file) in Heq. discriminate Heq.
Qed.

End Config.

(** * The output file that exists *)

Module OutputCheck.
Import Movie Logic Config.

(** The object with another value of [overwrite_output]. *)
Definition with_overwrite (v : pyval) (self : MovieEncoder) : MovieEncoder :=
  mkEncoder (set_prop "overwrite_output" v (_prop self)) (_tmp_files self).

Lemma with_overwrite_same self v :
  with_overwrite (overwrite_output (_prop self)) (with_overwrite v self) = self.
Proof. destruct self as [[] ?]. reflexivity. Qed.

Section Sim.
Context `{PyRuntime} `{Host}.

(** [sim c]: where [c] returns, it returns the same from the same world
    under any other value of [overwrite_output], unless it raises for an
    output file that exists. *)
Definition sim {A} (c : M A) : Prop :=
  forall self w v,
    match c self w with
    | (self1, w1, inr a) =>
        c (with_overwrite v self) w = (with_overwrite v self1, w1, inr a)
        \/ exists self2 w2 f,
             c (with_overwrite v self) w = (self2, w2, inl (OutputExists f))
             /\ output_file (_prop self2) = PStr f
    | _ => True
    end.

Lemma sim_bind {A B} (c : M A) (k : A -> M B) :
  sim c -> (forall a, sim (k a)) -> sim (bind c k).
Proof.
  intros Hc Hk self w v. unfold bind.
  specialize (Hc self w v).
  destruct (c self w) as [[self1 w1] [e|a]]; [exact I|].
  specialize (Hk a self1 w1 v).
  destruct (k a self1 w1) as [[self2 w2] [e|b]]; [exact I|].
  destruct Hc as [-> | (self' & w' & f & -> & Hf)]; [exact Hk|].
  right. exists self', w', f. split; [reflexivity|exact Hf].
Qed.

Lemma sim_ret {A} (a : A) : sim (ret a).
Proof. intros self w v. left. reflexivity. Qed.

Lemma sim_raise {A} e : sim (@raise A e).
Proof. intros self w v. exact I. Qed.

Lemma sim_lift {A} (r : result A) : sim (lift r).
Proof. destruct r; [apply sim_raise|apply sim_ret]. Qed.

Lemma sim_prop {A} (key : Props -> A) :
  (forall v p, key (set_prop "overwrite_output" v p) = key p) -> sim (prop key).
Proof. intros Hkey self w v. left. unfold prop. simpl. rewrite Hkey. reflexivity. Qed.

Lemma sim_tmp_files : sim tmp_files.
Proof. intros self w v. left. reflexivity. Qed.

Lemma sim_assign_tmp_files l : sim (assign_tmp_files l).
Proof. intros self w v. left. reflexivity. Qed.

Lemma sim_on_fs {A} (f : gmap string node -> result A) : sim (on_fs f).
Proof.
  intros self w v. unfold on_fs. destruct (f (w_fs w)); [exact I|]. left. reflexivity.
Qed.

Lemma sim_update_fs f : sim (update_fs f).
Proof.
  intros self w v. unfold update_fs. destruct (f (w_fs w)); [exact I|]. left. reflexivity.
Qed.

Lemma sim_print s : sim (print s).
Proof. intros self w v. left. reflexivity. Qed.

Lemma sim_system cmd : sim (system cmd).
Proof.
  intros self w v. unfold system. destruct (os_system cmd w). left. reflexivity.
Qed.

Lemma sim_default_output_file d : sim (default_output_file d).
Proof.
  intros self w v. unfold default_output_file, bind, prop, assign. simpl.
  destruct (is_none (output_file (_prop self))); left; reflexivity.
Qed.

Lemma sim_set_output_file d : sim (set_output_file d).
Proof.
  intros [[] tmp] w v.
  unfold set_output_file, default_output_file, bind, prop, on_fs, assign, with_overwrite.
  cbn -[Os.isfile truthy].
  destruct output_file0 as [| | | |f| |]; cbn -[Os.isfile truthy]; try exact I.
  - destruct (Os.isfile (w_fs w) d && negb (truthy overwrite_output0)); [exact I|].
    destruct (Os.isfile (w_fs w) d && negb (truthy v)).
    + right. do 3 eexists. split; reflexivity.
    + left. reflexivity.
  - destruct (Os.isfile (w_fs w) f && negb (truthy overwrite_output0)); [exact I|].
    destruct (Os.isfile (w_fs w) f && negb (truthy v)).
    + right. do 3 eexists. split; reflexivity.
    + left. reflexivity.
Qed.

End Sim.

Ltac sim_step :=
  lazymatch goal with
  | |- sim (bind _ _) => apply sim_bind; [|intros]
  | |- sim (ret _) => apply sim_ret
  | |- sim (raise _) => apply sim_raise
  | |- sim (lift _) => apply sim_lift
  | |- sim (prop _) => apply sim_prop; intros; reflexivity
  | |- sim tmp_files => apply sim_tmp_files
  | |- sim (assign_tmp_files _) => apply sim_assign_tmp_files
  | |- sim (on_fs _) => apply sim_on_fs
  | |- sim (update_fs _) => apply sim_update_fs
  | |- sim (print _) => apply sim_print
  | |- sim (system _) => apply sim_system
  | |- sim (set_output_file _) => apply sim_set_output_file
  | |- sim (if ?b then _ else _) => destruct b
  | |- sim (match ?x with _ => _ end) => destruct x
  end.

Section SimMethods.
Context `{PyRuntime} `{Host}.

Lemma sim__get_size : sim _get_size.
Proof. unfold _get_size. repeat sim_step. Qed.

Lemma sim__get_aspect_ratio : sim _get_aspect_ratio.
Proof. unfold _get_aspect_ratio. repeat sim_step. Qed.

Lemma sim_expand_pattern files : sim (expand_pattern files).
Proof. unfold expand_pattern. repeat sim_step. Qed.

Lemma sim_any2any_loop app anytopnm pnmtoany quiet basename size ofile_ext files :
  forall i new_files,
    sim (any2any_loop app anytopnm pnmtoany quiet basename size ofile_ext
                      files i new_files).
Proof.
  induction files as [|file_ files IH]; intros i new_files; simpl.
  - apply sim_ret.
  - repeat first [apply IH | sim_step].
Qed.

Lemma sim__any2any files basename size ofile_ext :
  sim (_any2any files basename size ofile_ext).
Proof.
  unfold _any2any, any2any_app. repeat first [apply sim_any2any_loop | sim_step].
Qed.

Lemma sim_printf_input : sim printf_input.
Proof. unfold printf_input. repeat first [apply sim__any2any | sim_step]. Qed.

Lemma sim_start_image files n : forall i, sim (start_image files n i).
Proof.
  induction n as [|n IH]; intros i; simpl.
  - apply sim_ret.
  - repeat first [apply IH | sim_step].
Qed.

End SimMethods.

Ltac sim_auto :=
  repeat first
    [ apply sim__get_size
    | apply sim__get_aspect_ratio
    | apply sim_expand_pattern
    | apply sim__any2any
    | apply sim_printf_input
    | apply sim_start_image
    | sim_step ].

Section SimBuilders.
Context `{PyRuntime} `{Host}.

Lemma sim__convert : sim _convert.
Proof. unfold _convert. sim_auto. Qed.

Lemma sim__mencoder : sim _mencoder.
Proof. unfold _mencoder. sim_auto. Qed.

Lemma sim__mpeg_encode : sim _mpeg_encode.
Proof. unfold _mpeg_encode. sim_auto. Qed.

Lemma sim__mpeg2enc : sim _mpeg2enc.
Proof. unfold _mpeg2enc. sim_auto. Qed.

(** The five names whose builders look for the output file. *)
Definition checking_encoders : list string :=
  ["mencoder"; "mpeg_encode"; "ppmtompeg"; "mpeg2enc"; "convert"].

Lemma sim_builder enc : In enc checking_encoders -> sim (builder enc).
Proof.
  intros Henc. unfold checking_encoders in Henc. simpl in Henc.
  destruct Henc as [<-|[<-|[<-|[<-|[<-|[]]]]]]; unfold builder; simpl.
  - apply sim__mencoder.
  - apply sim__mpeg_encode.
  - apply sim__mpeg_encode.
  - apply sim__mpeg2enc.
  - apply sim__convert.
Qed.

(** The output file is [out], it exists, and it may not be
    overwritten. *)
Definition blocked (out d : string) : MovieEncoder -> World -> Prop :=
  fun self w =>
    Os.isfile (w_fs w) out = true
    /\ truthy (overwrite_output (_prop self)) = false
    /\ (output_file (_prop self) = PStr out
        \/ (output_file (_prop self) = PNone /\ out = d)).

Lemma fails_set_output_file out d : fails (blocked out d) (set_output_file d).
Proof.
  intros [[] tmp] w (Hfile & Hover & Hout).
  unfold set_output_file, default_output_file, bind, prop, on_fs, assign.
  cbn -[Os.isfile truthy] in *.
  destruct Hout as [-> | [-> ->]]; cbn -[Os.isfile truthy];
    rewrite Hfile, Hover; exact I.
Qed.

End SimBuilders.

(** A proof that a builder raises from an invariant that the statements
    before its look at the output file keep. *)
Ltac fails_auto :=
  repeat first
    [ apply fails_raise
    | lazymatch goal with
      | |- fails _ (bind (set_output_file _) _) =>
          apply fails_bind_l; apply fails_set_output_file
      | |- fails _ (bind _ _) => apply fails_bind_inv; [solve [inv_auto]|intros]
      | |- fails _ (if ?b then _ else _) => destruct b
      | |- fails _ (match ?x with _ => _ end) => destruct x
      end ].

Section Blocked.
Context `{PyRuntime} `{Host} (out : string).

(** No command removes the output file. *)
Hypothesis keep : forall cmd w,
  Os.isfile (w_fs w) out = true -> Os.isfile (snd (os_system cmd w)) out = true.

Lemma blocked_stable d : Stable (blocked out d).
Proof.
  split.
  - intros self w stdout Hb. exact Hb.
  - intros self w cmd (Hfile & Hrest). split; [|exact Hrest].
    simpl. apply keep, Hfile.
  - intros self w l Hb. exact Hb.
Qed.

Lemma fails__convert : fails (blocked out "movie.gif") _convert.
Proof.
  pose proof (blocked_stable "movie.gif") as Hstable.
  unfold _convert. fails_auto.
Qed.

Lemma fails__mencoder : fails (blocked out "movie.avi") _mencoder.
Proof.
  pose proof (blocked_stable "movie.avi") as Hstable.
  unfold _mencoder. fails_auto.
Qed.

Lemma fails__mpeg_encode : fails (blocked out "movie.mpeg") _mpeg_encode.
Proof.
  pose proof (blocked_stable "movie.mpeg") as Hstable.
  unfold _mpeg_encode. fails_auto.
Qed.

Lemma fails__mpeg2enc : fails (blocked out "movie.mpeg") _mpeg2enc.
Proof.
  pose proof (blocked_stable "movie.mpeg") as Hstable.
  unfold _mpeg2enc. fails_auto.
Qed.

Lemma fails_builder enc :
  In enc checking_encoders -> fails (blocked out (default_output enc)) (builder enc).
Proof.
  intros Henc. unfold checking_encoders in Henc. simpl in Henc.
  destruct Henc as [<-|[<-|[<-|[<-|[<-|[]]]]]]; unfold builder, default_output; simpl.
  - apply fails__mencoder.
  - apply fails__mpeg_encode.
  - apply fails__mpeg_encode.
  - apply fails__mpeg2enc.
  - apply fails__convert.
Qed.

End Blocked.

Section ExistingOutput.
Context `{PyRuntime} `{Host}.

Lemma encode_raises_with_builder enc self w self' w' e :
  In enc _legal_encoders ->
  encoder (_prop self) = PStr enc ->
  builder enc self w = (self', w', inl e) ->
  encode self w = (self', w', inl e).
Proof.
  intros Hlegal Henc Hb. unfold encode, bind at 1, prop at 1. rewrite Henc.
  apply Selection.legal_encoder_In in Hlegal. rewrite Hlegal. cbn [negb].
  unfold bind at 1. rewrite Hb. reflexivity.
Qed.

Lemma checking_encoders_legal enc : In enc checking_encoders -> In enc _legal_encoders.
Proof.
  unfold checking_encoders, _legal_encoders. simpl. intuition.
Qed.

(** C2, as the builders have it. For mencoder, mpeg_encode, ppmtompeg,
    mpeg2enc and convert: when the output file, given or defaulted,
    exists, no conversion command removes it, and [overwrite_output] is
    false, the builder raises and [encode] stops there with the same
    exception, before it runs the command of the encoder; the exception
    is the one for an existing output file whenever the builder returns
    a command once overwriting is allowed. *)
Theorem existing_output_file enc self w out :
  In enc checking_encoders ->
  (output_file (_prop self) = PStr out
   \/ (output_file (_prop self) = PNone /\ out = default_output enc)) ->
  truthy (overwrite_output (_prop self)) = false ->
  Os.isfile (w_fs w) out = true ->
  (forall cmd w0,
     Os.isfile (w_fs w0) out = true -> Os.isfile (snd (os_system cmd w0)) out = true) ->
  exists self' w' e,
    builder enc self w = (self', w', inl e)
    /\ (encoder (_prop self) = PStr enc -> encode self w = (self', w', inl e))
    /\ (forall self1 w1 cmd,
          builder enc (with_overwrite (PBool true) self) w = (self1, w1, inr cmd) ->
          e = OutputExists out).
Proof.
  intros Henc Hout Hover Hfile Hkeep.
  pose proof (fails_builder out Hkeep enc Henc self w
                (conj Hfile (conj Hover Hout))) as Hfails.
  pose proof (builder_keeps_props enc (_prop self) self w (or_introl eq_refl)) as Hprops.
  destruct (builder enc self w) as [[self' w'] [e|cmd]] eqn:Hb; [|destruct Hfails].
  exists self', w', e. split; [reflexivity|]. split.
  - intros Hprop.
    apply (encode_raises_with_builder enc); auto using checking_encoders_legal.
  - intros self1 w1 cmd Hallowed.
    pose proof (sim_builder enc Henc (with_overwrite (PBool true) self) w
                  (overwrite_output (_prop self))) as Hsim.
    rewrite Hallowed, with_overwrite_same, Hb in Hsim.
    destruct Hsim as [Hsim | (self2 & w2 & f & Hsim & Hf)]; [discriminate Hsim|].
    injection Hsim as -> -> ->. f_equal.
    unfold keeps_props, defaulted in Hprops.
    destruct Hprops as [Hp | [Hnone Hp]]; rewrite Hp in Hf.
    + destruct Hout as [Hout | [Hout _]]; rewrite Hout in Hf; congruence.
    + destruct Hout as [Hout | [_ ->]]; [congruence|].
      simpl in Hf. congruence.
Qed.

End ExistingOutput.

(** With movie.gif in place and [overwrite_output=False], [_convert]
    raises for the existing output file. *)
Lemma existing_output_file_witness :
  let host := Sample.host ["convert"] (fun _ => 0) in
  let w := Sample.world ["a.png"; "movie.gif"] in
  let self :=
    mkEncoder (set_prop "overwrite_output" (PBool false)
                 (set_prop "encoder" (PStr "convert")
                    (set_file_type "png" (_local_prop (InSeq ["a.png"]))))) None in
  exists self' w',
    @builder Sample.runtime host "convert" self w
    = (self', w', inl (OutputExists "movie.gif")).
Proof.
  intros host w self.
  destruct (@existing_output_file Sample.runtime host "convert" self w "movie.gif")
    as (self' & w' & e & Hb & _ & He).
  - right. right. right. right. left. reflexivity.
  - right. split; reflexivity.
  - reflexivity.
  - reflexivity.
  - intros cmd w0 Hw0. exact Hw0.
  - exists self', w'. rewrite Hb.
    rewrite (He (with_overwrite (PBool true)
                   (mkEncoder (set_prop "output_file" (PStr "movie.gif") (_prop self)) None))
                w "convert -delay 4 a.png movie.gif"); [reflexivity|].
    vm_compute. reflexivity.
Defined.

(** C2 as stated fails for ffmpeg: with movie.avi in place and
    [overwrite_output=False], the constructor accepts the call,
    [_ffmpeg] returns its command, and [movie] runs it. *)
Lemma ffmpeg_ignores_existing_output :
  let host := Sample.host ["ffmpeg"; "convert"] (fun _ => 0) in
  let w := Sample.world ["a.png"; "movie.avi"] in
  let kwargs :=
    [("encoder", PStr "ffmpeg"); ("overwrite_output", PBool false);
     ("quiet", PBool true); ("cleanup", PBool false)] in
  Os.isfile (w_fs w) "movie.avi" = true
  /\ exists self self' w' cmd,
       @new Sample.runtime host (PList [PStr "a.png"]) kwargs w = (w, inr self)
       /\ truthy (overwrite_output (_prop self)) = false
       /\ @builder Sample.runtime host "ffmpeg" self w = (self', w', inr cmd)
       /\ output_file (_prop self') = PStr "movie.avi"
       /\ Str.startswith cmd "ffmpeg -i " = true
       /\ @movie Sample.runtime host (PList [PStr "a.png"]) kwargs w
          = (mkWorld (w_fs w) []
               [("convert  a.png easyviz_tmp_0001.png", 0); (cmd, 0)], inr tt).
Proof.
  intros host w kwargs. split; [reflexivity|].
  do 4 eexists.
  split; [vm_compute; reflexivity|].
  split; [reflexivity|].
  split; [vm_compute; reflexivity|].
  split; [reflexivity|].
  split; [reflexivity|].
  vm_compute. reflexivity.
Qed.

End OutputCheck.

(** * The encoder that fails *)

Module Cleanup.
Import Movie Logic Config.

(** The file system without the files of [l]. *)
Definition without (l : list string) (fs : gmap string node) : gmap string node :=
  fold_left (fun fs f => delete f fs) l fs.

Lemma without_gone l : forall fs f, In f l -> without l fs !! f = None.
Proof.
  induction l as [|g l IH]; intros fs f Hin; [destruct Hin|].
  simpl. destruct (decide (f ∈ l)) as [Hl|Hl].
  - apply IH. apply list_elem_of_In, Hl.
  - destruct Hin as [->|Hin]; [|destruct Hl; apply list_elem_of_In, Hin].
    clear IH. revert fs. induction l as [|h l IH]; intros fs; simpl.
    + apply lookup_delete_eq.
    + rewrite delete_delete. apply IH. set_solver.
Qed.

Lemma without_other l : forall fs f, ~ In f l -> without l fs !! f = fs !! f.
Proof.
  induction l as [|g l IH]; intros fs f Hin; [reflexivity|].
  simpl. rewrite IH by (intros Hl; apply Hin; right; exact Hl).
  apply lookup_delete_ne. intros ->. apply Hin. left. reflexivity.
Qed.

Section Cleanup.
Context `{PyRuntime} `{Host}.

Lemma remove_files_all l : forall self w,
  NoDup l -> Forall (fun f => Os.isfile (w_fs w) f = true) l ->
  remove_files l self w
  = (self, mkWorld (without l (w_fs w)) (w_stdout w) (w_spawned w), inr tt).
Proof.
  induction l as [|f l IH]; intros self w Hnd Hfiles.
  - destruct w. reflexivity.
  - apply NoDup_cons in Hnd as [Hf Hnd].
    apply Forall_cons in Hfiles as [Hfile Hfiles].
    simpl. unfold bind, update_fs, Os.remove. unfold Os.isfile in Hfile.
    destruct (w_fs w !! f) as [[c|n]|] eqn:Hlook; try discriminate Hfile.
    rewrite IH; [reflexivity|exact Hnd|].
    simpl. apply Forall_forall. intros g Hg.
    rewrite Forall_forall in Hfiles. specialize (Hfiles g Hg).
    unfold Os.isfile in *. rewrite lookup_delete_ne; [exact Hfiles|].
    intros ->. apply Hf, Hg.
Qed.

(** The world in which [encode] runs [cmd]: the command has been
    announced unless [quiet] holds. *)
Definition announced (quiet : pyval) (cmd : string) (w : World) : World :=
  if truthy quiet then w
  else mkWorld (w_fs w)
               (w_stdout w ++ ["Running: " +:+ Str.nl +:+ Str.nl +:+ cmd +:+ Str.nl])
               (w_spawned w).

(** C3. Let the builder return [cmd] and [cleanup] hold, and let the
    registered temporary files be distinct files when the command has
    run. However the command exits, [encode] returns and does not raise,
    every registered temporary file is deleted and no other file is
    touched; when the command exits non-zero, all that tells is the line
    printed last. Without the premise on the files the claim fails: a
    registered file that is missing makes [os.remove] raise. *)
Theorem encode_cleans_up enc self w self1 w1 cmd :
  In enc _legal_encoders ->
  encoder (_prop self) = PStr enc ->
  truthy (cleanup (_prop self)) = true ->
  builder enc self w = (self1, w1, inr cmd) ->
  let registered := match _tmp_files self1 with Some l => l | None => [] end in
  let w2 := announced (quiet (_prop self)) cmd w1 in
  let status := fst (os_system cmd w2) in
  let fs := snd (os_system cmd w2) in
  NoDup registered ->
  Forall (fun f => Os.isfile fs f = true) registered ->
  exists w3,
    encode self w = (self1, w3, inr tt)
    /\ (forall f, In f registered -> w_fs w3 !! f = None)
    /\ (forall f, ~ In f registered -> w_fs w3 !! f = fs !! f)
    /\ w_spawned w3 = (w_spawned w1 ++ [(cmd, status)])%list
    /\ (status <> 0 ->
        w_stdout w3
        = (w_stdout w2 ++ [Str.nl +:+ Str.nl +:+ "could not make movie"])%list).
Proof.
  intros Hlegal Henc Hcleanup Hb registered w2 status fs Hnd Hfiles.
  pose proof (builder_keeps_props enc (_prop self) self w (or_introl eq_refl)) as Hprops.
  rewrite Hb in Hprops.
  assert (Hquiet : quiet (_prop self1) = quiet (_prop self))
    by (destruct Hprops as [-> | [_ ->]]; reflexivity).
  assert (Hclean : cleanup (_prop self1) = cleanup (_prop self))
    by (destruct Hprops as [-> | [_ ->]]; reflexivity).
  unfold encode, bind at 1, prop at 1. rewrite Henc.
  apply Selection.legal_encoder_In in Hlegal. rewrite Hlegal. cbn [negb].
  unfold bind at 1. rewrite Hb.
  unfold bind at 1, prop at 1. rewrite Hquiet.
  assert (Hann : (if negb (truthy (quiet (_prop self)))
                  then print ("Running: " +:+ Str.nl +:+ Str.nl +:+ cmd +:+ Str.nl)
                  else ret tt) self1 w1 = (self1, w2, inr tt)).
  { unfold w2, announced. destruct (truthy (quiet (_prop self))); reflexivity. }
  unfold bind at 1. rewrite Hann.
  unfold bind at 1, system at 1.
  fold status fs. destruct (os_system cmd w2) as [st fs'] eqn:Hsys.
  simpl in status, fs. subst status fs.
  set (w2' := mkWorld fs' (w_stdout w2) (w_spawned w2 ++ [(cmd, st)])).
  assert (Hspawned : w_spawned w2 = w_spawned w1)
    by (unfold w2, announced; destruct (truthy (quiet (_prop self))); reflexivity).
  destruct (negb (st =? 0)) eqn:Hst.
  - unfold bind at 1, print at 1, bind at 1, prop at 1, bind at 1, tmp_files at 1.
    rewrite Hclean, Hcleanup. fold registered.
    destruct (_tmp_files self1) as [l|] eqn:Htmp; simpl in registered; subst registered.
    + rewrite remove_files_all; [|exact Hnd|exact Hfiles].
      eexists. split; [reflexivity|]. simpl.
      split; [intros f Hf; apply without_gone, Hf|].
      split; [intros f Hf; apply without_other, Hf|].
      split; [rewrite Hspawned; reflexivity|]. intros _. reflexivity.
    + eexists. split; [reflexivity|]. simpl.
      split; [intros f []|]. split; [reflexivity|].
      split; [rewrite Hspawned; reflexivity|]. intros _. reflexivity.
  - apply negb_false_iff, Z.eqb_eq in Hst. subst st.
    assert (Hdone : exists out,
               (if negb (truthy (quiet (_prop self)))
                then bind (prop output_file) (fun out =>
                       print (Str.nl +:+ Str.nl +:+ "movie in output file" +:+ " "
                                +:+ Fmt.py_str out))
                else ret tt) self1 w2'
               = (self1, mkWorld fs' out (w_spawned w2 ++ [(cmd, 0)]), inr tt)).
    { destruct (negb (truthy (quiet (_prop self)))); eexists; reflexivity. }
    destruct Hdone as [out Hdone].
    unfold bind at 1. rewrite Hdone.
    unfold bind at 1, prop at 1, bind at 1, tmp_files at 1.
    rewrite Hclean, Hcleanup. fold registered.
    destruct (_tmp_files self1) as [l|] eqn:Htmp; simpl in registered; subst registered.
    + rewrite remove_files_all; [|exact Hnd|exact Hfiles].
      eexists. split; [reflexivity|]. simpl.
      split; [intros f Hf; apply without_gone, Hf|].
      split; [intros f Hf; apply without_other, Hf|].
      split; [rewrite Hspawned; reflexivity|]. intros Hne. destruct Hne. reflexivity.
    + eexists. split; [reflexivity|]. simpl.
      split; [intros f []|]. split; [reflexivity|].
      split; [rewrite Hspawned; reflexivity|]. intros Hne. destruct Hne. reflexivity.
Qed.

End Cleanup.

(** mpeg_encode exits with status 1 on one pnm file: [encode] returns,
    the parameter file is gone, and the last line printed says that the
    movie could not be made. *)
Lemma encode_cleans_up_witness :
  let host := Sample.host ["mpeg_encode"] (fun _ => 1) in
  let w := Sample.world ["a.pnm"] in
  let self :=
    mkEncoder (set_prop "encoder" (PStr "mpeg_encode")
                 (set_file_type "pnm" (_local_prop (InSeq ["a.pnm"])))) None in
  exists self1 w3,
    @encode Sample.runtime host self w = (self1, w3, inr tt)
    /\ _tmp_files self1 = Some [mpeg_encode_file]
    /\ w_fs w3 !! mpeg_encode_file = None
    /\ List.last (w_stdout w3) "" = Str.nl +:+ Str.nl +:+ "could not make movie".
Proof.
  intros host w self.
  destruct (@builder Sample.runtime host "mpeg_encode" self w)
    as [[self1 w1] [e|cmd]] eqn:Hb; [vm_compute in Hb; discriminate Hb|].
  pose proof Hb as Hrun. vm_compute in Hrun. injection Hrun as <- <- <-.
  destruct (@encode_cleans_up Sample.runtime host "mpeg_encode" self w _ _ _
              ltac:(right; right; left; reflexivity) eq_refl eq_refl Hb)
    as (w3 & Hencode & Hgone & _ & _ & Hout).
  - repeat constructor. intros Hin. inversion Hin.
  - repeat constructor.
  - eexists _, w3. split; [exact Hencode|]. split; [reflexivity|].
    split; [apply Hgone; left; reflexivity|].
    rewrite Hout by discriminate. reflexivity.
Defined.

(** C3 without the premise on the registered files. convert exits with
    status 0 and leaves no file behind, so that easyviz_tmp_0001.png is
    registered and does not exist; ffmpeg exits with status 256. Then
    [encode] prints that the movie could not be made and raises the
    OSError of [os.remove] (line 120), and so does [movie]. *)
Lemma cleanup_raises_on_missing_file :
  let run := fun cmd : string => if String.prefix "ffmpeg" cmd then 256 else 0 in
  let host := Sample.host ["ffmpeg"; "convert"] run in
  let w := Sample.world ["a.png"] in
  let kwargs :=
    [("encoder", PStr "ffmpeg"); ("cleanup", PBool true); ("quiet", PBool true)] in
  exists w0 me self1 w3,
    @new Sample.runtime host (PList [PStr "a.png"]) kwargs w = (w0, inr me)
    /\ truthy (cleanup (_prop me)) = true
    /\ @encode Sample.runtime host me w0 = (self1, w3, inl (Builtin OSError))
    /\ _tmp_files self1 = Some ["easyviz_tmp_0001.png"]
    /\ Os.isfile (w_fs w3) "easyviz_tmp_0001.png" = false
    /\ map snd (w_spawned w3) = [0; 256]
    /\ w_stdout w3 = [Str.nl +:+ Str.nl +:+ "could not make movie"]
    /\ @movie Sample.runtime host (PList [PStr "a.png"]) kwargs w
       = (w3, inl (Builtin OSError)).
Proof.
  intros run host w kwargs.
  destruct (@new Sample.runtime host (PList [PStr "a.png"]) kwargs w)
    as [w0 [e|me]] eqn:Hnew; [vm_compute in Hnew; discriminate Hnew|].
  destruct (@encode Sample.runtime host me w0) as [[self1 w3] r] eqn:Henc.
  exists w0, me, self1, w3.
  vm_compute in Hnew. injection Hnew as <- <-.
  vm_compute in Henc. injection Henc as <- <- <-.
  repeat split; reflexivity.
Qed.

End Cleanup.

(** * The parameter file of mpeg_encode *)

Module ParameterFile.
Import Movie Logic Config.

Lemma append_assoc s t u : (s +:+ t) +:+ u = s +:+ (t +:+ u).
Proof.
  induction s as [|a s IH]; [reflexivity|].
  change (String a ((s +:+ t) +:+ u) = String a (s +:+ (t +:+ u))).
  rewrite IH. reflexivity.
Qed.

Lemma append_empty s : s +:+ "" = s.
Proof.
  induction s as [|a s IH]; [reflexivity|].
  change (String a (s +:+ "") = String a s). rewrite IH. reflexivity.
Qed.

(** The parameter file holds [text] somewhere. *)
Definition written (text : string) : MovieEncoder -> World -> Prop :=
  fun _ w =>
    exists before after,
      w_fs w !! mpeg_encode_file = Some (RegularFile (before +:+ text +:+ after)).

Section Hoare.
Context `{PyRuntime} `{Host}.
Context (p0 : Props) {A : Type} (Q : result A -> MovieEncoder -> World -> Prop).
Hypothesis raising : forall e self w, Q (inl e) self w.

Abbreviation unchanged := (keeps_props "movie.mpeg" p0).

(** A statement that keeps the configuration. *)
Lemma hoare_bind_inv {B} (c : M B) (k : B -> M A) :
  inv unchanged c -> (forall b, hoare unchanged (k b) Q) ->
  hoare unchanged (bind c k) Q.
Proof.
  intros Hc Hk. apply hoare_bind with (R := fun _ => unchanged); [|exact Hk].
  intros self w Hp. specialize (Hc self w Hp).
  destruct (c self w) as [[self' w'] [e|b]]; [apply raising|exact Hc].
Qed.

(** Reading a key whose value the builder does not change. *)
Lemma hoare_bind_prop {B} (key : Props -> B) (k : B -> M A) b :
  (forall p, defaulted "movie.mpeg" p0 p -> key p = b) ->
  hoare unchanged (k b) Q ->
  hoare unchanged (bind (prop key) k) Q.
Proof.
  intros Hkey Hk self w Hp. unfold bind, prop.
  rewrite (Hkey _ Hp). apply Hk, Hp.
Qed.

(** A conversion or a formatting that succeeds. *)
Lemma hoare_bind_lift {B} (r : result B) (k : B -> M A) :
  (forall b, r = inr b -> hoare unchanged (k b) Q) ->
  hoare unchanged (bind (lift r) k) Q.
Proof.
  intros Hk self w Hp. unfold bind, lift.
  destruct r as [e|b]; [apply raising|]. apply (Hk b eq_refl), Hp.
Qed.

End Hoare.

Section Written.
Context `{PyRuntime} `{Host} (text : string).

Lemma written_write s :
  inv (written text)
      (update_fs (fun fs => inr (Os.write fs mpeg_encode_file s))).
Proof.
  intros self w (before & after & Hlook). unfold update_fs, Os.write, written.
  rewrite Hlook. simpl. exists before, (after +:+ s).
  rewrite lookup_insert_eq, !append_assoc. reflexivity.
Qed.

Lemma written_first Inv before after :
  hoare Inv
        (update_fs (fun fs => inr (Os.write fs mpeg_encode_file
                                     (before +:+ text +:+ after))))
        (fun _ => written text).
Proof.
  intros self w _. unfold update_fs, Os.write, written. simpl.
  destruct (w_fs w !! mpeg_encode_file) as [[c|n]|]; simpl; rewrite lookup_insert_eq.
  - exists (c +:+ before), after. rewrite !append_assoc. reflexivity.
  - exists before, after. reflexivity.
  - exists before, after. reflexivity.
Qed.

Lemma written_assign_tmp_files l : inv (written text) (assign_tmp_files l).
Proof. intros self w Hw. exact Hw. Qed.

(** Once [text] is written, statements that keep it end with it. *)
Lemma hoare_write_then Inv before after (k : M string) :
  inv (written text) k ->
  hoare Inv
        (bind (update_fs (fun fs => inr (Os.write fs mpeg_encode_file
                                           (before +:+ text +:+ after))))
              (fun _ => k))
        (fun r self w => match r with inr _ => written text self w | inl _ => True end).
Proof.
  intros Hk. apply hoare_bind with (R := fun _ => written text).
  - intros self w HI. pose proof (written_first Inv before after self w HI) as Hw.
    destruct (update_fs _ self w) as [[self' w'] [e|[]]]; [exact I|exact Hw].
  - intros _ self w Hw. specialize (Hk self w Hw).
    destruct (k self w) as [[self' w'] [e|a]]; [exact I|exact Hk].
Qed.

End Written.

(** One step of [_mpeg_encode] on the way to its parameter file: what
    is read from the configuration is the value the call started with. *)
Ltac to_file_step p0 Q raising :=
  lazymatch goal with
  | |- hoare _ (bind (prop _) _) _ =>
      eapply (hoare_bind_prop p0 Q);
      [intros ? [->|[_ ->]]; reflexivity|]
  | |- hoare _ (bind (lift _) _) _ =>
      apply (hoare_bind_lift p0 Q raising); intros ? ?
  | |- hoare _ (bind (update_fs (fun fs => inr _)) _) _ => fail
  | |- hoare _ (bind _ _) _ =>
      apply (hoare_bind_inv p0 Q raising); [solve [inv_auto]|intros]
  | |- hoare _ (raise _) _ => intros ? ? ?; apply raising
  | |- hoare _ (if ?b then _ else _) _ => destruct b eqn:?
  | |- hoare _ (match ?x with _ => _ end) _ => destruct x eqn:?
  end.

Section QScales.
Context `{PyRuntime} `{Host}.

Lemma mpeg_encode_writes p0 q v :
  iqscale p0 = PNone -> pqscale p0 = PNone -> bqscale p0 = PNone ->
  (qscale p0 = PNone /\ q = qscale_lines "8" "10" "25")
  \/ (qscale p0 = PInt v /\ q = qscale_lines (Str.dec v) (Str.dec v) (Str.dec v)) ->
  hoare (keeps_props "movie.mpeg" p0) _mpeg_encode
        (fun r self w => match r with inr _ => written q self w | inl _ => True end).
Proof.
  intros Hi Hp Hb Hq.
  set (Q := fun (r : result string) self w =>
              match r with inr _ => written q self w | inl _ => True end).
  assert (raising : forall e self w, Q (inl e) self w) by (intros; exact I).
  pose proof (keeps_props_stable "movie.mpeg" p0) as Hstable.
  pose proof (keeps_props_default "movie.mpeg" p0) as Hdefault.
  pose proof (keeps_props_update_fs "movie.mpeg" p0) as Hfs.
  pose proof (inv_set_output_file _ _ Hdefault) as Hset.
  unfold _mpeg_encode.
  repeat to_file_step p0 Q raising.
  match goal with
  | Hqs : (if negb (is_none (qscale p0)) then _ else _) = _ |- _ =>
      rewrite Hi, Hp, Hb in Hqs; cbn [is_none] in Hqs;
      destruct Hq as [[Hq ->] | [Hq ->]]; rewrite Hq in Hqs;
      cbn [is_none negb] in Hqs
  end.
  all: repeat match goal with
              | Heq : (_, _) = (_, _) |- _ => injection Heq as <- <-
              | Heq : _ = (_, _) |- _ => subst
              end.
  all: repeat match goal with
              | Hf : Fmt.fmt_d (PInt _) = inr _ |- _ =>
                  cbn [Fmt.fmt_d] in Hf; injection Hf as <-
              end.
  all: subst Q; unfold mpeg_encode_input; apply hoare_write_then;
    repeat first [apply written_write | apply written_assign_tmp_files | inv_step].
Qed.

(** C6. When mpeg_encode or ppmtompeg has built its command for a
    configuration without [iqscale], [pqscale] and [bqscale], the
    parameter file easyviz_tmp_.mpeg_encode-input holds three
    consecutive lines, each a key, a tab, nine spaces and a number:
    IQSCALE 8, PQSCALE 10 and BQSCALE 25 if [qscale] is not given
    either, and IQSCALE 5, PQSCALE 5 and BQSCALE 5 if [qscale] is 5. *)
Theorem mpeg_encode_qscales enc self w self' w' cmd :
  enc = "mpeg_encode" \/ enc = "ppmtompeg" ->
  iqscale (_prop self) = PNone ->
  pqscale (_prop self) = PNone ->
  bqscale (_prop self) = PNone ->
  builder enc self w = (self', w', inr cmd) ->
  let tab := String "009"%char "" in
  let nl := String "010"%char "" in
  (qscale (_prop self) = PNone ->
     exists before after,
       w_fs w' !! "easyviz_tmp_.mpeg_encode-input"
       = Some (RegularFile
                 (before
                  +:+ "IQSCALE" +:+ tab +:+ "         8" +:+ nl
                  +:+ "PQSCALE" +:+ tab +:+ "         10" +:+ nl
                  +:+ "BQSCALE" +:+ tab +:+ "         25" +:+ nl
                  +:+ after)))
  /\ (qscale (_prop self) = PInt 5 ->
        exists before after,
          w_fs w' !! "easyviz_tmp_.mpeg_encode-input"
          = Some (RegularFile
                    (before
                     +:+ "IQSCALE" +:+ tab +:+ "         5" +:+ nl
                     +:+ "PQSCALE" +:+ tab +:+ "         5" +:+ nl
                     +:+ "BQSCALE" +:+ tab +:+ "         5" +:+ nl
                     +:+ after))).
Proof.
  intros Henc Hi Hp Hb Hrun tab nl.
  assert (Hbuilder : builder enc = _mpeg_encode)
    by (destruct Henc as [-> | ->]; reflexivity).
  rewrite Hbuilder in Hrun.
  split; intros Hq.
  - pose proof (mpeg_encode_writes (_prop self) _ 0 Hi Hp Hb
                  (or_introl (conj Hq eq_refl)) self w (or_introl eq_refl)) as Hw.
    rewrite Hrun in Hw. destruct Hw as (before & after & Hw).
    exists before, after. exact Hw.
  - pose proof (mpeg_encode_writes (_prop self) _ 5 Hi Hp Hb
                  (or_intror (conj Hq eq_refl)) self w (or_introl eq_refl)) as Hw.
    rewrite Hrun in Hw. destruct Hw as (before & after & Hw).
    exists before, after. exact Hw.
Qed.

End QScales.

(** mpeg_encode on one pnm file, with no [qscale] and with [qscale=5]. *)
Lemma mpeg_encode_qscales_witness :
  let host := Sample.host ["mpeg_encode"] (fun _ => 0) in
  let w := Sample.world ["a.pnm"] in
  let p := set_prop "encoder" (PStr "mpeg_encode")
             (set_file_type "pnm" (_local_prop (InSeq ["a.pnm"]))) in
  let tab := String "009"%char "" in
  let nl := String "010"%char "" in
  (exists self' w' cmd,
     @builder Sample.runtime host "mpeg_encode" (mkEncoder p None) w
     = (self', w', inr cmd)
     /\ exists before after,
          w_fs w' !! "easyviz_tmp_.mpeg_encode-input"
          = Some (RegularFile
                    (before
                     +:+ "IQSCALE" +:+ tab +:+ "         8" +:+ nl
                     +:+ "PQSCALE" +:+ tab +:+ "         10" +:+ nl
                     +:+ "BQSCALE" +:+ tab +:+ "         25" +:+ nl
                     +:+ after)))
  /\ (exists self' w' cmd,
        @builder Sample.runtime host "mpeg_encode"
                 (mkEncoder (set_prop "qscale" (PInt 5) p) None) w
        = (self', w', inr cmd)
        /\ exists before after,
             w_fs w' !! "easyviz_tmp_.mpeg_encode-input"
             = Some (RegularFile
                       (before
                        +:+ "IQSCALE" +:+ tab +:+ "         5" +:+ nl
                        +:+ "PQSCALE" +:+ tab +:+ "         5" +:+ nl
                        +:+ "BQSCALE" +:+ tab +:+ "         5" +:+ nl
                        +:+ after))).
Proof.
  intros host w p tab nl. split.
  - destruct (@builder Sample.runtime host "mpeg_encode" (mkEncoder p None) w)
      as [[self' w'] [e|cmd]] eqn:Hb; [vm_compute in Hb; discriminate Hb|].
    exists self', w', cmd. split; [reflexivity|].
    exact (proj1 (@mpeg_encode_qscales Sample.runtime host "mpeg_encode"
                    (mkEncoder p None) w self' w' cmd
                    (or_introl eq_refl) eq_refl eq_refl eq_refl Hb) eq_refl).
  - destruct (@builder Sample.runtime host "mpeg_encode"
                (mkEncoder (set_prop "qscale" (PInt 5) p) None) w)
      as [[self' w'] [e|cmd]] eqn:Hb; [vm_compute in Hb; discriminate Hb|].
    exists self', w', cmd. split; [reflexivity|].
    exact (proj2 (@mpeg_encode_qscales Sample.runtime host "mpeg_encode"
                    (mkEncoder (set_prop "qscale" (PInt 5) p) None) w self' w' cmd
                    (or_introl eq_refl) eq_refl eq_refl eq_refl Hb) eq_refl).
Defined.

End ParameterFile.

(** * The input files that are missing *)

Module Inputs.
Import Movie.

Section Inputs.
Context `{PyRuntime} `{Host}.

(** Lines 80-84 on a list of paths: every pass sets
    [error_encountered] anew, so the last path alone decides what the
    loop leaves in it. *)
Lemma check_input_files_last l f : forall flag self w,
  exists out,
    check_input_files (map PStr (l ++ [f])) flag self w
    = (self, mkWorld (w_fs w) out (w_spawned w),
       inr (Some (negb (Os.isfile (w_fs w) f)))).
Proof.
  induction l as [|g l IH]; intros flag self w; simpl.
  - unfold bind, on_fs, print, ret. simpl. destruct w as [fs out spawned]. simpl.
    destruct (Os.isfile fs f); simpl; eexists; reflexivity.
  - unfold bind at 1, on_fs at 1.
    destruct (Os.isfile (w_fs w) g); simpl.
    + unfold bind at 1, ret at 1. apply IH.
    + unfold bind at 1 2, print at 1, ret at 1.
      destruct (IH (Some true) self
                  (mkWorld (w_fs w)
                     (w_stdout w ++ ["Input file " +:+ g +:+ " does not exist."])
                     (w_spawned w))) as [out Hout].
      exists out. exact Hout.
Qed.

End Inputs.

(** C1 fails on the code: with convert installed and b.png in place,
    the constructor prints that a.png does not exist and returns all the
    same, and [movie] runs convert on both paths. *)
Lemma missing_input_accepted :
  let host := Sample.host ["convert"] (fun _ => 0) in
  let w := Sample.world ["b.png"] in
  let said := ["Input file a.png does not exist."] in
  Os.isfile (w_fs w) "a.png" = false
  /\ (exists self,
        @new Sample.runtime host (PList [PStr "a.png"; PStr "b.png"]) [] w
        = (mkWorld (w_fs w) said [], inr self))
  /\ exists stdout,
       @movie Sample.runtime host (PList [PStr "a.png"; PStr "b.png"]) [] w
       = (mkWorld (w_fs w) stdout [("convert -delay 4 a.png b.png movie.gif", 0)],
          inr tt).
Proof.
  intros host w said. split; [reflexivity|].
  split; eexists; vm_compute; reflexivity.
Qed.

(** With the paths the other way round the constructor raises. *)
Lemma missing_last_input_rejected :
  let host := Sample.host ["convert"] (fun _ => 0) in
  let w := Sample.world ["b.png"] in
  @new Sample.runtime host (PList [PStr "b.png"; PStr "a.png"]) [] w
  = (mkWorld (w_fs w) ["Input file a.png does not exist."] [], inl MissingInputFiles).
Proof. intros host w. vm_compute. reflexivity. Qed.

End Inputs.

(** * Strings and numerals *)

Module Text.

Lemma append_String a s t : String a s +:+ t = String a (s +:+ t).
Proof. reflexivity. Qed.

Lemma append_nil s : s +:+ "" = s.
Proof. induction s as [|a s IH]; [reflexivity|]. rewrite append_String, IH. reflexivity. Qed.

Lemma append_assoc3 s t u : (s +:+ t) +:+ u = s +:+ t +:+ u.
Proof.
  induction s as [|a s IH]; [reflexivity|]. rewrite !append_String, IH. reflexivity.
Qed.

Lemma length_append s t :
  String.length (s +:+ t) = (String.length s + String.length t)%nat.
Proof.
  induction s as [|a s IH]; [reflexivity|].
  rewrite append_String. cbn [String.length]. rewrite IH. reflexivity.
Qed.

Lemma contains_append c s t :
  Str.contains c (s +:+ t) = Str.contains c s || Str.contains c t.
Proof.
  induction s as [|a s IH]; [reflexivity|].
  rewrite append_String. cbn [Str.contains]. rewrite IH. apply orb_assoc.
Qed.

Lemma drop_append s t : Str.drop (String.length s) (s +:+ t) = t.
Proof.
  induction s as [|a s IH]; [destruct t; reflexivity|].
  rewrite append_String. cbn [String.length Str.drop]. exact IH.
Qed.

(** A character that is no digit does not occur among digits. *)
Lemma digits_without c s :
  Str.is_digit c = false -> Str.all_chars Str.is_digit s = true ->
  Str.contains c s = false.
Proof.
  intros Hc. induction s as [|a s IH]; [reflexivity|].
  cbn [Str.all_chars Str.contains]. intros Hs.
  apply andb_true_iff in Hs as [Ha Hs]. rewrite (IH Hs), orb_false_r.
  apply Ascii.eqb_neq. intros ->. congruence.
Qed.

Lemma all_chars_append p s t :
  Str.all_chars p (s +:+ t) = Str.all_chars p s && Str.all_chars p t.
Proof.
  induction s as [|a s IH]; [reflexivity|].
  rewrite append_String. cbn [Str.all_chars]. rewrite IH. apply andb_assoc.
Qed.

(** ** Decimal digits *)

Lemma digit_code d : 0 <= d < 10 -> Ascii.N_of_ascii (Str.digit d) = (48 + Z.to_N d)%N.
Proof. intros Hd. unfold Str.digit. apply Ascii.N_ascii_embedding. lia. Qed.

Lemma is_digit_digit d : 0 <= d < 10 -> Str.is_digit (Str.digit d) = true.
Proof.
  intros Hd. unfold Str.is_digit. rewrite (digit_code d Hd).
  apply andb_true_iff. split; apply N.leb_le; lia.
Qed.

Lemma zpad_length w : forall n, String.length (Str.zpad w n) = w.
Proof.
  induction w as [|w IH]; intros n; [reflexivity|].
  cbn [Str.zpad]. rewrite length_append, IH. cbn. lia.
Qed.

Lemma zpad_digits w : forall n, Str.all_chars Str.is_digit (Str.zpad w n) = true.
Proof.
  induction w as [|w IH]; intros n; [reflexivity|].
  cbn [Str.zpad]. rewrite all_chars_append, IH. cbn [Str.all_chars andb].
  rewrite is_digit_digit; [reflexivity|]. apply Z.mod_pos_bound. lia.
Qed.

Lemma ndigits_aux_bound fuel : forall n d,
  (1 <= d)%nat -> n < 10 ^ Z.of_nat d -> (Str.ndigits_aux fuel n <= d)%nat.
Proof.
  induction fuel as [|fuel IH]; intros n d Hd Hn; [exact Hd|].
  cbn [Str.ndigits_aux]. destruct (n <? 10) eqn:Hlt; [exact Hd|].
  apply Z.ltb_ge in Hlt.
  destruct d as [|[|d]]; [lia|simpl in Hn; lia|].
  apply le_n_S, IH; [lia|].
  apply Z.div_lt_upper_bound; [lia|].
  rewrite Nat2Z.inj_succ, Z.pow_succ_r in Hn by lia. exact Hn.
Qed.

(** A number is below the power of ten of its digit count. *)
Lemma ndigits_aux_enough fuel : forall n,
  0 <= n < 10 * 2 ^ Z.of_nat fuel -> n < 10 ^ Z.of_nat (Str.ndigits_aux fuel n).
Proof.
  induction fuel as [|fuel IH]; intros n Hn; [cbn in *; lia|].
  cbn [Str.ndigits_aux]. destruct (n <? 10) eqn:Hlt.
  - apply Z.ltb_lt in Hlt. cbn. lia.
  - apply Z.ltb_ge in Hlt.
    rewrite Nat2Z.inj_succ, Z.pow_succ_r in Hn by lia.
    assert (Hq : 0 <= n / 10 < 10 * 2 ^ Z.of_nat fuel).
    { split; [apply Z.div_pos; lia|]. apply Z.div_lt_upper_bound; lia. }
    specialize (IH _ Hq).
    rewrite Nat2Z.inj_succ, Z.pow_succ_r by lia.
    pose proof (Z.div_mod n 10 ltac:(lia)) as Hdm.
    pose proof (Z.mod_pos_bound n 10 ltac:(lia)). lia.
Qed.

Lemma ndigits_enough n : 0 <= n -> n < 10 ^ Z.of_nat (Str.ndigits n).
Proof.
  intros Hn. unfold Str.ndigits. apply ndigits_aux_enough.
  split; [exact Hn|]. rewrite Z2Nat.id by apply Z.log2_nonneg.
  destruct (Z.eq_dec n 0) as [-> | Hne]; [cbn; lia|].
  pose proof (Z.log2_spec n ltac:(lia)) as [_ Hup].
  rewrite Z.pow_succ_r in Hup by apply Z.log2_nonneg. lia.
Qed.

(** [%0wd] of a number of at most [w] digits is its [w] last digits. *)
Lemma fmt_0d_zpad w n :
  (1 <= w)%nat -> 0 <= n < 10 ^ Z.of_nat w -> Str.fmt_0d w n = Str.zpad w n.
Proof.
  intros Hw Hn. unfold Str.fmt_0d.
  destruct (n <? 0) eqn:Hneg; [apply Z.ltb_lt in Hneg; lia|].
  rewrite Nat.max_l; [reflexivity|]. apply ndigits_aux_bound; [exact Hw|lia].
Qed.

Lemma digits_acc_snoc s : forall acc a,
  Str.digits_acc acc (s +:+ String a "")
  = 10 * Str.digits_acc acc s + (Z.of_N (Ascii.N_of_ascii a) - 48).
Proof.
  induction s as [|b s IH]; intros acc a; [reflexivity|].
  rewrite append_String. cbn [Str.digits_acc]. apply IH.
Qed.

Lemma digits_value_zpad w : forall n,
  0 <= n -> Str.digits_value (Str.zpad w n) = n mod 10 ^ Z.of_nat w.
Proof.
  unfold Str.digits_value.
  induction w as [|w IH]; intros n Hn; [cbn; rewrite Z.mod_1_r; reflexivity|].
  cbn [Str.zpad]. rewrite digits_acc_snoc, IH by (apply Z.div_pos; lia).
  rewrite digit_code by (apply Z.mod_pos_bound; lia).
  rewrite Nat2Z.inj_succ, Z.pow_succ_r by lia.
  rewrite (Z.rem_mul_r n 10 (10 ^ Z.of_nat w)) by lia.
  pose proof (Z.mod_pos_bound n 10 ltac:(lia)). lia.
Qed.

(** [int(str(n))] is [n]. *)
Lemma digits_value_dec n : 0 <= n -> Str.digits_value (Str.dec n) = n.
Proof.
  intros Hn. unfold Str.dec, Str.fmt_0d.
  destruct (n <? 0) eqn:Hneg; [apply Z.ltb_lt in Hneg; lia|].
  rewrite Nat.max_r by lia. rewrite digits_value_zpad by exact Hn.
  apply Z.mod_small. split; [exact Hn|apply ndigits_enough, Hn].
Qed.

Lemma dec_digits n : 0 <= n -> Str.all_chars Str.is_digit (Str.dec n) = true.
Proof.
  intros Hn. unfold Str.dec, Str.fmt_0d.
  destruct (n <? 0) eqn:Hneg; [apply Z.ltb_lt in Hneg; lia|]. apply zpad_digits.
Qed.

(** ** The order of strings *)

Lemma compare_refl s : String.compare s s = Eq.
Proof.
  induction s as [|a s IH]; [reflexivity|]. cbn [String.compare].
  unfold Ascii.compare. rewrite N.compare_refl. exact IH.
Qed.

Lemma compare_prefix p s t : String.compare (p +:+ s) (p +:+ t) = String.compare s t.
Proof.
  induction p as [|a p IH]; [reflexivity|]. rewrite !append_String.
  cbn [String.compare]. unfold Ascii.compare. rewrite N.compare_refl. exact IH.
Qed.

(** Of two strings of one length the smaller stays the smaller when
    both are continued. *)
Lemma compare_lt_append s : forall t u v,
  String.length s = String.length t ->
  String.compare s t = Lt -> String.compare (s +:+ u) (t +:+ v) = Lt.
Proof.
  induction s as [|a s IH]; intros [|b t] u v Hlen Hlt; try discriminate.
  rewrite !append_String. cbn [String.compare] in *.
  destruct (Ascii.compare a b); [|reflexivity|discriminate].
  apply IH; [injection Hlen as Hlen; exact Hlen|exact Hlt].
Qed.

Lemma zpad_lt w : forall i j,
  0 <= i < j -> j < 10 ^ Z.of_nat w ->
  String.compare (Str.zpad w i) (Str.zpad w j) = Lt.
Proof.
  induction w as [|w IH]; intros i j Hij Hj; [cbn in Hj; lia|].
  cbn [Str.zpad].
  rewrite Nat2Z.inj_succ, Z.pow_succ_r in Hj by lia.
  pose proof (Z.div_mod i 10 ltac:(lia)) as Hi.
  pose proof (Z.div_mod j 10 ltac:(lia)) as Hj'.
  pose proof (Z.mod_pos_bound i 10 ltac:(lia)) as Hmi.
  pose proof (Z.mod_pos_bound j 10 ltac:(lia)) as Hmj.
  assert (Hq : 0 <= i / 10 <= j / 10).
  { split; [apply Z.div_pos; lia|apply Z.div_le_mono; lia]. }
  destruct (Z.eq_dec (i / 10) (j / 10)) as [Heq | Hne].
  - rewrite Heq, compare_prefix. cbn [String.compare]. unfold Ascii.compare.
    rewrite !digit_code by assumption.
    replace ((48 + Z.to_N (i mod 10) ?= 48 + Z.to_N (j mod 10))%N) with Lt;
      [reflexivity|].
    symmetry. apply N.compare_lt_iff. lia.
  - apply compare_lt_append; [rewrite !zpad_length; reflexivity|].
    apply IH; [lia|]. apply Z.div_lt_upper_bound; lia.
Qed.

Lemma leb_trans s t u :
  Sort.leb s t = true -> Sort.leb t u = true -> Sort.leb s u = true.
Proof.
  unfold Sort.leb. intros Hst Htu.
  destruct (String.compare s t) eqn:Hc1; [| |discriminate].
  - apply String.compare_eq_iff in Hc1. subst t. exact Htu.
  - destruct (String.compare t u) eqn:Hc2; [| |discriminate].
    + apply String.compare_eq_iff in Hc2. subst u. rewrite Hc1. reflexivity.
    + assert (Hlt : String.compare s u = Lt).
      { pose proof String_as_OT.lt_strorder as [_ Htrans].
        exact (Htrans s t u Hc1 Hc2). }
      rewrite Hlt. reflexivity.
Qed.

Lemma leb_antisym s t : Sort.leb s t = true -> Sort.leb t s = true -> s = t.
Proof. apply String.leb_antisym. Qed.

Lemma leb_total s t : Sort.leb s t = false -> Sort.leb t s = true.
Proof.
  intros Hst. destruct (String.leb_total s t) as [Hle | Hle]; [|exact Hle].
  unfold Sort.leb in Hst. unfold String.leb in Hle. congruence.
Qed.

(** ** Sorting *)

Definition le (s t : string) : Prop := Sort.leb s t = true.

Lemma insert_perm s l : Permutation (Sort.insert s l) (s :: l).
Proof.
  induction l as [|t l IH]; [reflexivity|]. cbn [Sort.insert].
  destruct (Sort.leb s t); [reflexivity|].
  rewrite IH. apply perm_swap.
Qed.

Lemma sort_perm l : Permutation (Sort.sort l) l.
Proof.
  induction l as [|s l IH]; [reflexivity|]. cbn [Sort.sort fold_right].
  fold (Sort.sort l). rewrite insert_perm, IH. reflexivity.
Qed.

Lemma insert_sorted s l : Sorted le l -> Sorted le (Sort.insert s l).
Proof.
  induction l as [|t l IH]; intros Hl; [repeat constructor|].
  cbn [Sort.insert]. destruct (Sort.leb s t) eqn:Hst.
  - constructor; [exact Hl|constructor; exact Hst].
  - apply Sorted_inv in Hl as [Hl Hhd]. constructor; [apply IH, Hl|].
    destruct l as [|u l]; cbn [Sort.insert].
    + constructor. apply leb_total, Hst.
    + destruct (Sort.leb s u); constructor; [apply leb_total, Hst|].
      inversion Hhd; assumption.
Qed.

Lemma sort_sorted l : Sorted le (Sort.sort l).
Proof.
  induction l as [|s l IH]; [constructor|].
  cbn [Sort.sort fold_right]. apply insert_sorted, IH.
Qed.

(** Sorting finds the one ascending arrangement of its argument. *)
Lemma sort_unique l k : Permutation l k -> Sorted le k -> Sort.sort l = k.
Proof.
  intros Hperm Hk.
  apply (@Sorted_unique _ le leb_trans leb_antisym);
    [apply sort_sorted|exact Hk|rewrite sort_perm; exact Hperm].
Qed.

End Text.

(** * Format conversion *)

Module Converter.
Import Movie Logic Text.

(** One pass of the loop of [_any2any]: the file, the counter when the
    pass starts, the command, what it returned, and the lines printed. *)
Record attempt := mkAttempt {
  input : string;
  index : Z;
  command : string;
  status : Z;
  said : list string;
}.

Definition converted (a : attempt) : bool := status a =? 0.

(** The counter starts at [i] and moves on after a success only. *)
Fixpoint numbered (i : Z) (l : list attempt) : Prop :=
  match l with
  | [] => True
  | a :: l => index a = i /\ numbered (if converted a then i + 1 else i) l
  end.

(** [%04d] writes at least four characters, and four up to 9999. *)
Lemma fmt_0d_4_length k :
  0 <= k ->
  (4 <= String.length (Str.fmt_0d 4 k))%nat
  /\ (k <= 9999 -> String.length (Str.fmt_0d 4 k) = 4%nat).
Proof.
  intros Hk. unfold Str.fmt_0d.
  destruct (k <? 0) eqn:Hneg; [apply Z.ltb_lt in Hneg; lia|].
  rewrite zpad_length. split; [lia|].
  intros Hle. apply Nat.max_l. apply ndigits_aux_bound; [lia|].
  change (10 ^ Z.of_nat 4) with 10000. lia.
Qed.

Section Loop.
Context `{PyRuntime} `{Host}.
Variables (app anytopnm pnmtoany : string) (quiet : bool).
Variables (basename : string) (size : pyval) (ofile_ext : string).

Definition output (a : attempt) : string :=
  new_file_name basename (index a) ofile_ext.

(** What a pass has done: built its command for the file and the
    numbered name, run it, and printed about it. *)
Definition ran (a : attempt) : Prop :=
  any2any_cmd app anytopnm pnmtoany quiet size (input a) (output a)
  = inr (command a)
  /\ (exists w0, fst (os_system (command a) w0) = status a)
  /\ if converted a then
       if quiet then said a = []
       else exists bytes,
         said a = [command a;
                   any2any_transformed app pnmtoany (input a) (output a) bytes]
     else said a = ((if quiet then [] else [command a]) ++ [any2any_failed app])%list.

(** On the file systems of [Fs], which the commands do not leave, a
    command that returns 0 has left its output file. *)
Definition leaves_output (Fs : gmap string node -> Prop) (files : list string)
    (i : Z) : Prop :=
  forall file_ j cmd w0,
    In file_ files -> i <= j < i + Z.of_nat (length files) ->
    any2any_cmd app anytopnm pnmtoany quiet size file_
                (new_file_name basename j ofile_ext) = inr cmd ->
    Fs (w_fs w0) ->
    Fs (snd (os_system cmd w0))
    /\ (fst (os_system cmd w0) = 0 ->
        exists bytes,
          Os.getsize (snd (os_system cmd w0)) (new_file_name basename j ofile_ext)
          = inr bytes).

Lemma leaves_output_tail Fs f files i i' :
  i <= i' <= i + 1 -> leaves_output Fs (f :: files) i -> leaves_output Fs files i'.
Proof.
  intros Hi Hl file_ j cmd w0 Hin Hj. apply Hl; [right; exact Hin|].
  cbn [length]. lia.
Qed.

Lemma numbered_names l : forall i,
  numbered i l ->
  map output (List.filter converted l)
  = map (fun k => new_file_name basename k ofile_ext)
        (seqZ i (Z.of_nat (length (List.filter converted l)))).
Proof.
  induction l as [|a l IH]; intros i Hn; [reflexivity|].
  destruct Hn as [Hi Hn]. cbn [List.filter].
  destruct (converted a).
  - cbn [map length]. rewrite seqZ_cons by lia. cbn [map].
    unfold output at 1. rewrite Hi. f_equal.
    rewrite (IH _ Hn). do 2 f_equal; lia.
  - apply IH, Hn.
Qed.

Definition log (l : list attempt) : list (string * Z) :=
  map (fun a => (command a, status a)) l.

Lemma any2any_loop_run Fs files : forall i new_files self w,
  (forall f g, exists cmd,
      any2any_cmd app anytopnm pnmtoany quiet size f g = inr cmd) ->
  quiet = true \/ (Fs (w_fs w) /\ leaves_output Fs files i) ->
  exists attempts w',
    any2any_loop app anytopnm pnmtoany quiet basename size ofile_ext
                 files i new_files self w
    = (self, w', inr (new_files ++ map output (List.filter converted attempts))%list)
    /\ map input attempts = files
    /\ numbered i attempts
    /\ Forall ran attempts
    /\ w_spawned w' = (w_spawned w ++ log attempts)%list
    /\ w_stdout w' = (w_stdout w ++ concat (map said attempts))%list.
Proof.
  induction files as [|file_ files IH]; intros i new_files self w Hcmd Hout.
  - exists [], w. cbn. rewrite !app_nil_r. repeat split. constructor.
  - destruct (Hcmd file_ (new_file_name basename i ofile_ext)) as [cmd Hc].
    cbn [any2any_loop].
    rewrite (bind_returns _ _ self w self w cmd)
      by (unfold lift; rewrite Hc; reflexivity).
    set (w1 := if quiet then w
               else mkWorld (w_fs w) (w_stdout w ++ [cmd]) (w_spawned w)).
    assert (Hfs1 : w_fs w1 = w_fs w) by (subst w1; case quiet; reflexivity).
    assert (Hsp1 : w_spawned w1 = w_spawned w) by (subst w1; case quiet; reflexivity).
    assert (Hprint : (if negb quiet then print cmd else ret tt) self w
                     = (self, w1, inr tt)).
    { subst w1. case quiet; reflexivity. }
    rewrite (bind_returns _ _ _ _ _ _ _ Hprint).
    destruct (os_system cmd w1) as [st fs] eqn:Hsys.
    set (w2 := mkWorld fs (w_stdout w1) (w_spawned w1 ++ [(cmd, st)])).
    rewrite (bind_returns _ _ self w1 self w2 st)
      by (unfold system; rewrite Hsys; reflexivity).
    assert (Hout2 : forall i', i <= i' <= i + 1 ->
              quiet = true \/ (Fs fs /\ leaves_output Fs files i')).
    { intros i' Hi'. destruct Hout as [Hq | [HFs Hl]]; [left; exact Hq|right].
      split; [|eapply leaves_output_tail; eassumption].
      destruct (Hl file_ i cmd w1) as [HFs' _];
        [left; reflexivity|cbn [length]; lia|exact Hc|rewrite Hfs1; exact HFs|].
      rewrite Hsys in HFs'. exact HFs'. }
    destruct (st =? 0) eqn:Hst; cbn [negb].
    + (* the command succeeded *)
      assert (Hrep : exists w3 lines,
                (if negb quiet then
                   bytes <- on_fs (fun fs => Os.getsize fs (new_file_name basename i ofile_ext)) ;;
                   print (any2any_transformed app pnmtoany file_
                            (new_file_name basename i ofile_ext) bytes)
                 else ret tt) self w2 = (self, w3, inr tt)
                /\ w_fs w3 = fs /\ w_spawned w3 = w_spawned w2
                /\ w_stdout w3 = (w_stdout w2 ++ lines)%list
                /\ if quiet then lines = []
                   else exists bytes,
                       lines = [any2any_transformed app pnmtoany file_
                                  (new_file_name basename i ofile_ext) bytes]).
      { destruct (Bool.bool_dec quiet true) as [Hq|Hq].
        - rewrite Hq. cbn [negb]. exists w2, []. rewrite app_nil_r. repeat split.
        - apply Bool.not_true_is_false in Hq. rewrite Hq. cbn [negb].
          destruct Hout as [Hq' | [HFs Hl]]; [congruence|].
          destruct (Hl file_ i cmd w1) as [_ Hsize];
            [left; reflexivity|cbn [length]; lia|exact Hc|rewrite Hfs1; exact HFs|].
          rewrite Hsys in Hsize. cbn [fst snd] in Hsize.
          destruct Hsize as [bytes Hbytes]; [apply Z.eqb_eq, Hst|].
          eexists _, _. unfold bind, on_fs, print. subst w2. cbn [w_fs].
          rewrite Hbytes. repeat split. exists bytes. reflexivity. }
      destruct Hrep as (w3 & lines & Hrun3 & Hfs3 & Hsp3 & Hso3 & Hlines).
      rewrite (bind_returns _ _ _ _ _ _ _ Hrun3).
      destruct (IH (i + 1) (new_files ++ [new_file_name basename i ofile_ext])%list
                  self w3 Hcmd)
        as (attempts & w' & Hrun & Hin & Hnum & Hran & Hsp & Hso).
      { rewrite Hfs3. apply Hout2. lia. }
      set (a := mkAttempt file_ i cmd st ((if quiet then [] else [cmd]) ++ lines)%list).
      exists (a :: attempts), w'. rewrite Hrun.
      assert (Hconv : converted a = true) by exact Hst.
      cbn [List.filter map]. rewrite Hconv. cbn [map].
      split; [rewrite <- app_assoc; reflexivity|].
      split; [rewrite Hin; reflexivity|].
      split; [split; [reflexivity|rewrite Hconv; exact Hnum]|].
      split.
      { constructor; [|exact Hran]. unfold ran. rewrite Hconv.
        subst a. unfold output. cbn [said command input index status].
        split; [exact Hc|]. split; [exists w1; rewrite Hsys; reflexivity|].
        destruct (Bool.bool_dec quiet true) as [Hq|Hq].
        - rewrite Hq in *. subst lines. reflexivity.
        - apply Bool.not_true_is_false in Hq. rewrite Hq in *.
          destruct Hlines as [bytes ->]. exists bytes. reflexivity. }
      split.
      { rewrite Hsp, Hsp3. subst w2. cbn [w_spawned]. rewrite Hsp1.
        unfold log. cbn [map]. rewrite <- app_assoc. reflexivity. }
      rewrite Hso, Hso3. subst w2 w1. cbn [w_stdout concat map said a].
      destruct (Bool.bool_dec quiet true) as [Hq|Hq];
        [|apply Bool.not_true_is_false in Hq]; rewrite Hq;
        cbn [w_stdout]; rewrite <- ?app_assoc; reflexivity.
    + (* the command failed *)
      set (w3 := mkWorld (w_fs w2) (w_stdout w2 ++ [any2any_failed app]) (w_spawned w2)).
      rewrite (bind_returns _ _ self w2 self w3 tt) by reflexivity.
      destruct (IH i new_files self w3 Hcmd)
        as (attempts & w' & Hrun & Hin & Hnum & Hran & Hsp & Hso).
      { subst w3 w2. cbn [w_fs]. apply Hout2. lia. }
      set (a := mkAttempt file_ i cmd st
                  ((if quiet then [] else [cmd]) ++ [any2any_failed app])%list).
      exists (a :: attempts), w'. rewrite Hrun.
      assert (Hconv : converted a = false) by exact Hst.
      cbn [List.filter map]. rewrite Hconv.
      split; [reflexivity|].
      split; [rewrite Hin; reflexivity|].
      split; [split; [reflexivity|rewrite Hconv; exact Hnum]|].
      split.
      { constructor; [|exact Hran]. unfold ran. rewrite Hconv.
        subst a. unfold output. cbn [said command input index status].
        split; [exact Hc|]. split; [exists w1; rewrite Hsys; reflexivity|].
        reflexivity. }
      split.
      { rewrite Hsp. subst w3 w2. cbn [w_spawned]. rewrite Hsp1.
        unfold log. cbn [map]. rewrite <- app_assoc. reflexivity. }
      rewrite Hso. subst w3 w2 w1. cbn [w_stdout concat map said a].
      destruct (Bool.bool_dec quiet true) as [Hq|Hq];
        [|apply Bool.not_true_is_false in Hq]; rewrite Hq;
        cbn [w_stdout]; rewrite <- ?app_assoc; reflexivity.
Qed.

End Loop.

Section Any2any.
Context `{PyRuntime} `{Host}.

Lemma any2any_cmd_total app anytopnm pnmtoany quiet size :
  size = PNone \/ (exists a b, size = PTuple [a; b]) ->
  forall f g, exists cmd,
    any2any_cmd app anytopnm pnmtoany quiet size f g = inr cmd.
Proof.
  intros [-> | (a & b & ->)] f g; unfold any2any_cmd;
    cbn [is_none negb unpack_size Fmt.mod_s_x_s andb];
    destruct (String.eqb app anytopnm); try destruct (findprograms "pnmscale");
    eexists; reflexivity.
Qed.

(** [_any2any] on files for which lines 599-614 have chosen [app]:
    one pass for each file, in order. *)
Lemma any2any_run Fs files basename size ofile_ext self w app anytopnm pnmtoany :
  let quiet := truthy (quiet (_prop self)) in
  any2any_app files ofile_ext self w = (self, w, inr (app, anytopnm, pnmtoany)) ->
  size = PNone \/ (exists a b, size = PTuple [a; b]) ->
  quiet = true
  \/ (Fs (w_fs w)
      /\ leaves_output app anytopnm pnmtoany quiet basename size ofile_ext Fs files 1) ->
  exists attempts w',
    _any2any files basename size ofile_ext self w
    = (self, w', inr (map (output basename ofile_ext) (List.filter converted attempts)))
    /\ map input attempts = files
    /\ numbered 1 attempts
    /\ Forall (ran app anytopnm pnmtoany quiet basename size ofile_ext) attempts
    /\ w_spawned w' = (w_spawned w ++ log attempts)%list
    /\ w_stdout w' = (w_stdout w ++ concat (map said attempts))%list.
Proof.
  intros quiet Happ Hsize Hout. unfold _any2any.
  rewrite (bind_returns _ _ _ _ _ _ _ Happ).
  rewrite (bind_returns _ _ self w self w (Movie.quiet (_prop self))) by reflexivity.
  apply (any2any_loop_run app anytopnm pnmtoany quiet basename size ofile_ext
           Fs files 1 [] self w (any2any_cmd_total _ _ _ _ _ Hsize) Hout).
Qed.

(** C8. Let lines 599-614 choose [app] for the files, let [size] be
    [None] or a pair, and, unless [quiet] holds, let every command that
    returns 0 leave its output file. Then [_any2any] returns, after one
    pass for each file in the order of the list: each pass runs the
    command of its file, a pass whose command fails prints that [app]
    failed and adds nothing, and the list returned holds the output files
    of the other passes in the order of their inputs. These are named
    [basename], then the numbers 1, 2, ... written with [%04d], then
    [ofile_ext]; such a number has at least four digits, and four up to
    9999. *)
Theorem any2any_skips_failures Fs files basename size ofile_ext self w
    app anytopnm pnmtoany :
  let quiet := truthy (quiet (_prop self)) in
  any2any_app files ofile_ext self w = (self, w, inr (app, anytopnm, pnmtoany)) ->
  size = PNone \/ (exists a b, size = PTuple [a; b]) ->
  quiet = true
  \/ (Fs (w_fs w)
      /\ leaves_output app anytopnm pnmtoany quiet basename size ofile_ext Fs files 1) ->
  exists attempts w',
    let done := List.filter converted attempts in
    let numbers := seqZ 1 (Z.of_nat (length done)) in
    _any2any files basename size ofile_ext self w
    = (self, w', inr (map (output basename ofile_ext) done))
    /\ map input attempts = files
    /\ Forall (ran app anytopnm pnmtoany quiet basename size ofile_ext) attempts
    /\ w_spawned w' = (w_spawned w ++ log attempts)%list
    /\ w_stdout w' = (w_stdout w ++ concat (map said attempts))%list
    /\ map (output basename ofile_ext) done
       = map (fun k => basename +:+ Str.fmt_0d 4 k +:+ ofile_ext) numbers
    /\ Forall (fun k => (4 <= String.length (Str.fmt_0d 4 k))%nat
                        /\ (k <= 9999 -> String.length (Str.fmt_0d 4 k) = 4%nat))
              numbers.
Proof.
  intros quiet Happ Hsize Hout.
  destruct (any2any_run Fs files basename size ofile_ext self w app anytopnm pnmtoany
              Happ Hsize Hout)
    as (attempts & w' & Hrun & Hin & Hnum & Hran & Hsp & Hso).
  exists attempts, w'. cbv zeta.
  repeat (split; [assumption|]).
  split; [apply numbered_names, Hnum|].
  apply Forall_forall. intros k Hk.
  apply elem_of_seqZ in Hk. apply fmt_0d_4_length. lia.
Qed.

End Any2any.

(** A machine with ImageMagick's convert, on which a command of [table]
    writes the file listed with it and returns 0, and any other command
    returns 1. *)
Definition converting (table : list (string * string)) : Host := {|
  findprograms := String.eqb "convert";
  findprograms_all := forallb (String.eqb "convert");
  _check_type := fun _ _ => None;
  os_system := fun cmd w =>
    match assoc cmd table with
    | Some out => (0, <[out := RegularFile "png"]> (w_fs w))
    | None => (1, w_fs w)
    end;
  glob_nested := fun _ _ => inr [];
|}.

(** Three eps files of which the second cannot be converted. *)
Lemma any2any_skips_failures_witness :
  let host :=
    converting [("convert  a.eps easyviz_tmp_0001.png", "easyviz_tmp_0001.png");
                ("convert  c.eps easyviz_tmp_0002.png", "easyviz_tmp_0002.png")] in
  let files := ["a.eps"; "b.eps"; "c.eps"] in
  let w := Sample.world files in
  exists attempts w',
    @_any2any Sample.runtime host files "easyviz_tmp_" PNone ".png" Sample.blank w
    = (Sample.blank, w',
       inr (map (output "easyviz_tmp_" ".png") (List.filter converted attempts)))
    /\ map input attempts = files
    /\ w_spawned w' = log attempts
    /\ map (output "easyviz_tmp_" ".png") (List.filter converted attempts)
       = map (fun k => "easyviz_tmp_" +:+ Str.fmt_0d 4 k +:+ ".png")
             (seqZ 1 (Z.of_nat (length (List.filter converted attempts)))).
Proof.
  intros host files w.
  destruct (@any2any_skips_failures Sample.runtime host (fun _ => True) files
              "easyviz_tmp_" PNone ".png" Sample.blank w "convert" "pstopnm" "pnmtopng")
    as (attempts & w' & Hrun & Hin & _ & Hsp & _ & Hnames & _).
  - reflexivity.
  - left. reflexivity.
  - right. split; [exact I|].
    intros file_ j cmd w0 Hin Hj Hcmd _. split; [exact I|].
    assert (Hj' : j = 1 \/ j = 2 \/ j = 3) by (cbn in Hj; lia).
    destruct Hin as [<- | [<- | [<- | []]]]; destruct Hj' as [-> | [-> | ->]];
      vm_compute in Hcmd; injection Hcmd as <-; cbn;
      first [ intros Hst; discriminate Hst
            | intros _; unfold Os.getsize; rewrite lookup_insert_eq; eexists; reflexivity ].
  - exists attempts, w'. repeat split; assumption.
Defined.

(** C8 as stated fails from the 10000th converted file on: its number
    has five digits. *)
Lemma any2any_five_digits :
  let host := Sample.host ["convert"] (fun _ => 0) in
  let files := "a.eps" :: repeat "a.eps" (Z.to_nat 9999) in
  let self := mkEncoder (set_prop "quiet" (PBool true) (_local_prop (InSeq []))) None in
  exists w' new_files,
    @_any2any Sample.runtime host files "easyviz_tmp_" PNone ".png" self (Sample.world [])
    = (self, w', inr new_files)
    /\ new_files !! Z.to_nat 9999 = Some "easyviz_tmp_10000.png"
    /\ Str.fmt_0d 4 10000 = "10000".
Proof.
  intros host files self.
  destruct (@any2any_run Sample.runtime host (fun _ => True) files
              "easyviz_tmp_" PNone ".png" self (Sample.world [])
              "convert" "pstopnm" "pnmtopng")
    as (attempts & w' & Hrun & Hin & Hnum & Hran & _).
  - reflexivity.
  - left. reflexivity.
  - left. reflexivity.
  - assert (Hall : List.filter converted attempts = attempts).
    { apply forallb_filter_id, forallb_forall. intros a Ha.
      rewrite Forall_forall in Hran. apply list_elem_of_In, Hran in Ha.
      destruct Ha as (_ & [w0 Hst] & _). unfold converted. rewrite <- Hst.
      reflexivity. }
    assert (Hlen : length attempts = Z.to_nat 10000).
    { rewrite <- (length_map input), Hin. subst files. cbn [length].
      rewrite repeat_length. lia. }
    exists w', (map (output "easyviz_tmp_" ".png") (List.filter converted attempts)).
    split; [exact Hrun|]. split; [|reflexivity].
    rewrite (numbered_names _ _ _ _ Hnum), Hall, Hlen.
    rewrite list_lookup_fmap, lookup_seqZ_lt by lia.
    replace (1 + Z.of_nat (Z.to_nat 9999)) with 10000 by lia. reflexivity.
Qed.

End Converter.

(** * Printf-style file names *)

Module Resolver.
Import Movie Logic Text.

(** ** The placeholder *)

Lemma search_line_none s :
  Str.contains "%" s = false -> Printf.search_line s = None.
Proof.
  induction s as [|a s IH]; [reflexivity|]. cbn [Str.contains]. intros Hs.
  apply orb_false_iff in Hs as [Ha Hs]. cbn [Printf.search_line].
  rewrite (IH Hs). unfold Printf.placeholder_at. rewrite Ha. reflexivity.
Qed.

Lemma search_line_append p : forall r pre ds ext,
  Printf.search_line r = Some (pre, ds, ext) ->
  Printf.search_line (p +:+ r) = Some (p +:+ pre, ds, ext).
Proof.
  induction p as [|a p IH]; intros r pre ds ext Hr; [exact Hr|].
  rewrite !append_String. cbn [Printf.search_line].
  rewrite (IH _ _ _ _ Hr). reflexivity.
Qed.

Lemma take_digits_append ds t :
  Str.all_chars Str.is_digit ds = true ->
  Printf.take_digits (ds +:+ String "d" t) = ds.
Proof.
  induction ds as [|a ds IH]; [reflexivity|].
  cbn [Str.all_chars]. intros Hds. apply andb_true_iff in Hds as [Ha Hds].
  rewrite append_String. cbn [Printf.take_digits]. rewrite Ha, (IH Hds). reflexivity.
Qed.

Lemma placeholder_at_digits a ds t :
  Str.all_chars Str.is_digit (String a ds) = true ->
  Str.contains "." t = true ->
  Printf.placeholder_at (String "%" (String a ds +:+ String "d" t))
  = Some (String a ds, t).
Proof.
  intros Hds Hdot. unfold Printf.placeholder_at.
  rewrite (take_digits_append _ _ Hds), drop_append.
  cbn [Ascii.eqb Bool.eqb andb]. rewrite Hdot. reflexivity.
Qed.

(** The pattern of a prefix, a width and a suffix. *)
Definition pattern (prefix : string) (width : nat) (suffix : string) : string :=
  prefix +:+ "%0" +:+ Str.dec (Z.of_nat width) +:+ "d" +:+ suffix.

Lemma re_search_pattern prefix width suffix :
  Str.contains Str.newline prefix = false ->
  Str.contains Str.newline suffix = false ->
  Str.contains "." suffix = true ->
  Str.contains "%" suffix = false ->
  Printf.re_search (pattern prefix width suffix)
  = Some (prefix, "0" +:+ Str.dec (Z.of_nat width), suffix).
Proof.
  intros Hp Hs Hdot Hpc.
  pose proof (dec_digits (Z.of_nat width) ltac:(lia)) as Hdec.
  change ("0" +:+ Str.dec (Z.of_nat width))
    with (String "0" (Str.dec (Z.of_nat width))).
  set (ds := String "0" (Str.dec (Z.of_nat width))).
  assert (Hds : Str.all_chars Str.is_digit ds = true) by exact Hdec.
  assert (Hpat : pattern prefix width suffix
                 = prefix +:+ String "%" (ds +:+ String "d" suffix)) by reflexivity.
  unfold Printf.re_search. rewrite SizeOption.split_on_absent.
  2:{ rewrite Hpat, contains_append, Hp. cbn [Str.contains orb].
      change (Str.contains Str.newline (ds +:+ String "d" suffix) = false).
      rewrite contains_append, (digits_without Str.newline ds eq_refl Hds).
      cbn [Str.contains orb]. exact Hs. }
  rewrite Hpat.
  rewrite (search_line_append prefix _ "" ds suffix); [rewrite append_nil; reflexivity|].
  cbn [Printf.search_line]. rewrite search_line_none.
  2:{ rewrite contains_append, (digits_without "%" ds eq_refl Hds).
      cbn [Str.contains orb]. exact Hpc. }
  subst ds. rewrite (placeholder_at_digits _ _ _ Hds Hdot). reflexivity.
Qed.

Lemma digit_glob_pattern prefix width suffix :
  Printf.digit_glob (prefix, "0" +:+ Str.dec (Z.of_nat width), suffix)
  = prefix +:+ Str.repeat_str "[0-9]" width +:+ suffix.
Proof.
  unfold Printf.digit_glob.
  change (Str.digits_value ("0" +:+ Str.dec (Z.of_nat width)))
    with (Str.digits_value (Str.dec (Z.of_nat width))).
  rewrite digits_value_dec by lia. rewrite Nat2Z.id. reflexivity.
Qed.

(** ** The glob pattern *)

Definition digit_class : Fnmatch.gtok := Fnmatch.GSet false [("0"%char, "9"%char)].

Definition literals (s : string) : list Fnmatch.gtok :=
  map Fnmatch.GLit (list_ascii_of_string s).

Lemma has_magic_String a s :
  Glob.has_magic (String a s) = false ->
  Ascii.eqb a "*" = false /\ Ascii.eqb a "?" = false /\ Ascii.eqb a "[" = false
  /\ Glob.has_magic s = false.
Proof.
  unfold Glob.has_magic. cbn [Str.contains]. intros Hm.
  repeat match goal with
         | Hx : _ || _ = false |- _ => apply orb_false_iff in Hx as [? ?]
         end.
  repeat split; try assumption.
  repeat (apply orb_false_iff; split); assumption.
Qed.

Lemma translate_literals s : forall rest ts,
  Glob.has_magic s = false ->
  (forall f, (String.length rest <= f)%nat -> Fnmatch.translate f rest = inr ts) ->
  forall f, (String.length (s +:+ rest) <= f)%nat ->
    Fnmatch.translate f (s +:+ rest) = inr (literals s ++ ts)%list.
Proof.
  induction s as [|a s IH]; intros rest ts Hm Hrest f Hf; [apply Hrest, Hf|].
  apply has_magic_String in Hm as (Hstar & Hany & Hset & Hm).
  change (String a s +:+ rest) with (String a (s +:+ rest)) in *.
  cbn [String.length] in Hf.
  destruct f as [|f]; [lia|]. cbn [Fnmatch.translate].
  rewrite Hstar, Hany, Hset.
  rewrite (IH rest ts Hm Hrest f) by lia. reflexivity.
Qed.

Lemma translate_class rest ts :
  (forall f, (String.length rest <= f)%nat -> Fnmatch.translate f rest = inr ts) ->
  forall f, (String.length ("[0-9]" +:+ rest) <= f)%nat ->
    Fnmatch.translate f ("[0-9]" +:+ rest) = inr (digit_class :: ts).
Proof.
  intros Hrest f Hf.
  change ("[0-9]" +:+ rest)
    with (String "[" (String "0" (String "-" (String "9" (String "]" rest))))) in *.
  cbn [String.length] in Hf. destruct f as [|f]; [lia|].
  cbn. rewrite (Hrest f) by lia. reflexivity.
Qed.

Lemma translate_classes w : forall rest ts,
  (forall f, (String.length rest <= f)%nat -> Fnmatch.translate f rest = inr ts) ->
  forall f, (String.length (Str.repeat_str "[0-9]" w +:+ rest) <= f)%nat ->
    Fnmatch.translate f (Str.repeat_str "[0-9]" w +:+ rest)
    = inr (repeat digit_class w ++ ts)%list.
Proof.
  induction w as [|w IH]; intros rest ts Hrest f Hf; [apply Hrest, Hf|].
  cbn [Str.repeat_str repeat] in *. rewrite append_assoc3 in *.
  apply translate_class; [|exact Hf]. intros f' Hf'. apply IH; assumption.
Qed.

Lemma translate_plain s :
  Glob.has_magic s = false ->
  forall f, (String.length s <= f)%nat -> Fnmatch.translate f s = inr (literals s).
Proof.
  intros Hm f Hf. pose proof (translate_literals s "" [] Hm) as Hl.
  rewrite append_nil, app_nil_r in Hl.
  apply Hl; [intros [|f'] _; reflexivity|exact Hf].
Qed.

(** The compiled pattern of the rewritten name. *)
Lemma translate_digit_glob prefix width suffix :
  Glob.has_magic prefix = false -> Glob.has_magic suffix = false ->
  let pat := prefix +:+ Str.repeat_str "[0-9]" width +:+ suffix in
  Fnmatch.translate (String.length pat) pat
  = inr (literals prefix ++ repeat digit_class width ++ literals suffix)%list.
Proof.
  intros Hp Hs pat. subst pat.
  apply translate_literals; [exact Hp| |lia].
  apply translate_classes, translate_plain, Hs.
Qed.

Lemma gmatch_literals s p t :
  Fnmatch.gmatch (literals s ++ p) (s +:+ t) = Fnmatch.gmatch p t.
Proof.
  induction s as [|a s IH]; [reflexivity|].
  rewrite append_String. unfold literals in *.
  cbn [list_ascii_of_string map app Fnmatch.gmatch].
  rewrite Ascii.eqb_refl. exact IH.
Qed.

Lemma gmatch_self s : Fnmatch.gmatch (literals s) s = true.
Proof.
  induction s as [|a s IH]; [reflexivity|]. unfold literals in *.
  cbn [list_ascii_of_string map Fnmatch.gmatch]. rewrite Ascii.eqb_refl. exact IH.
Qed.

Lemma gmatch_classes ds p t :
  Str.all_chars Str.is_digit ds = true ->
  Fnmatch.gmatch (repeat digit_class (String.length ds) ++ p) (ds +:+ t)
  = Fnmatch.gmatch p t.
Proof.
  induction ds as [|a ds IH]; [reflexivity|].
  cbn [Str.all_chars]. intros Hds. apply andb_true_iff in Hds as [Ha Hds].
  rewrite append_String. cbn [String.length repeat app Fnmatch.gmatch].
  unfold digit_class at 1. cbn [Fnmatch.gmatch].
  replace (Fnmatch.in_set [("0"%char, "9"%char)] a) with true;
    [exact (IH Hds)|].
  unfold Fnmatch.in_set. cbn [existsb fst snd]. rewrite orb_false_r.
  symmetry. exact Ha.
Qed.

(** ** The frames *)

(** No newline, no slash, and nothing [glob] reads as a wildcard. *)
Definition plain (s : string) : bool :=
  negb (Str.contains Str.newline s) && negb (Str.contains "/" s)
  && negb (Glob.has_magic s).

Lemma plain_inv s :
  plain s = true ->
  Str.contains Str.newline s = false /\ Str.contains "/" s = false
  /\ Glob.has_magic s = false.
Proof.
  unfold plain. intros Hp.
  apply andb_true_iff in Hp as [Hp Hm]. apply andb_true_iff in Hp as [Hn Hs].
  apply negb_true_iff in Hm, Hn, Hs. auto.
Qed.

(** The name of frame [i], and the first [n] of them. *)
Definition frame (prefix : string) (width : nat) (suffix : string) (i : Z) : string :=
  prefix +:+ Str.fmt_0d width i +:+ suffix.

Definition frames (prefix : string) (width : nat) (suffix : string) (n : Z)
  : list string :=
  map (frame prefix width suffix) (seqZ 0 n).

Lemma shown pre w suf i :
  (1 <= w)%nat ->
  match pre +:+ Str.repeat_str "[0-9]" w +:+ suf with
  | String c _ =>
      Ascii.eqb c "." = true
      \/ Str.startswith (pre +:+ Str.zpad w i +:+ suf) "." = false
  | "" => True
  end.
Proof.
  intros Hw. destruct pre as [|c pre].
  - destruct w as [|w]; [lia|]. right.
    pose proof (zpad_digits (S w) i) as Hd.
    pose proof (zpad_length (S w) i) as Hl.
    destruct (Str.zpad (S w) i) as [|d ds]; [discriminate Hl|].
    cbn [Str.all_chars] in Hd. apply andb_true_iff in Hd as [Hd _].
    change (String.prefix "." (String d (ds +:+ suf)) = false).
    cbn [String.prefix]. destruct (ascii_dec "." d) as [<- | _]; [|reflexivity].
    discriminate Hd.
  - change (Ascii.eqb c "." = true
            \/ String.prefix "." (String c (pre +:+ Str.zpad w i +:+ suf)) = false).
    destruct (Ascii.eqb c ".") eqn:Hc; [left; reflexivity|].
    right. cbn [String.prefix].
    destruct (ascii_dec "." c) as [<- | _]; [discriminate Hc|reflexivity].
Qed.

Lemma classes_no_slash w : Str.contains "/" (Str.repeat_str "[0-9]" w) = false.
Proof.
  induction w as [|w IH]; [reflexivity|].
  cbn [Str.repeat_str]. rewrite contains_append. exact IH.
Qed.

Section Frames.
Variables (prefix suffix : string) (width : nat) (n : Z).
Hypothesis plain_prefix : plain prefix = true.
Hypothesis plain_suffix : plain suffix = true.
Hypothesis some_width : (1 <= width)%nat.
Hypothesis few : 0 <= n <= 10 ^ Z.of_nat width.

Lemma frame_zpad i :
  0 <= i < 10 ^ Z.of_nat width ->
  frame prefix width suffix i = prefix +:+ Str.zpad width i +:+ suffix.
Proof. intros Hi. unfold frame. rewrite fmt_0d_zpad by assumption. reflexivity. Qed.

Lemma frame_lt i j :
  0 <= i < j -> j < 10 ^ Z.of_nat width ->
  String.compare (frame prefix width suffix i) (frame prefix width suffix j) = Lt.
Proof.
  intros Hij Hj. rewrite !frame_zpad by lia. rewrite compare_prefix.
  apply compare_lt_append; [rewrite !zpad_length; reflexivity|].
  apply zpad_lt; assumption.
Qed.

Lemma frame_inj i j :
  0 <= i < 10 ^ Z.of_nat width -> 0 <= j < 10 ^ Z.of_nat width ->
  frame prefix width suffix i = frame prefix width suffix j -> i = j.
Proof.
  intros Hi Hj Heq.
  destruct (Z.lt_trichotomy i j) as [Hlt | [Heq' | Hgt]]; [|exact Heq'|].
  - pose proof (frame_lt i j ltac:(lia) ltac:(lia)) as Hc.
    rewrite Heq, compare_refl in Hc. discriminate Hc.
  - pose proof (frame_lt j i ltac:(lia) ltac:(lia)) as Hc.
    rewrite Heq, compare_refl in Hc. discriminate Hc.
Qed.

Lemma frames_NoDup : NoDup (frames prefix width suffix n).
Proof.
  unfold frames. apply (NoDup_fmap_2_strong (frame prefix width suffix)).
  - intros i j Hi Hj. apply elem_of_seqZ in Hi, Hj. apply frame_inj; lia.
  - apply NoDup_seqZ.
Qed.

Lemma frames_from_sorted m : forall a,
  0 <= a -> a + Z.of_nat m <= 10 ^ Z.of_nat width ->
  Sorted le (map (frame prefix width suffix) (seqZ a (Z.of_nat m))).
Proof.
  induction m as [|m IH]; intros a Ha Hm; [constructor|].
  rewrite seqZ_cons by lia.
  replace (Z.pred (Z.of_nat (S m))) with (Z.of_nat m) by lia.
  cbn [map]. constructor; [apply IH; lia|].
  destruct m as [|m]; [constructor|].
  rewrite seqZ_cons by lia. cbn [map]. constructor.
  unfold le, Sort.leb. rewrite frame_lt by lia. reflexivity.
Qed.

Lemma frames_sorted : Sorted le (frames prefix width suffix n).
Proof.
  unfold frames. rewrite <- (Z2Nat.id n) by lia.
  apply frames_from_sorted; lia.
Qed.

Lemma frames_elem p :
  In p (frames prefix width suffix n) ->
  exists i, 0 <= i < 10 ^ Z.of_nat width
            /\ p = prefix +:+ Str.zpad width i +:+ suffix.
Proof.
  unfold frames. intros Hin. apply in_map_iff in Hin as (i & <- & Hi).
  apply list_elem_of_In, elem_of_seqZ in Hi.
  exists i. split; [lia|]. apply frame_zpad. lia.
Qed.

Lemma frame_no_slash p :
  In p (frames prefix width suffix n) -> Str.contains "/" p = false.
Proof.
  intros Hin. apply frames_elem in Hin as (i & _ & ->).
  destruct (plain_inv _ plain_prefix) as (_ & Hp & _).
  destruct (plain_inv _ plain_suffix) as (_ & Hs & _).
  rewrite !contains_append, Hp, Hs.
  rewrite (digits_without "/" _ eq_refl (zpad_digits width i)). reflexivity.
Qed.

(** The rewritten name of the pattern. *)
Definition digit_pattern : string :=
  prefix +:+ Str.repeat_str "[0-9]" width +:+ suffix.

Lemma frame_matches p ts :
  In p (frames prefix width suffix n) ->
  Fnmatch.translate (String.length digit_pattern) digit_pattern = inr ts ->
  Fnmatch.gmatch ts p = true.
Proof.
  intros Hin Hts. apply frames_elem in Hin as (i & _ & ->).
  destruct (plain_inv _ plain_prefix) as (_ & _ & Hp).
  destruct (plain_inv _ plain_suffix) as (_ & _ & Hs).
  unfold digit_pattern in Hts. rewrite (translate_digit_glob _ _ _ Hp Hs) in Hts.
  injection Hts as <-.
  rewrite gmatch_literals. rewrite <- (zpad_length width i) at 1.
  rewrite (gmatch_classes _ _ _ (zpad_digits width i)).
  apply gmatch_self.
Qed.

(** A frame is hidden only when the pattern starts with a dot too. *)
Lemma frame_shown p :
  In p (frames prefix width suffix n) ->
  match digit_pattern with
  | String c _ => Ascii.eqb c "." = true \/ Str.startswith p "." = false
  | "" => True
  end.
Proof.
  intros Hin. apply frames_elem in Hin as (i & _ & ->).
  apply shown, some_width.
Qed.

Section Directory.
Context `{Host}.
Variable fs : gmap string node.
Hypothesis only_frames : forall p, is_Some (fs !! p) <-> In p (frames prefix width suffix n).

Lemma listdir_frames : Permutation (Os.listdir fs) (frames prefix width suffix n).
Proof.
  unfold Os.listdir. rewrite forallb_filter_id.
  - apply NoDup_Permutation.
    + apply (NoDup_fst_map_to_list fs).
    + apply frames_NoDup.
    + intros p.
      rewrite (list_elem_of_In (frames prefix width suffix n)), <- only_frames.
      change (map fst (map_to_list fs)) with ((map_to_list fs).*1).
      rewrite list_elem_of_fmap. split.
      * intros ([q v] & -> & Hqv). apply elem_of_map_to_list in Hqv.
        exists v. exact Hqv.
      * intros [v Hv]. exists (p, v). split; [reflexivity|].
        apply elem_of_map_to_list, Hv.
  - apply forallb_forall. intros p Hp. apply negb_true_iff, frame_no_slash.
    apply only_frames. apply in_map_iff in Hp as ([q v] & <- & Hqv).
    apply list_elem_of_In, elem_of_map_to_list in Hqv. exists v. exact Hqv.
Qed.

Lemma glob_frames :
  exists l, Glob.glob fs digit_pattern = inr l
            /\ Permutation l (frames prefix width suffix n).
Proof.
  destruct (plain_inv _ plain_prefix) as (_ & Hps & Hpm).
  destruct (plain_inv _ plain_suffix) as (_ & Hss & Hsm).
  assert (Hmagic : Glob.has_magic digit_pattern = true).
  { unfold Glob.has_magic, digit_pattern. destruct width as [|w]; [lia|].
    cbn [Str.repeat_str].
    apply orb_true_iff. right. rewrite contains_append.
    apply orb_true_iff. right. reflexivity. }
  assert (Hslash : Str.contains "/" digit_pattern = false).
  { unfold digit_pattern.
    rewrite !contains_append, Hps, Hss, classes_no_slash. reflexivity. }
  unfold Glob.glob. rewrite Hmagic, Hslash. cbn [negb].
  unfold Glob.glob1, Fnmatch.filter.
  destruct (Fnmatch.translate (String.length digit_pattern) digit_pattern)
    as [e|ts] eqn:Hts.
  { unfold digit_pattern in Hts. rewrite (translate_digit_glob _ _ _ Hpm Hsm) in Hts.
    discriminate Hts. }
  assert (Hall : forall p, In p (Os.listdir fs) -> In p (frames prefix width suffix n)).
  { intros p Hp. apply (Permutation_in _ listdir_frames), Hp. }
  assert (Hshown :
    match digit_pattern with
    | String c _ =>
        if Ascii.eqb c "." then Os.listdir fs
        else List.filter (fun n => negb (Str.startswith n ".")) (Os.listdir fs)
    | "" => Os.listdir fs
    end = Os.listdir fs).
  { destruct digit_pattern as [|c pat] eqn:Hpat; [reflexivity|].
    destruct (Ascii.eqb c ".") eqn:Hc; [reflexivity|].
    apply forallb_filter_id, forallb_forall. intros p Hp.
    pose proof (frame_shown p (Hall p Hp)) as Hs. rewrite Hpat, Hc in Hs.
    destruct Hs as [Hs | Hs]; [discriminate Hs|]. rewrite Hs. reflexivity. }
  rewrite Hshown. eexists. split; [reflexivity|].
  rewrite forallb_filter_id; [exact listdir_frames|].
  apply forallb_forall. intros p Hp. apply frame_matches; [apply Hall, Hp|exact Hts].
Qed.

End Directory.
End Frames.

Section Resolution.
Context `{PyRuntime} `{Host}.

Lemma get_size_shape v :
  get_size v = PNone
  \/ exists a b, get_size v = PTuple [a; b] \/ get_size v = PList [a; b].
Proof.
  unfold get_size.
  destruct (match v with
            | PStr s =>
                match assoc s legal_sizes with
                | Some t => t
                | None => PList (map PStr (Str.split_on "x" s))
                end
            | _ => v
            end) as [| | | | |[|a [|b [|c l]]]|[|a [|b [|c l]]]]; eauto.
Qed.

(** Lines 146-152 with nothing to encode: whatever [_convert] has
    raised, it has not returned. *)
Lemma convert_no_match s self w :
  input_files (_prop self) = InStr s ->
  expand_pattern s self w = (self, w, inr []) ->
  exists e,
    _convert self w = (self, w, inl e)
    /\ forall enc hundredths delay,
         encoder (_prop self) = PStr enc ->
         Fmt.delay_of_fps (fps (_prop self)) = inr hundredths ->
         Fmt.fmt_d (PFloat hundredths) = inr delay ->
         e = InvalidFileSpec.
Proof.
  intros Hin Hexp. unfold _convert.
  rewrite (bind_returns _ _ self w self w (encoder (_prop self))) by reflexivity.
  rewrite (bind_returns _ _ self w self w (fps (_prop self))) by reflexivity.
  destruct (Fmt.delay_of_fps (fps (_prop self))) as [e1|h] eqn:Hh.
  { exists e1. split; [reflexivity|]. intros enc h' d _ Hh' _. discriminate Hh'. }
  rewrite (bind_returns _ _ self w self w h) by reflexivity.
  destruct (Fmt.fmt_d (PFloat h)) as [e2|delay] eqn:Hd.
  { exists e2. split; [reflexivity|]. intros enc h' d _ Hh' Hd'.
    injection Hh' as <-. rewrite Hd in Hd'. discriminate Hd'. }
  rewrite (bind_returns _ _ self w self w delay) by reflexivity.
  destruct (encoder (_prop self)) as [| | | |enc| |] eqn:Henc;
    try (eexists; split; [reflexivity|]; intros ? ? ? Habs; discriminate Habs).
  rewrite (bind_returns _ _ self w self w (enc +:+ " -delay " +:+ delay))
    by reflexivity.
  rewrite (bind_returns _ _ self w self w (get_size (size (_prop self))))
    by reflexivity.
  exists InvalidFileSpec. split; [|reflexivity].
  destruct (get_size_shape (size (_prop self))) as [Hg | (a & b & [Hg | Hg])];
    rewrite Hg; cbn [is_none negb];
    (erewrite bind_returns by reflexivity);
    (rewrite (bind_returns _ _ self w self w (InStr s))
       by (unfold prop; rewrite Hin; reflexivity));
    rewrite (bind_returns _ _ _ _ _ _ _ Hexp); reflexivity.
Qed.

(** The resolution step of a builder, taken alone. Let [prefix] and
    [suffix] hold no newline, no slash and no
    glob wildcard, let [suffix] hold a dot and no percent sign, let
    [width] be at least 1 and [n] at most the number of [width]-digit
    indices, and let the paths that exist be the names [prefix],
    [%0<width>d] of the index, [suffix] for the indices from 0 to [n-1].
    Then the search of lines 140-141 finds the placeholder of
    [prefix%0<width>d<suffix>], line 146 puts [width] digit classes in its
    place, and globbing and sorting the result gives these [n] names
    from index 0 upwards. A file specification that gives no name makes
    [_convert] raise: the error of line 150 when the statements before
    have raised none. *)
Theorem printf_frames_resolved prefix suffix width n self w :
  plain prefix = true ->
  plain suffix = true ->
  Str.contains "." suffix = true ->
  Str.contains "%" suffix = false ->
  (1 <= width)%nat ->
  0 <= n <= 10 ^ Z.of_nat width ->
  (forall p, is_Some (w_fs w !! p) <-> In p (frames prefix width suffix n)) ->
  Printf.re_search (pattern prefix width suffix)
  = Some (prefix, "0" +:+ Str.dec (Z.of_nat width), suffix)
  /\ Printf.digit_glob (prefix, "0" +:+ Str.dec (Z.of_nat width), suffix)
     = prefix +:+ Str.repeat_str "[0-9]" width +:+ suffix
  /\ expand_pattern (pattern prefix width suffix) self w
     = (self, w, inr (frames prefix width suffix n))
  /\ forall s self0 w0,
       input_files (_prop self0) = InStr s ->
       expand_pattern s self0 w0 = (self0, w0, inr []) ->
       exists e,
         _convert self0 w0 = (self0, w0, inl e)
         /\ forall enc hundredths delay,
              encoder (_prop self0) = PStr enc ->
              Fmt.delay_of_fps (fps (_prop self0)) = inr hundredths ->
              Fmt.fmt_d (PFloat hundredths) = inr delay ->
              e = InvalidFileSpec.
Proof.
  intros Hp Hs Hdot Hpc Hw Hn Hdir.
  destruct (plain_inv _ Hp) as (Hpn & _). destruct (plain_inv _ Hs) as (Hsn & _).
  pose proof (re_search_pattern prefix width suffix Hpn Hsn Hdot Hpc) as Hre.
  split; [exact Hre|]. split; [apply digit_glob_pattern|].
  split; [|intros s self0 w0; apply convert_no_match].
  unfold expand_pattern. rewrite Hre, digit_glob_pattern.
  destruct (glob_frames prefix suffix width n Hp Hs Hw Hn (w_fs w) Hdir)
    as (l & Hglob & Hperm).
  unfold bind, on_fs, ret. unfold digit_pattern in Hglob. rewrite Hglob.
  rewrite (sort_unique l _ Hperm (frames_sorted prefix suffix width n Hw Hn)).
  reflexivity.
Qed.

End Resolution.

Lemma files_lookup names p : is_Some (Sample.files names !! p) <-> In p names.
Proof.
  unfold Sample.files. rewrite <- list_elem_of_In.
  rewrite <- not_eq_None_Some, <- not_elem_of_list_to_map.
  change ((map (fun n => (n, RegularFile "")) names).*1)
    with (map fst (map (fun n : string => (n, RegularFile "")) names)).
  rewrite map_map, map_id. split; [apply dec_stable|tauto].
Qed.

(** Three frames frame_0000.png, frame_0001.png and frame_0002.png. *)
Lemma printf_frames_resolved_witness :
  let host := Sample.host ["convert"] (fun _ => 0) in
  let names := ["frame_0000.png"; "frame_0001.png"; "frame_0002.png"] in
  let w := Sample.world names in
  Printf.re_search "frame_%04d.png" = Some ("frame_", "04", ".png")
  /\ @expand_pattern host "frame_%04d.png" Sample.blank w
     = (Sample.blank, w, inr names).
Proof.
  intros host names w.
  destruct (@printf_frames_resolved Sample.runtime host "frame_" ".png" 4%nat 3
              Sample.blank w)
    as (Hre & _ & Hexp & _).
  - reflexivity.
  - reflexivity.
  - reflexivity.
  - reflexivity.
  - lia.
  - lia.
  - intros p. apply files_lookup.
  - split; [exact Hre|exact Hexp].
Defined.

End Resolver.

(** * What the constructor and the builders do to the world *)

Module Effects.
Import Movie Logic.

(** The files and the processes are those of [w0]; the output may have
    grown. *)
Definition same_files (w0 : World) : MovieEncoder -> World -> Prop :=
  fun _ w => w_fs w = w_fs w0 /\ w_spawned w = w_spawned w0.

(** The world is [w0]. *)
Definition same_world (w0 : World) : MovieEncoder -> World -> Prop :=
  fun _ w => w = w0.

(** What a run has returned, taken apart. *)
Lemma bind_inr_inv {A B} (c : M A) (k : A -> M B) self w self' w' b :
  bind c k self w = (self', w', inr b) ->
  exists a self1 w1, c self w = (self1, w1, inr a) /\ k a self1 w1 = (self', w', inr b).
Proof.
  unfold bind. destruct (c self w) as [[self1 w1] [e|a]]; [discriminate|].
  intros Hk. exists a, self1, w1. split; [reflexivity|exact Hk].
Qed.

Section Effects.
Context `{PyRuntime} `{Host}.

Lemma same_files_print w0 s : inv (same_files w0) (print s).
Proof. intros self w HI. exact HI. Qed.

Lemma same_files_check_input_files w0 l :
  forall flag, inv (same_files w0) (check_input_files l flag).
Proof.
  induction l as [|f l IH]; intros flag; cbn [check_input_files].
  - apply inv_ret.
  - repeat first [apply IH | apply same_files_print | inv_step].
Qed.

Lemma same_files_init w0 input_files kwargs :
  inv (same_files w0) (__init__ input_files kwargs).
Proof.
  unfold __init__.
  repeat first
    [ apply same_files_check_input_files
    | lazymatch goal with
      | |- inv _ (assign_props _) => intros ? ? HI; exact HI
      | |- inv _ (assign _ _) => intros ? ? HI; exact HI
      | |- inv _ (assign_file_type _) => intros ? ? HI; exact HI
      end
    | inv_step ].
Qed.

(** X1. The constructor runs no command and changes no file, whether
    it returns or raises; and when it raises, [movie] stops with its
    exception in the world it leaves. *)
Theorem constructor_runs_nothing input_files kwargs w :
  match new input_files kwargs w with
  | (w', r) =>
      w_fs w' = w_fs w /\ w_spawned w' = w_spawned w
      /\ match r with
         | inl e => movie input_files kwargs w = (w', inl e)
         | inr _ => True
         end
  end.
Proof.
  pose proof (same_files_init w input_files kwargs
                (mkEncoder (_local_prop (InSeq [])) None) w (conj eq_refl eq_refl))
    as Hinit.
  unfold movie, new.
  destruct (__init__ input_files kwargs (mkEncoder (_local_prop (InSeq [])) None) w)
    as [[self' w'] [e|[]]]; destruct Hinit as [Hfs Hsp]; auto.
Qed.

Lemma same_world_default_output_file w0 d :
  inv (same_world w0) (default_output_file d).
Proof.
  unfold default_output_file.
  repeat first
    [ lazymatch goal with
      | |- inv _ (assign _ _) => intros ? ? HI; exact HI
      end
    | inv_step ].
Qed.

(** X2. [_convert] builds its command without printing, running a
    command or changing a file: the world it leaves is the world it
    found, whether it returns or raises. *)
Theorem convert_leaves_world self w :
  match _convert self w with
  | (_, w', _) => w' = w
  end.
Proof.
  exact (inv__convert (same_world w)
           (same_world_default_output_file w "movie.gif") self w eq_refl).
Qed.

End Effects.
End Effects.

(** * The constructor *)

Module Constructor.
Import Movie Logic Effects.

(** The keys of [_local_prop] (lines 9-32). *)
Definition option_names : list string :=
  ["input_files"; "output_file"; "overwrite_output"; "encoder"; "vbitrate";
   "vbuffer"; "fps"; "vcodec"; "size"; "quiet"; "aspect"; "preferred_package";
   "qscale"; "qmin"; "qmax"; "iqscale"; "pqscale"; "bqscale"; "pattern";
   "gop_size"; "force_conversion"; "cleanup"].

Lemma set_prop_unknown key v p : ~ In key option_names -> set_prop key v p = p.
Proof.
  intros Hk. destruct p. unfold set_prop. cbn [input_files output_file
    overwrite_output encoder vbitrate vbuffer fps vcodec size quiet aspect
    preferred_package qscale qmin qmax iqscale pqscale bqscale pattern gop_size
    force_conversion cleanup file_type].
  repeat match goal with
         | |- context [String.eqb key ?k] =>
             replace (String.eqb key k) with false
               by (symmetry; apply String.eqb_neq; intros ->; apply Hk;
                   cbn; tauto)
         end.
  reflexivity.
Qed.

Lemma drop_empty n : Str.drop n "" = "".
Proof. destruct n; reflexivity. Qed.

Lemma drop_add i : forall d p, Str.drop (i + d) p = Str.drop d (Str.drop i p).
Proof.
  induction i as [|i IH]; intros d p; [reflexivity|].
  destruct p as [|a p]; [cbn; rewrite !drop_empty; reflexivity|]. apply IH.
Qed.

Lemma rfind_drop c s : forall d,
  Str.rfind c s = Some d -> exists r, Str.drop d s = String c r.
Proof.
  induction s as [|a s IH]; intros d; [discriminate|]. cbn [Str.rfind].
  destruct (Str.rfind c s) as [i|].
  - intros [= <-]. apply IH. reflexivity.
  - destruct (Ascii.eqb_spec a c) as [->|_]; [|discriminate].
    intros [= <-]. exists s. reflexivity.
Qed.

(** An extension starts with its dot. *)
Lemma splitext_dot p :
  snd (Str.splitext p) = "" \/ exists r, snd (Str.splitext p) = String "." r.
Proof.
  unfold Str.splitext.
  set (i := match Str.rfind "/" p with Some i => S i | None => 0%nat end).
  destruct (Str.rfind "." (Str.drop i p)) as [d|] eqn:Hd; [|left; reflexivity].
  destruct (Str.all_chars (Ascii.eqb ".") (Str.take d (Str.drop i p)));
    [left; reflexivity|].
  right. cbn [snd]. rewrite drop_add. apply (rfind_drop _ _ _ Hd).
Qed.

Section Constructor.
Context `{PyRuntime} `{Host}.

Ltac calm :=
  repeat first
    [ apply same_files_check_input_files
    | lazymatch goal with
      | |- inv _ (assign_props _) => intros ? ? HI; exact HI
      | |- inv _ (assign _ _) => intros ? ? HI; exact HI
      | |- inv _ (assign_file_type _) => intros ? ? HI; exact HI
      | |- inv _ (print _) => intros ? ? HI; exact HI
      end
    | inv_step ].

Lemma iterate_string t c :
  iterate (PStr (t +:+ String c ""))
  = map PStr (map (fun a => String a "") (list_ascii_of_string t) ++ [String c ""]).
Proof.
  unfold iterate.
  assert (Hchars : list_ascii_of_string (t +:+ String c "")
                   = (list_ascii_of_string t ++ [c])%list).
  { induction t as [|a t IH]; [reflexivity|].
    change (a :: list_ascii_of_string (t +:+ String c "")
            = a :: (list_ascii_of_string t ++ [c])%list).
    rewrite IH. reflexivity. }
  rewrite Hchars, !map_app, map_map. reflexivity.
Qed.

(** The constructor on a string whose last character names no file:
    every run from the files of [w] raises. *)
Lemma init_string_fails t c kwargs w :
  Os.isfile (w_fs w) (String c "") = false ->
  fails (same_files w) (__init__ (PStr (t +:+ String c "")) kwargs).
Proof.
  intros Hc. unfold __init__.
  destruct (existsb _ kwargs); [apply fails_raise|].
  repeat lazymatch goal with
         | |- fails _ (bind (check_input_files _ _) _) => fail
         | |- fails _ (bind _ _) => apply fails_bind_inv; [solve [calm]|intros]
         end.
  apply hoare_bind with (R := fun a _ _ => a = Some true).
  - intros self1 w1 [Hfs _]. rewrite iterate_string.
    destruct (Inputs.check_input_files_last
                (map (fun a => String a "") (list_ascii_of_string t))
                (String c "") None self1 w1) as [out ->].
    rewrite Hfs, Hc. reflexivity.
  - intros ? ? ? ->. exact I.
Qed.

(** X3. A string, say a glob pattern, is looked at one character at a
    time by the loop of lines 80-84: when its last character is not the
    name of a file, the constructor raises. *)
Theorem string_input_last_character t c kwargs w :
  Os.isfile (w_fs w) (String c "") = false ->
  exists w' e, new (PStr (t +:+ String c "")) kwargs w = (w', inl e).
Proof.
  intros Hc.
  pose proof (init_string_fails t c kwargs w Hc
                (mkEncoder (_local_prop (InSeq [])) None) w (conj eq_refl eq_refl))
    as Hfails.
  unfold new.
  destruct (__init__ _ kwargs (mkEncoder (_local_prop (InSeq [])) None) w)
    as [[self' w'] [e|[]]]; [|destruct Hfails].
  exists w', e. reflexivity.
Qed.

(** A keyword named as a parameter of [__init__] gives the parameter
    two values: the call raises before the body runs. *)
Lemma keyword_bound_twice key v input_files before after w :
  key = "self" \/ key = "input_files" ->
  new input_files (before ++ (key, v) :: after) w = (w, inl (Builtin TypeError)).
Proof.
  intros Hkey. unfold new, __init__.
  rewrite existsb_app. cbn [existsb fst].
  replace (String.eqb key "self" || String.eqb key "input_files") with true
    by (destruct Hkey as [-> | ->]; reflexivity).
  cbn [orb]. rewrite orb_true_r. reflexivity.
Qed.

(** X4. A keyword that is no key of [_local_prop] and is not [self],
    a misspelt option for one, is dropped without a word: the call does
    what it does without it.  (The keyword [self] collides with the
    first parameter of [__init__], and the call raises [TypeError].) *)
Theorem unknown_keyword_ignored key v input_files before after w :
  key <> "self" -> ~ In key option_names ->
  new input_files (before ++ (key, v) :: after) w = new input_files (before ++ after) w
  /\ movie input_files (before ++ (key, v) :: after) w
     = movie input_files (before ++ after) w.
Proof.
  intros Hself Hk.
  assert (Hnew : new input_files (before ++ (key, v) :: after) w
                 = new input_files (before ++ after) w).
  { unfold new, __init__.
    rewrite !existsb_app. cbn [existsb fst].
    replace (String.eqb key "self") with false
      by (symmetry; apply String.eqb_neq; exact Hself).
    replace (String.eqb key "input_files") with false
      by (symmetry; apply String.eqb_neq; intros ->; apply Hk; left; reflexivity).
    cbn [orb]. rewrite !fold_left_app. cbn [fold_left fst snd].
    rewrite (set_prop_unknown key v _ Hk). reflexivity. }
  split; [exact Hnew|]. unfold movie. rewrite Hnew. reflexivity.
Qed.

(** X5. The object made for a sequence whose first item is the path
    [f] has a file type of [_legal_file_types], the extension of [f]
    after its dot; so [netpbm_converters] has an entry for the extension. *)
Theorem constructed_file_type f rest input_files kwargs w w' me :
  input_files = PList (PStr f :: rest) \/ input_files = PTuple (PStr f :: rest) ->
  new input_files kwargs w = (w', inr me) ->
  In (file_type (_prop me)) _legal_file_types
  /\ snd (Str.splitext f) = "." +:+ file_type (_prop me)
  /\ exists filters,
       getitem (snd (Str.splitext f)) netpbm_converters = inr filters.
Proof.
  intros Hinput Hnew. unfold new in Hnew.
  destruct (__init__ input_files kwargs (mkEncoder (_local_prop (InSeq [])) None) w)
    as [[self' w1] [e|[]]] eqn:Hinit; [discriminate Hnew|].
  injection Hnew as <- <-. unfold __init__ in Hinit.
  destruct (existsb _ kwargs); [discriminate Hinit|].
  do 3 (apply bind_inr_inv in Hinit as (? & ? & ? & _ & Hinit)).
  apply bind_inr_inv in Hinit as (file_ & ? & ? & Hfile & Hinit).
  assert (Hf : file_ = PStr f).
  { destruct Hinput as [-> | ->]; injection Hfile as _ _ Hv; symmetry; exact Hv. }
  subst file_.
  do 2 (apply bind_inr_inv in Hinit as (? & ? & ? & _ & Hinit)).
  match type of Hinit with
  | match ?flag with _ => _ end _ _ = _ => destruct flag as [[|]|]; try discriminate Hinit
  end.
  destruct (splitext_dot f) as [Hext | [r Hext]]; rewrite Hext in Hinit;
    [discriminate Hinit|].
  cbn [String.eqb Str.drop] in Hinit.
  destruct (existsb (String.eqb r) _legal_file_types) eqn:Hlegal;
    [|discriminate Hinit].
  injection Hinit as <- _. cbn [_prop set_file_type file_type].
  assert (Hin : In r _legal_file_types).
  { apply existsb_exists in Hlegal as (t & Ht & Heq).
    apply String.eqb_eq in Heq. subst t. exact Ht. }
  split; [exact Hin|]. split; [exact Hext|].
  rewrite Hext. cbn in Hin.
  repeat destruct Hin as [<- | Hin]; try (eexists; reflexivity). destruct Hin.
Qed.

End Constructor.

(** The pattern tmp*.png among the files tmp1.png and tmp2.png: no
    file is named g. *)
Lemma string_input_last_character_witness :
  let host := Sample.host ["convert"] (fun _ => 0) in
  let w := Sample.world ["tmp1.png"; "tmp2.png"] in
  Os.isfile (w_fs w) "g" = false
  /\ exists w' e, @new Sample.runtime host (PStr "tmp*.png") [] w = (w', inl e).
Proof.
  intros host w. split; [reflexivity|].
  exact (@string_input_last_character Sample.runtime host "tmp*.pn" "g" [] w eq_refl).
Defined.

(** The frame rate given as fsp. *)
Lemma unknown_keyword_ignored_witness :
  let host := Sample.host ["convert"] (fun _ => 0) in
  let w := Sample.world ["a.png"] in
  @movie Sample.runtime host (PList [PStr "a.png"])
         ([("quiet", PBool true)] ++ ("fsp", PInt 10) :: []) w
  = @movie Sample.runtime host (PList [PStr "a.png"]) ([("quiet", PBool true)] ++ []) w.
Proof.
  intros host w.
  apply (@unknown_keyword_ignored Sample.runtime host "fsp" (PInt 10));
    [discriminate|].
  cbn. intros Hin.
  repeat (destruct Hin as [Hin | Hin]; [discriminate Hin|]). exact Hin.
Defined.

Lemma constructed_file_type_witness :
  let host := Sample.host ["convert"] (fun _ => 0) in
  let w := Sample.world ["dir/a.0.eps"; "b.eps"] in
  exists w' me,
    @new Sample.runtime host (PTuple [PStr "dir/a.0.eps"; PStr "b.eps"]) [] w
    = (w', inr me)
    /\ file_type (_prop me) = "eps"
    /\ In (file_type (_prop me)) _legal_file_types.
Proof.
  intros host w.
  destruct (@new Sample.runtime host (PTuple [PStr "dir/a.0.eps"; PStr "b.eps"]) [] w)
    as [w' [e|me]] eqn:Hnew; [vm_compute in Hnew; discriminate Hnew|].
  exists w', me. split; [reflexivity|].
  destruct (@constructed_file_type Sample.runtime host "dir/a.0.eps" [PStr "b.eps"]
              _ [] w w' me (or_intror eq_refl) Hnew) as (Hin & Hext & _).
  split; [|exact Hin].
  vm_compute in Hext. injection Hext as Hext. symmetry. exact Hext.
Defined.

End Constructor.

(** * The aspect ratio *)

Module Aspect.
Import Movie Logic.

Lemma find_absent c s : Str.contains c s = false -> Str.find c s = None.
Proof.
  induction s as [|a s IH]; [reflexivity|]. cbn [Str.contains Str.find].
  intros Hs. apply orb_false_iff in Hs as [Ha Hs]. rewrite Ha, (IH Hs). reflexivity.
Qed.

Lemma find_separator c a s t :
  Str.contains c (String a s) = false ->
  exists n, Str.find c (String a s +:+ String c t) = Some (S n).
Proof.
  cbn [Str.contains]. intros Hs. apply orb_false_iff in Hs as [Ha Hs].
  change (String a s +:+ String c t) with (String a (s +:+ String c t)).
  cbn [Str.find]. rewrite Ha.
  assert (Hfound : exists n, Str.find c (s +:+ String c t) = Some n).
  { clear Ha. induction s as [|b s IH].
    - exists 0%nat. change ("" +:+ String c t) with (String c t).
      cbn [Str.find]. rewrite Ascii.eqb_refl. reflexivity.
    - cbn [Str.contains] in Hs. apply orb_false_iff in Hs as [Hb Hs].
      destruct (IH Hs) as [n Hn].
      change (String b s +:+ String c t) with (String b (s +:+ String c t)).
      cbn [Str.find]. rewrite Hb, Hn. eexists. reflexivity. }
  destruct Hfound as [n ->]. exists n. reflexivity.
Qed.

Section Aspect.
Context `{PyRuntime} `{Host}.

(** X6. A string without a colon and without a slash, the decimal
    1.3333 of the comment of line 664 for one, is no aspect ratio to
    [_get_aspect_ratio]: it returns [None]. *)
Theorem aspect_without_separator s self w :
  aspect (_prop self) = PStr s ->
  Str.contains ":" s = false ->
  Str.contains "/" s = false ->
  _get_aspect_ratio self w = (self, w, inr PNone).
Proof.
  intros Hprop Hcolon Hslash.
  unfold _get_aspect_ratio, bind, prop, ret. rewrite Hprop.
  unfold get_aspect_ratio.
  rewrite (find_absent _ _ Hcolon), (find_absent _ _ Hslash).
  rewrite (SizeOption.split_on_absent _ _ Hslash). reflexivity.
Qed.

(** X7. Of a string [a:b], or [a/b] without a colon, where [a] is not
    empty, [_get_aspect_ratio] returns the quotient of [float(a)] and
    [float(b)], and [None] when [float(b)] is zero. *)
Theorem aspect_of_quotient sep a b x y self w :
  sep = ":"%char
  \/ (sep = "/"%char /\ Str.contains ":" a = false /\ Str.contains ":" b = false) ->
  a <> "" ->
  Str.contains sep a = false ->
  Str.contains sep b = false ->
  float_of_str a = Some x ->
  float_of_str b = Some y ->
  aspect (_prop self) = PStr (a +:+ String sep b) ->
  _get_aspect_ratio self w
  = (self, w,
     inr (if PrimFloat.eqb y 0%float then PNone else PFloat (PrimFloat.div x y))).
Proof.
  intros Hsep Ha Hsa Hsb Hx Hy Hprop.
  unfold _get_aspect_ratio, bind, prop, ret. rewrite Hprop.
  unfold get_aspect_ratio.
  destruct a as [|c a]; [contradiction|].
  destruct Hsep as [-> | (-> & Hca & Hcb)].
  - destruct (find_separator _ _ _ b Hsa) as [n ->].
    rewrite (SizeOption.split_on_once _ _ _ Hsa Hsb), Hx, Hy. reflexivity.
  - rewrite find_absent.
    2:{ rewrite Text.contains_append, Hca. cbn [Str.contains orb].
        change (Ascii.eqb "/" ":") with false. exact Hcb. }
    destruct (find_separator _ _ _ b Hsa) as [n ->].
    rewrite (SizeOption.split_on_once _ _ _ Hsa Hsb), Hx, Hy. reflexivity.
Qed.

(** X8. Under the names mpeg_encode and ppmtompeg, with a legal frame
    rate, an [aspect] that is set and is not one of the numbers of
    [legal_aspects] makes the builder raise, and [encode] with it; the
    object and the world are as before. No string is one of these
    numbers: the forms 4:3 and 4/3 are refused. *)
Theorem mpeg_encode_aspect enc self w :
  enc = "mpeg_encode" \/ enc = "ppmtompeg" ->
  py_in (fps (_prop self)) legal_frame_rates = true ->
  is_none (aspect (_prop self)) = false ->
  py_in (aspect (_prop self)) legal_aspects = false ->
  builder enc self w = (self, w, inl UnsupportedAspectRatio)
  /\ (encoder (_prop self) = PStr enc ->
      encode self w = (self, w, inl UnsupportedAspectRatio))
  /\ forall s, py_in (PStr s) legal_aspects = false.
Proof.
  intros Henc Hfps Hset Haspect.
  assert (Hb : builder enc self w = (self, w, inl UnsupportedAspectRatio)).
  { destruct Henc as [-> | ->]; cbn [builder String.eqb Ascii.eqb Bool.eqb];
      unfold _ppmtompeg, _mpeg_encode, bind, prop, ret;
      rewrite Hfps, Hset, Haspect; reflexivity. }
  split; [exact Hb|]. split; [|intros s; reflexivity].
  intros Hprop. unfold encode, bind at 1, prop at 1. rewrite Hprop.
  replace (existsb (String.eqb enc) _legal_encoders) with true
    by (destruct Henc as [-> | ->]; reflexivity).
  cbn [negb]. unfold bind at 1. rewrite Hb. reflexivity.
Qed.

End Aspect.

(** A runtime that reads the numerals 4, 3 and 0. *)
Definition runtime : PyRuntime := {|
  float_str := @float_str Sample.runtime;
  float_fmt_g := @float_fmt_g Sample.runtime;
  seq_str := @seq_str Sample.runtime;
  float_of_str := fun s =>
    if String.eqb s "4" then Some 4%float
    else if String.eqb s "3" then Some 3%float
    else if String.eqb s "0" then Some 0%float
    else None;
  int_of_str := @int_of_str Sample.runtime;
  str_mod := @str_mod Sample.runtime;
|}.

Definition with_aspect (v : pyval) : MovieEncoder :=
  mkEncoder (set_prop "aspect" v (_local_prop (InSeq ["a.png"]))) None.

Lemma aspect_without_separator_witness :
  let w := Sample.world [] in
  @_get_aspect_ratio Sample.runtime (with_aspect (PStr "1.3333")) w
  = (with_aspect (PStr "1.3333"), w, inr PNone).
Proof.
  intros w. apply (aspect_without_separator "1.3333"); reflexivity.
Defined.

Lemma aspect_of_quotient_witness :
  let w := Sample.world [] in
  @_get_aspect_ratio runtime (with_aspect (PStr "4:3")) w
  = (with_aspect (PStr "4:3"), w, inr (PFloat (PrimFloat.div 4 3)))
  /\ @_get_aspect_ratio runtime (with_aspect (PStr "4/0")) w
     = (with_aspect (PStr "4/0"), w, inr PNone).
Proof.
  intros w. split.
  - apply (aspect_of_quotient ":" "4" "3" 4%float 3%float);
      try reflexivity; [left; reflexivity|discriminate].
  - apply (aspect_of_quotient "/" "4" "0" 4%float 0%float);
      try reflexivity; [right; repeat split; reflexivity|discriminate].
Defined.

Lemma mpeg_encode_aspect_witness :
  let host := Sample.host ["mpeg_encode"] (fun _ => 0) in
  let w := Sample.world ["a.pnm"] in
  @builder Sample.runtime host "mpeg_encode" (with_aspect (PStr "4:3")) w
  = (with_aspect (PStr "4:3"), w, inl UnsupportedAspectRatio).
Proof.
  intros host w.
  apply (@mpeg_encode_aspect Sample.runtime host "mpeg_encode");
    [left; reflexivity|reflexivity|reflexivity|reflexivity].
Defined.

End Aspect.

(** * mpeg2enc *)

Module Mpeg2enc.
Import Movie Logic.

(** The frame rate is [v]. *)
Definition frame_rate (v : pyval) : MovieEncoder -> World -> Prop :=
  fun self _ => fps (_prop self) = v.

Section Mpeg2enc.
Context `{PyRuntime} `{Host}.

Lemma frame_rate_stable v : Stable (frame_rate v).
Proof. split; intros; assumption. Qed.

Lemma frame_rate_default v d : inv (frame_rate v) (default_output_file d).
Proof.
  intros self w Hv. unfold default_output_file, bind, prop.
  destruct (is_none (output_file (_prop self))); exact Hv.
Qed.

(** X9. Line 551 looks [str(fps)] up among the eight keys of
    [legal_fps]: with any other frame rate, 25.0 as a float too, the
    builder of mpeg2enc returns no command but raises. *)
Theorem mpeg2enc_frame_rate self w :
  assoc (Fmt.py_str (fps (_prop self))) legal_fps = None ->
  exists self' w' e, builder "mpeg2enc" self w = (self', w', inl e).
Proof.
  intros Hfps.
  pose proof (frame_rate_stable (fps (_prop self))) as Hstable.
  pose proof (inv_set_output_file _ _ (frame_rate_default (fps (_prop self)) "movie.mpeg"))
    as Hout.
  assert (Hfails : fails (frame_rate (fps (_prop self))) _mpeg2enc).
  { unfold _mpeg2enc.
    repeat lazymatch goal with
           | |- fails _ (bind (prop fps) _) =>
               apply hoare_bind
                 with (R := fun a self' _ => a = fps (_prop self));
               [intros ? ? HI; exact HI
               |intros ? ? ? ->; unfold bind at 1; rewrite Hfps; exact I]
           | |- fails _ (bind _ _) => apply fails_bind_inv; [solve [inv_auto]|intros]
           | |- fails _ (if ?b then _ else _) => destruct b
           | |- fails _ (match ?x with _ => _ end) => destruct x
           end. }
  specialize (Hfails self w eq_refl).
  change (builder "mpeg2enc") with _mpeg2enc.
  destruct (_mpeg2enc self w) as [[self' w'] [e|cmd]]; [|destruct Hfails].
  exists self', w', e. reflexivity.
Qed.

(** X10. The loop of lines 511-514, started at [i] for [n] rounds on
    names that [files % j] can make: it returns the least index of the
    range whose name is a file, and [None] when the range has none. *)
Theorem start_image_least files n : forall i self w,
  (forall j, i <= j < i + Z.of_nat n -> exists name, str_mod files j = inr name) ->
  exists start,
    start_image files n i self w = (self, w, inr start)
    /\ match start with
       | Some k =>
           i <= k < i + Z.of_nat n
           /\ (exists name, str_mod files k = inr name
                            /\ Os.isfile (w_fs w) name = true)
           /\ forall j name,
                i <= j < k -> str_mod files j = inr name ->
                Os.isfile (w_fs w) name = false
       | None =>
           forall j name,
             i <= j < i + Z.of_nat n -> str_mod files j = inr name ->
             Os.isfile (w_fs w) name = false
       end.
Proof.
  induction n as [|n IH]; intros i self w Hnames.
  - exists None. split; [reflexivity|]. intros j name Hj. lia.
  - destruct (Hnames i ltac:(lia)) as [name Hname].
    cbn [start_image]. unfold bind at 1, lift at 1. rewrite Hname.
    unfold ret at 1, bind at 1, on_fs at 1.
    destruct (Os.isfile (w_fs w) name) eqn:Hfile.
    + exists (Some i). split; [reflexivity|].
      split; [lia|]. split; [exists name; split; assumption|].
      intros j name' Hj. lia.
    + destruct (IH (i + 1) self w) as (start & Hrun & Hstart).
      { intros j Hj. apply Hnames. lia. }
      exists start. split; [exact Hrun|].
      destruct start as [k|].
      * destruct Hstart as (Hk & Hfound & Hleast).
        split; [lia|]. split; [exact Hfound|].
        intros j name' Hj Hname'.
        destruct (Z.eq_dec j i) as [-> | Hne].
        -- rewrite Hname in Hname'. injection Hname' as <-. exact Hfile.
        -- apply (Hleast j); [lia|exact Hname'].
      * intros j name' Hj Hname'.
        destruct (Z.eq_dec j i) as [-> | Hne].
        -- rewrite Hname in Hname'. injection Hname' as <-. exact Hfile.
        -- apply (Hstart j); [lia|exact Hname'].
Qed.

End Mpeg2enc.

(** Twenty-six frames a second. *)
Lemma mpeg2enc_frame_rate_witness :
  let host := Sample.host ["mpeg2enc"; "png2yuv"; "convert"] (fun _ => 0) in
  let w := Sample.world ["a.png"] in
  let self :=
    mkEncoder (set_prop "fps" (PInt 26)
                 (set_prop "quiet" (PBool true)
                    (set_prop "encoder" (PStr "mpeg2enc")
                       (set_file_type "png" (_local_prop (InSeq ["a.png"])))))) None in
  (exists self' w' e,
     @builder Sample.runtime host "mpeg2enc" self w = (self', w', inl e))
  /\ exists self' w',
       @builder Sample.runtime host "mpeg2enc" self w
       = (self', w', inl (Builtin NameError)).
Proof.
  intros host w self. split.
  - apply (@mpeg2enc_frame_rate Sample.runtime host self w). reflexivity.
  - do 2 eexists. vm_compute. reflexivity.
Defined.

(** Of easyviz_tmp_0, ..., easyviz_tmp_9 only the files 3 and 5
    exist. *)
Lemma start_image_least_witness :
  let w := Sample.world ["easyviz_tmp_5"; "easyviz_tmp_3"] in
  exists start,
    @start_image Sample.runtime "easyviz_tmp_" 10 0 Sample.blank w
    = (Sample.blank, w, inr start)
    /\ start = Some 3.
Proof.
  intros w.
  destruct (@start_image_least Sample.runtime "easyviz_tmp_" 10 0 Sample.blank w)
    as (start & Hrun & Hstart).
  - intros j _. eexists. reflexivity.
  - exists start. split; [exact Hrun|].
    vm_compute in Hrun. injection Hrun as <-. reflexivity.
Defined.

End Mpeg2enc.

(** * File patterns in the builders *)

Module Patterns.
Import Movie Logic Text.

Lemma take_digits_digits r : Str.all_chars Str.is_digit (Printf.take_digits r) = true.
Proof.
  induction r as [|a r IH]; [reflexivity|]. cbn [Printf.take_digits].
  destruct (Str.is_digit a) eqn:Ha; [|reflexivity].
  cbn [Str.all_chars]. rewrite Ha. exact IH.
Qed.

Lemma take_digits_drop r :
  Printf.take_digits r +:+ Str.drop (String.length (Printf.take_digits r)) r = r.
Proof.
  induction r as [|a r IH]; [reflexivity|]. cbn [Printf.take_digits].
  destruct (Str.is_digit a); [|reflexivity].
  cbn [String.length Str.drop]. rewrite append_String, IH. reflexivity.
Qed.

(** What the three groups of a match are. *)
Definition groups_of (ln pre ds ext : string) : Prop :=
  ln = pre +:+ "%" +:+ ds +:+ "d" +:+ ext
  /\ ds <> ""
  /\ Str.all_chars Str.is_digit ds = true
  /\ Str.contains "." ext = true.

Lemma placeholder_at_groups r ds ext :
  Printf.placeholder_at r = Some (ds, ext) -> groups_of r "" ds ext.
Proof.
  unfold Printf.placeholder_at. destruct r as [|a r1]; [discriminate|].
  destruct (Ascii.eqb_spec a "%") as [->|_]; [|discriminate].
  pose proof (take_digits_digits r1) as Hdigits.
  pose proof (take_digits_drop r1) as Hsplit.
  destruct (Printf.take_digits r1) as [|d0 ds0]; [discriminate|].
  destruct (Str.drop (String.length (String d0 ds0)) r1) as [|b r3]; [discriminate|].
  destruct (Ascii.eqb_spec b "d") as [->|_]; [|discriminate].
  destruct (Str.contains "." r3) eqn:Hdot; [|discriminate].
  intros [= <- <-]. repeat split; [|discriminate|exact Hdigits|exact Hdot].
  rewrite <- Hsplit. reflexivity.
Qed.

Lemma search_line_groups ln : forall pre ds ext,
  Printf.search_line ln = Some (pre, ds, ext) -> groups_of ln pre ds ext.
Proof.
  induction ln as [|c rest IH]; intros pre ds ext; [discriminate|].
  cbn [Printf.search_line].
  destruct (Printf.search_line rest) as [[[pre' ds'] ext']|].
  - intros [= <- <- <-]. destruct (IH _ _ _ eq_refl) as (Hln & Hrest).
    split; [|exact Hrest]. rewrite Hln. reflexivity.
  - destruct (Printf.placeholder_at (String c rest)) as [[ds' ext']|] eqn:Hp;
      [|discriminate].
    intros [= <- <- <-]. apply placeholder_at_groups, Hp.
Qed.

(** X11. What the search of lines 140, 177, 262, 350 and 478 finds in
    a file specification reads, put together again with the percent
    sign and the letter d, as one of its lines; the second group is a
    numeral and the third holds a dot. *)
Theorem re_search_groups s pre ds ext :
  Printf.re_search s = Some (pre, ds, ext) ->
  In (pre +:+ "%" +:+ ds +:+ "d" +:+ ext) (Str.split_on Str.newline s)
  /\ ds <> ""
  /\ Str.all_chars Str.is_digit ds = true
  /\ Str.contains "." ext = true.
Proof.
  unfold Printf.re_search.
  induction (Str.split_on Str.newline s) as [|ln lns IH]; [discriminate|].
  destruct (Printf.search_line ln) as [g|] eqn:Hln.
  - intros [= ->]. destruct (search_line_groups _ _ _ _ Hln) as (-> & Hrest).
    split; [left; reflexivity|exact Hrest].
  - intros Hfound. destruct (IH Hfound) as (Hin & Hrest).
    split; [right; exact Hin|exact Hrest].
Qed.

Section Patterns.
Context `{PyRuntime} `{Host}.

(** X12. The names [expand_pattern] returns for a file specification
    are those [glob] finds for it, the placeholder rewritten, in
    ascending byte order; the object and the world stay as they are. *)
Theorem expand_pattern_sorted s self w self' w' files :
  expand_pattern s self w = (self', w', inr files) ->
  self' = self /\ w' = w
  /\ Sorted le files
  /\ exists found,
       Glob.glob (w_fs w)
                 (match Printf.re_search s with
                  | Some g => Printf.digit_glob g
                  | None => s
                  end) = inr found
       /\ Permutation files found.
Proof.
  unfold expand_pattern, bind, on_fs, ret.
  destruct (Glob.glob (w_fs w) _) as [e|found]; [discriminate|].
  intros [= <- <- <-]. repeat split; [apply sort_sorted|].
  exists found. split; [reflexivity|apply sort_perm].
Qed.

(** X13. A file specification without placeholder that [glob] finds
    nothing for, with lists passing [_check_type]: [_mencoder] raises the
    error of line 187, while [_ffmpeg] and [_mpeg2enc] hand the empty list
    to [_any2any], whose [files[0]] is an [IndexError]. None of them has
    touched the object or the world. *)
Theorem no_match_errors s self w :
  input_files (_prop self) = InStr s ->
  Printf.re_search s = None ->
  Glob.glob (w_fs w) s = inr [] ->
  _check_type [] "files" = None ->
  _mencoder self w = (self, w, inl InvalidFileSpec)
  /\ _ffmpeg self w = (self, w, inl (Builtin IndexError))
  /\ _mpeg2enc self w = (self, w, inl (Builtin IndexError)).
Proof.
  intros Hin Hre Hglob Hcheck.
  assert (Hinput : printf_input self w = (self, w, inl (Builtin IndexError))).
  { unfold printf_input, bind, prop, on_fs, ret. rewrite Hin, Hre, Hglob.
    cbn [Sort.sort fold_right]. unfold _any2any, any2any_app, bind.
    rewrite Hcheck. reflexivity. }
  split; [|split].
  - unfold _mencoder, bind, prop. rewrite Hin.
    unfold expand_pattern, bind, on_fs, ret. rewrite Hre, Hglob. reflexivity.
  - unfold _ffmpeg, bind at 1, prop at 1, bind at 1. rewrite Hinput. reflexivity.
  - unfold _mpeg2enc, bind at 1, prop at 1, bind at 1. rewrite Hinput. reflexivity.
Qed.

End Patterns.

Lemma re_search_groups_witness :
  In ("a%1d_b" +:+ "%" +:+ "03" +:+ "d" +:+ ".x.png")
     (Str.split_on Str.newline "a%1d_b%03d.x.png")
  /\ "03" <> ""
  /\ Str.all_chars Str.is_digit "03" = true
  /\ Str.contains "." ".x.png" = true.
Proof. exact (re_search_groups "a%1d_b%03d.x.png" "a%1d_b" "03" ".x.png" eq_refl). Defined.

Lemma expand_pattern_sorted_witness :
  let host := Sample.host [] (fun _ => 0) in
  let w := Sample.world ["tmp2.png"; "tmp10.png"; "tmp1.png"; "other.gif"] in
  exists files,
    @expand_pattern host "tmp*.png" Sample.blank w = (Sample.blank, w, inr files)
    /\ Sorted le files
    /\ files = ["tmp1.png"; "tmp10.png"; "tmp2.png"].
Proof.
  intros host w.
  destruct (@expand_pattern host "tmp*.png" Sample.blank w)
    as [[self' w'] [e|files]] eqn:Hrun; [vm_compute in Hrun; discriminate Hrun|].
  destruct (@expand_pattern_sorted host "tmp*.png" Sample.blank w self' w' files Hrun)
    as (-> & -> & Hsorted & _).
  exists files. split; [reflexivity|]. split; [exact Hsorted|].
  vm_compute in Hrun. injection Hrun as <-. reflexivity.
Defined.

Lemma no_match_errors_witness :
  let host := Sample.host ["ffmpeg"] (fun _ => 0) in
  let w := Sample.world ["a.png"] in
  let self := mkEncoder (_local_prop (InStr "tmp*.png")) None in
  @_mencoder Sample.runtime host self w = (self, w, inl InvalidFileSpec)
  /\ @_ffmpeg Sample.runtime host self w = (self, w, inl (Builtin IndexError))
  /\ @_mpeg2enc Sample.runtime host self w = (self, w, inl (Builtin IndexError)).
Proof.
  intros host w self.
  apply (@no_match_errors Sample.runtime host "tmp*.png" self w); reflexivity.
Defined.

End Patterns.

(** * Temporary files *)

Module Registration.
Import Movie Logic Config ParameterFile Cleanup.

Section Registration.
Context `{PyRuntime} `{Host}.

Lemma inv_conj {A} (I1 I2 : MovieEncoder -> World -> Prop) (c : M A) :
  inv I1 c -> inv I2 c -> inv (fun self w => I1 self w /\ I2 self w) c.
Proof.
  intros H1 H2 self w [HI1 HI2]. specialize (H1 self w HI1). specialize (H2 self w HI2).
  destruct (c self w) as [[self' w'] r]. split; assumption.
Qed.

Lemma hoare_bind_keep {A B} Inv (c : M A) (k : A -> M B) Q :
  (forall e self w, Q (inl e) self w) ->
  inv Inv c -> (forall a, hoare Inv (k a) Q) -> hoare Inv (bind c k) Q.
Proof.
  intros raising Hc Hk. apply hoare_bind with (R := fun _ => Inv); [|exact Hk].
  intros self w HI. specialize (Hc self w HI).
  destruct (c self w) as [[self' w'] [e|a]]; [apply raising|exact Hc].
Qed.

Lemma written_any self fs s out spawned :
  written "" self (mkWorld (Os.write fs mpeg_encode_file s) out spawned).
Proof.
  unfold written, Os.write. cbn [w_fs].
  destruct (fs !! mpeg_encode_file) as [[c|n]|]; rewrite lookup_insert_eq;
    eexists "", _; reflexivity.
Qed.

(** What [_mpeg_encode] has done when it returns [cmd]: the parameter
    file is there and is the temporary file registered last, and [cmd]
    names it after the encoder. *)
Definition handed_over (p0 : Props) (r : result string) : MovieEncoder -> World -> Prop :=
  fun self w =>
    match r with
    | inr cmd =>
        (exists l, _tmp_files self = Some (l ++ [mpeg_encode_file])%list)
        /\ Os.isfile (w_fs w) mpeg_encode_file = true
        /\ exists enc,
             encoder p0 = PStr enc
             /\ cmd = enc +:+ (if truthy (quiet p0) then " -realquiet" else "")
                          +:+ " " +:+ mpeg_encode_file
    | inl _ => True
    end.

Lemma mpeg_encode_hands_over p0 :
  hoare (keeps_props "movie.mpeg" p0) _mpeg_encode (handed_over p0).
Proof.
  set (Q := handed_over p0).
  assert (raising : forall e self w, Q (inl e) self w) by (intros; exact I).
  pose proof (keeps_props_stable "movie.mpeg" p0) as Hstable.
  pose proof (keeps_props_default "movie.mpeg" p0) as Hdefault.
  pose proof (keeps_props_update_fs "movie.mpeg" p0) as Hfs.
  pose proof (inv_set_output_file _ _ Hdefault) as Hset.
  unfold _mpeg_encode.
  repeat to_file_step p0 Q raising.
  all: apply hoare_bind
         with (R := fun _ self w => keeps_props "movie.mpeg" p0 self w /\ written "" self w).
  all: try (intros s0 w0 Hp; unfold update_fs; cbv beta iota;
            split; [exact Hp|apply written_any]).
  all: intros ?.
  all: repeat lazymatch goal with
              | |- hoare _ (bind tmp_files _) _ => fail
              | |- hoare _ (bind _ _) _ =>
                  apply hoare_bind_keep;
                  [exact raising
                  |apply inv_conj;
                   [solve [inv_auto]
                   |solve [repeat first [apply written_write | inv_step]]]
                  |intros]
              end.
  all: unfold hoare; intros s0 w0 [Hp (before & after & Hlook)];
    unfold bind, tmp_files, assign_tmp_files, prop, lift; cbn [_prop];
    assert (Hquiet : quiet (_prop s0) = quiet p0)
      by (destruct Hp as [-> | [_ ->]]; reflexivity);
    rewrite Hquiet;
    destruct (encoder p0) as [| | | |enc| |] eqn:Henc; cbn [plus_str]; try exact I;
    (split; [eexists; reflexivity|]);
    (split; [unfold Os.isfile; rewrite Hlook; reflexivity|]);
    exists enc; split; [exact Henc|reflexivity].
Qed.

(** X14. When the builder of mpeg_encode or ppmtompeg returns its
    command, the parameter file easyviz_tmp_.mpeg_encode-input is a file,
    it is the temporary file registered last, and the command is the
    encoder, -realquiet in quiet mode, and the name of that file. *)
Theorem mpeg_encode_registers enc self w self' w' cmd :
  enc = "mpeg_encode" \/ enc = "ppmtompeg" ->
  builder enc self w = (self', w', inr cmd) ->
  (exists l, _tmp_files self' = Some (l ++ [mpeg_encode_file])%list)
  /\ Os.isfile (w_fs w') mpeg_encode_file = true
  /\ exists e,
       encoder (_prop self) = PStr e
       /\ cmd = e +:+ (if truthy (quiet (_prop self)) then " -realquiet" else "")
                  +:+ " " +:+ mpeg_encode_file.
Proof.
  intros Henc Hrun.
  assert (Hbuilder : builder enc = _mpeg_encode)
    by (destruct Henc as [-> | ->]; reflexivity).
  rewrite Hbuilder in Hrun.
  pose proof (mpeg_encode_hands_over (_prop self) self w (or_introl eq_refl)) as Hq.
  rewrite Hrun in Hq. exact Hq.
Qed.

(** X15. With [cleanup] false, once the builder has returned [cmd],
    [encode] runs it and returns, however it exits: the files are those
    the command leaves, the temporary ones among them. *)
Theorem encode_without_cleanup enc self w self1 w1 cmd :
  In enc _legal_encoders ->
  encoder (_prop self) = PStr enc ->
  truthy (cleanup (_prop self)) = false ->
  builder enc self w = (self1, w1, inr cmd) ->
  let w2 := announced (quiet (_prop self)) cmd w1 in
  exists w3,
    encode self w = (self1, w3, inr tt)
    /\ w_fs w3 = snd (os_system cmd w2)
    /\ w_spawned w3 = (w_spawned w1 ++ [(cmd, fst (os_system cmd w2))])%list.
Proof.
  intros Hlegal Henc Hcleanup Hb w2.
  pose proof (builder_keeps_props enc (_prop self) self w (or_introl eq_refl)) as Hprops.
  rewrite Hb in Hprops.
  assert (Hquiet : quiet (_prop self1) = quiet (_prop self))
    by (destruct Hprops as [-> | [_ ->]]; reflexivity).
  assert (Hclean : cleanup (_prop self1) = cleanup (_prop self))
    by (destruct Hprops as [-> | [_ ->]]; reflexivity).
  assert (Hspawned : w_spawned w2 = w_spawned w1)
    by (unfold w2, announced; destruct (truthy (quiet (_prop self))); reflexivity).
  unfold encode.
  rewrite (bind_returns _ _ self w self w (PStr enc))
    by (unfold prop; rewrite Henc; reflexivity).
  apply Selection.legal_encoder_In in Hlegal. rewrite Hlegal. cbn [negb].
  rewrite (bind_returns _ _ _ _ _ _ _ Hb).
  rewrite (bind_returns _ _ self1 w1 self1 w1 (quiet (_prop self)))
    by (unfold prop; rewrite Hquiet; reflexivity).
  rewrite (bind_returns _ _ self1 w1 self1 w2 tt)
    by (unfold w2, announced; destruct (truthy (quiet (_prop self))); reflexivity).
  destruct (os_system cmd w2) as [st fs] eqn:Hsys. cbn [fst snd].
  rewrite (bind_returns _ _ self1 w2 self1
             (mkWorld fs (w_stdout w2) (w_spawned w2 ++ [(cmd, st)])) st)
    by (unfold system; rewrite Hsys; reflexivity).
  assert (Hsaid : exists out,
            (if negb (st =? 0) then
               print (Str.nl +:+ Str.nl +:+ "could not make movie")
             else if negb (truthy (quiet (_prop self))) then
               bind (prop output_file) (fun out =>
                 print (Str.nl +:+ Str.nl +:+ "movie in output file" +:+ " "
                          +:+ Fmt.py_str out))
             else ret tt)
              self1 (mkWorld fs (w_stdout w2) (w_spawned w2 ++ [(cmd, st)]))
            = (self1, mkWorld fs out (w_spawned w2 ++ [(cmd, st)]), inr tt)).
  { destruct (negb (st =? 0)); [eexists; reflexivity|].
    destruct (negb (truthy (quiet (_prop self)))); eexists; reflexivity. }
  destruct Hsaid as [out Hsaid].
  rewrite (bind_returns _ _ _ _ _ _ _ Hsaid).
  unfold bind, prop, tmp_files. rewrite Hclean, Hcleanup.
  exists (mkWorld fs out (w_spawned w2 ++ [(cmd, st)])).
  split; [destruct (_tmp_files self1); reflexivity|].
  split; [reflexivity|]. cbn [w_spawned]. rewrite Hspawned. reflexivity.
Qed.

End Registration.

(** mpeg_encode on one pnm file. *)
Lemma mpeg_encode_registers_witness :
  let host := Sample.host ["mpeg_encode"] (fun _ => 0) in
  let w := Sample.world ["a.pnm"] in
  let self :=
    mkEncoder (set_prop "encoder" (PStr "mpeg_encode")
                 (set_file_type "pnm" (_local_prop (InSeq ["a.pnm"])))) None in
  exists self' w',
    @builder Sample.runtime host "mpeg_encode" self w
    = (self', w', inr "mpeg_encode easyviz_tmp_.mpeg_encode-input")
    /\ _tmp_files self' = Some ["easyviz_tmp_.mpeg_encode-input"]
    /\ Os.isfile (w_fs w') mpeg_encode_file = true.
Proof.
  intros host w self.
  destruct (@builder Sample.runtime host "mpeg_encode" self w)
    as [[self' w'] [e|cmd]] eqn:Hrun; [vm_compute in Hrun; discriminate Hrun|].
  destruct (@mpeg_encode_registers Sample.runtime host "mpeg_encode" self w self' w' cmd
              (or_introl eq_refl) Hrun) as (_ & Hfile & e & He & ->).
  injection He as <-.
  exists self', w'. split; [reflexivity|]. split; [|exact Hfile].
  vm_compute in Hrun. injection Hrun as <- _. reflexivity.
Defined.

(** ffmpeg on an eps file, with the converted file kept. *)
Lemma encode_without_cleanup_witness :
  let host := Sample.host ["ffmpeg"; "convert"] (fun _ => 1) in
  let w := Sample.world ["a.eps"] in
  let self :=
    mkEncoder (set_prop "cleanup" (PBool false)
                 (set_prop "quiet" (PBool true)
                    (set_prop "encoder" (PStr "ffmpeg")
                       (set_file_type "eps" (_local_prop (InSeq ["a.eps"])))))) None in
  exists self1 w3,
    @encode Sample.runtime host self w = (self1, w3, inr tt)
    /\ w_fs w3 = w_fs w.
Proof.
  intros host w self.
  destruct (@builder Sample.runtime host "ffmpeg" self w)
    as [[self1 w1] [e|cmd]] eqn:Hrun; [vm_compute in Hrun; discriminate Hrun|].
  destruct (@encode_without_cleanup Sample.runtime host "ffmpeg" self w self1 w1 cmd)
    as (w3 & Hencode & Hfs & _).
  - cbn. tauto.
  - reflexivity.
  - reflexivity.
  - exact Hrun.
  - exists self1, w3. split; [exact Hencode|]. rewrite Hfs. cbn [os_system host Sample.host snd].
    vm_compute in Hrun. injection Hrun as _ <- _. reflexivity.
Defined.

End Registration.

(** * The setup and the names of [_any2any] *)

Module ConverterNames.
Import Movie Logic Text Effects Converter.

Lemma append_cancel_l p s t : p +:+ s = p +:+ t -> s = t.
Proof.
  induction p as [|a p IH]; [exact (fun Heq => Heq)|].
  rewrite !append_String. intros [= Heq]. apply IH, Heq.
Qed.

Lemma append_cancel_r u : forall s t, s +:+ u = t +:+ u -> s = t.
Proof.
  intros s. induction s as [|a s IH]; intros [|b t] Heq.
  - reflexivity.
  - apply (f_equal String.length) in Heq.
    rewrite !length_append in Heq. cbn [String.length] in Heq. lia.
  - apply (f_equal String.length) in Heq.
    rewrite !length_append in Heq. cbn [String.length] in Heq. lia.
  - rewrite !append_String in Heq. injection Heq as -> Heq.
    rewrite (IH t Heq). reflexivity.
Qed.

(** [int('%04d' % k)] is [k]. *)
Lemma digits_value_fmt_0d k : 0 <= k -> Str.digits_value (Str.fmt_0d 4 k) = k.
Proof.
  intros Hk. unfold Str.fmt_0d.
  destruct (k <? 0) eqn:Hneg; [apply Z.ltb_lt in Hneg; lia|].
  rewrite digits_value_zpad by exact Hk. apply Z.mod_small.
  split; [exact Hk|].
  apply Z.lt_le_trans with (10 ^ Z.of_nat (Str.ndigits k));
    [apply ndigits_enough, Hk|].
  apply Z.pow_le_mono_r; lia.
Qed.

Lemma new_file_name_inj basename ofile_ext j k :
  0 <= j -> 0 <= k ->
  new_file_name basename j ofile_ext = new_file_name basename k ofile_ext -> j = k.
Proof.
  intros Hj Hk Heq. unfold new_file_name in Heq.
  apply append_cancel_l, append_cancel_r in Heq.
  rewrite <- (digits_value_fmt_0d j Hj), <- (digits_value_fmt_0d k Hk), Heq.
  reflexivity.
Qed.

Section Names.
Context `{PyRuntime} `{Host}.

Lemma any2any_loop_names app anytopnm pnmtoany quiet basename size ofile_ext files :
  forall i new_files self w self' w' l,
    any2any_loop app anytopnm pnmtoany quiet basename size ofile_ext
                 files i new_files self w = (self', w', inr l) ->
    exists m : nat,
      (m <= length files)%nat
      /\ l = (new_files ++ map (fun k => new_file_name basename k ofile_ext)
                               (seqZ i (Z.of_nat m)))%list.
Proof.
  induction files as [|file_ files IH]; intros i new_files self w self' w' l Hrun.
  - injection Hrun as _ _ <-. exists 0%nat. split; [lia|].
    cbn. rewrite app_nil_r. reflexivity.
  - cbn [any2any_loop] in Hrun.
    apply bind_inr_inv in Hrun as (cmd & ? & ? & _ & Hrun).
    apply bind_inr_inv in Hrun as (? & ? & ? & _ & Hrun).
    apply bind_inr_inv in Hrun as (failure & ? & ? & _ & Hrun).
    destruct (negb (failure =? 0)).
    + apply bind_inr_inv in Hrun as (? & ? & ? & _ & Hrun).
      destruct (IH _ _ _ _ _ _ _ Hrun) as (m & Hm & ->).
      exists m. split; [cbn [length]; lia|reflexivity].
    + apply bind_inr_inv in Hrun as (? & ? & ? & _ & Hrun).
      destruct (IH _ _ _ _ _ _ _ Hrun) as (m & Hm & ->).
      exists (S m). split; [cbn [length]; lia|].
      rewrite (seqZ_cons i) by lia.
      replace (Z.pred (Z.of_nat (S m))) with (Z.of_nat m) by lia.
      cbn [map]. rewrite <- app_assoc. reflexivity.
Qed.

(** X16. Whenever [_any2any] returns, the names it returns are
    [basename], the numbers 1, 2, ..., m written with [%04d], and
    [ofile_ext], for an m that is at most the number of files: no gap,
    and no name twice. *)
Theorem any2any_names files basename size ofile_ext self w self' w' new_files :
  _any2any files basename size ofile_ext self w = (self', w', inr new_files) ->
  exists m : nat,
    (m <= length files)%nat
    /\ new_files = map (fun k => basename +:+ Str.fmt_0d 4 k +:+ ofile_ext)
                       (seqZ 1 (Z.of_nat m))
    /\ NoDup new_files.
Proof.
  intros Hrun. unfold _any2any in Hrun.
  apply bind_inr_inv in Hrun as ([[prog anytopnm] pnmtoany] & ? & ? & _ & Hrun).
  apply bind_inr_inv in Hrun as (quiet & ? & ? & _ & Hrun).
  apply any2any_loop_names in Hrun as (m & Hm & ->).
  exists m. split; [exact Hm|]. split; [reflexivity|].
  cbn [List.app]. apply (NoDup_fmap_2_strong (fun k => new_file_name basename k ofile_ext)).
  - intros j k Hj Hk. apply elem_of_seqZ in Hj, Hk.
    apply new_file_name_inj; lia.
  - apply NoDup_seqZ.
Qed.

(** X17. Before it runs any command, [_any2any] raises on a list that
    is empty ([IndexError] of [files[0]]), on a first file or a target
    whose extension is no key of [netpbm_converters] ([KeyError]), and
    when neither convert nor the two Netpbm filters are installed; the
    object and the world are as before. *)
Theorem any2any_setup_errors files basename size ofile_ext self w :
  _check_type files "files" = None ->
  (files = [] ->
   _any2any files basename size ofile_ext self w = (self, w, inl (Builtin IndexError)))
  /\ (forall f rest,
        files = f :: rest ->
        assoc (snd (Str.splitext f)) netpbm_converters = None
        \/ assoc ofile_ext netpbm_converters = None ->
        _any2any files basename size ofile_ext self w = (self, w, inl (Builtin KeyError)))
  /\ (forall f rest from_ to_,
        files = f :: rest ->
        assoc (snd (Str.splitext f)) netpbm_converters = Some from_ ->
        assoc ofile_ext netpbm_converters = Some to_ ->
        findprograms_all ["convert"; fst from_; snd to_] = false ->
        findprograms "convert" = false ->
        findprograms_all [fst from_; snd to_] = false ->
        _any2any files basename size ofile_ext self w = (self, w, inl NoImageConverter)).
Proof.
  intros Hcheck. unfold _any2any, any2any_app. rewrite Hcheck.
  split; [intros ->; reflexivity|]. split.
  - intros f rest -> Hkey. unfold bind at 1 2, lift at 1, getitem at 1.
    destruct (assoc (snd (Str.splitext f)) netpbm_converters) as [from_|];
      [|reflexivity].
    destruct Hkey as [Hkey | Hkey]; [discriminate Hkey|].
    unfold ret at 1, bind at 1, lift at 1, getitem at 1. rewrite Hkey. reflexivity.
  - intros f rest from_ to_ -> Hfrom Hto Hall Hconvert Hpair.
    unfold bind, lift, getitem, ret. rewrite Hfrom, Hto.
    cbv beta iota. rewrite Hall, Hconvert, Hpair. reflexivity.
Qed.

End Names.

(** Three eps files of which the second cannot be converted. *)
Lemma any2any_names_witness :
  let host :=
    converting [("convert  a.eps easyviz_tmp_0001.png", "easyviz_tmp_0001.png");
                ("convert  c.eps easyviz_tmp_0002.png", "easyviz_tmp_0002.png")] in
  let files := ["a.eps"; "b.eps"; "c.eps"] in
  exists self' w',
    @_any2any Sample.runtime host files "easyviz_tmp_" PNone ".png" Sample.blank
              (Sample.world files)
    = (self', w', inr ["easyviz_tmp_0001.png"; "easyviz_tmp_0002.png"])
    /\ NoDup ["easyviz_tmp_0001.png"; "easyviz_tmp_0002.png"].
Proof.
  intros host files.
  destruct (@_any2any Sample.runtime host files "easyviz_tmp_" PNone ".png" Sample.blank
              (Sample.world files)) as [[self' w'] [e|l]] eqn:Hrun;
    [vm_compute in Hrun; discriminate Hrun|].
  destruct (@any2any_names Sample.runtime host files "easyviz_tmp_" PNone ".png"
              Sample.blank (Sample.world files) self' w' l Hrun) as (m & _ & _ & Hnd).
  assert (Hl : l = ["easyviz_tmp_0001.png"; "easyviz_tmp_0002.png"])
    by (vm_compute in Hrun; injection Hrun as _ _ <-; reflexivity).
  rewrite Hl in Hnd. exists self', w'. rewrite Hl. split; [reflexivity|exact Hnd].
Defined.

(** A jpeg file under the extension .jpeg, and a machine without
    converters. *)
Lemma any2any_setup_errors_witness :
  let host := Sample.host [] (fun _ => 0) in
  let w := Sample.world ["a.jpeg"; "a.jpg"] in
  @_any2any Sample.runtime host [] "easyviz_tmp_" PNone ".png" Sample.blank w
  = (Sample.blank, w, inl (Builtin IndexError))
  /\ @_any2any Sample.runtime host ["a.jpeg"] "easyviz_tmp_" PNone ".png" Sample.blank w
     = (Sample.blank, w, inl (Builtin KeyError))
  /\ @_any2any Sample.runtime host ["a.jpg"] "easyviz_tmp_" PNone ".png" Sample.blank w
     = (Sample.blank, w, inl NoImageConverter).
Proof.
  intros host w. split; [|split].
  - apply (@any2any_setup_errors Sample.runtime host []); reflexivity.
  - apply (proj1 (proj2 (@any2any_setup_errors Sample.runtime host ["a.jpeg"]
                           "easyviz_tmp_" PNone ".png" Sample.blank w eq_refl))
             "a.jpeg" []); [reflexivity|left; reflexivity].
  - apply (proj2 (proj2 (@any2any_setup_errors Sample.runtime host ["a.jpg"]
                           "easyviz_tmp_" PNone ".png" Sample.blank w eq_refl))
             "a.jpg" [] ("jpegtopnm", "pnmtojpeg") ("pngtopnm", "pnmtopng"));
      reflexivity.
Defined.

End ConverterNames.

(** * mencoder on files it reads as they are *)

Module Mencoder.
Import Movie Logic Config Effects.

(** The configuration is that of [p0] but for a defaulted output file,
    the world is [w0] and the registered temporary files are [t0]. *)
Definition untouched (p0 : Props) (w0 : World) (t0 : option (list string))
  : MovieEncoder -> World -> Prop :=
  fun self w =>
    defaulted "movie.avi" p0 (_prop self) /\ w = w0 /\ _tmp_files self = t0.

Section Mencoder.
Context `{PyRuntime} `{Host}.

Lemma inv_bind_read {A B} Inv (key : Props -> A) (k : A -> M B) a :
  (forall self w, Inv self w -> key (_prop self) = a) ->
  inv Inv (k a) -> inv Inv (bind (prop key) k).
Proof.
  intros Hkey Hk self w HI. unfold bind, prop. rewrite (Hkey self w HI).
  apply Hk, HI.
Qed.

Lemma untouched_default p0 w0 t0 :
  inv (untouched p0 w0 t0) (default_output_file "movie.avi").
Proof.
  intros self w (Hp & Hw & Ht).
  pose proof (keeps_props_default "movie.avi" p0 self w Hp) as Hd.
  unfold default_output_file, bind, prop in *.
  destruct (is_none (output_file (_prop self)));
    [split; [exact Hd|split; [exact Hw|exact Ht]]|].
  split; [exact Hp|split; [exact Hw|exact Ht]].
Qed.

(** X18. With png or jpg files and [force_conversion] false,
    [_mencoder] converts nothing: it builds its command, or raises,
    without printing, running a command, changing a file or registering a
    temporary file. *)
Theorem mencoder_reads_png_and_jpg self w :
  file_type (_prop self) = "png" \/ file_type (_prop self) = "jpg" ->
  truthy (force_conversion (_prop self)) = false ->
  match _mencoder self w with
  | (self', w', _) => w' = w /\ _tmp_files self' = _tmp_files self
  end.
Proof.
  intros Htype Hforce.
  set (Inv := untouched (_prop self) w (_tmp_files self)).
  pose proof (inv_set_output_file Inv _ (untouched_default _ _ _)) as Hout.
  assert (Hread : forall {A} (key : Props -> A),
             key (set_prop "output_file" (PStr "movie.avi") (_prop self))
             = key (_prop self) ->
             forall s w', Inv s w' -> key (_prop s) = key (_prop self)).
  { intros A key Hkey s w' ([-> | [_ ->]] & _); [reflexivity|exact Hkey]. }
  assert (Hinv : inv Inv _mencoder).
  { unfold _mencoder.
    apply inv_bind; [inv_step|intros encoder].
    apply (inv_bind_read Inv file_type _ _ (Hread _ file_type eq_refl)).
    apply inv_bind; [inv_step|intros files].
    apply inv_bind; [inv_auto|intros files'].
    apply (inv_bind_read Inv force_conversion _ _ (Hread _ force_conversion eq_refl)).
    replace (negb (existsb (String.eqb (file_type (_prop self))) ["jpg"; "png"])
             || truthy (force_conversion (_prop self))) with false
      by (rewrite Hforce; destruct Htype as [-> | ->]; reflexivity).
    inv_auto. }
  specialize (Hinv self w (conj (or_introl eq_refl) (conj eq_refl eq_refl))).
  destruct (_mencoder self w) as [[self' w'] r].
  destruct Hinv as (_ & Hw & Ht). split; assumption.
Qed.

End Mencoder.

(** Two png files, and a pattern for jpg files. *)
Lemma mencoder_reads_png_and_jpg_witness :
  let host := Sample.host ["mencoder"] (fun _ => 0) in
  let w := Sample.world ["a.png"; "b.png"] in
  let self :=
    mkEncoder (set_prop "encoder" (PStr "mencoder")
                 (set_file_type "png" (_local_prop (InSeq ["a.png"; "b.png"])))) None in
  match @_mencoder Sample.runtime host self w with
  | (self', w', _) => w' = w /\ _tmp_files self' = None
  end.
Proof.
  intros host w self.
  apply (@mencoder_reads_png_and_jpg Sample.runtime host self w);
    [left; reflexivity|reflexivity].
Defined.

End Mencoder.

(** * The input of ffmpeg and mpeg2enc *)

Module PrintfInput.
Import Movie Logic Effects ConverterNames.

Section PrintfInput.
Context `{PyRuntime} `{Host}.

(** X19. For a sequence of files, png files too, and for a file
    specification without placeholder, [_ffmpeg] and [_mpeg2enc] always
    convert: when lines 259-282 and 475-498 are through, the encoder is to
    read png files under the name easyviz_tmp_%04d.png, and the registered
    temporary files are the files of this name numbered from 1 with no
    gap. *)
Theorem printf_input_converts self w self' w' files file_type :
  (exists l, input_files (_prop self) = InSeq l)
  \/ (exists s, input_files (_prop self) = InStr s /\ Printf.re_search s = None) ->
  printf_input self w = (self', w', inr (files, file_type)) ->
  files = "easyviz_tmp_%04d.png"
  /\ file_type = "png"
  /\ exists m : nat,
       _tmp_files self'
       = Some (map (fun k => "easyviz_tmp_" +:+ Str.fmt_0d 4 k +:+ ".png")
                   (seqZ 1 (Z.of_nat m))).
Proof.
  intros Hinput Hrun. unfold printf_input in Hrun.
  apply bind_inr_inv in Hrun as (input & ? & ? & Hread & Hrun).
  injection Hread as <- <- <-.
  apply bind_inr_inv in Hrun as (ft & ? & ? & _ & Hrun).
  apply bind_inr_inv in Hrun as (found & ? & ? & Hfound & Hrun).
  assert (Hlist : exists l, found = inr l).
  { destruct Hinput as [[l Hin] | (s & Hin & Hre)]; rewrite Hin in Hfound.
    - injection Hfound as _ _ <-. exists l. reflexivity.
    - rewrite Hre in Hfound.
      apply bind_inr_inv in Hfound as (l & ? & ? & _ & Hfound).
      injection Hfound as _ _ <-. eexists. reflexivity. }
  destruct Hlist as [l ->].
  apply bind_inr_inv in Hrun as (new_files & ? & ? & Hconv & Hrun).
  apply bind_inr_inv in Hrun as (? & ? & ? & Hreg & Hrun).
  injection Hreg as <- _. injection Hrun as <- _ <- <-.
  apply any2any_names in Hconv as (m & _ & -> & _).
  split; [reflexivity|]. split; [reflexivity|]. exists m. reflexivity.
Qed.

End PrintfInput.

(** Two png files given as a list. *)
Lemma printf_input_converts_witness :
  let host := Sample.host ["ffmpeg"; "convert"] (fun _ => 0) in
  let w := Sample.world ["a.png"; "b.png"] in
  let self :=
    mkEncoder (set_prop "quiet" (PBool true)
                 (set_file_type "png" (_local_prop (InSeq ["a.png"; "b.png"])))) None in
  exists self' w',
    @printf_input Sample.runtime host self w
    = (self', w', inr ("easyviz_tmp_%04d.png", "png"))
    /\ _tmp_files self' = Some ["easyviz_tmp_0001.png"; "easyviz_tmp_0002.png"]
    /\ map fst (w_spawned w')
       = ["convert  a.png easyviz_tmp_0001.png"; "convert  b.png easyviz_tmp_0002.png"].
Proof.
  intros host w self.
  destruct (@printf_input Sample.runtime host self w)
    as [[self' w'] [e|[files ft]]] eqn:Hrun; [vm_compute in Hrun; discriminate Hrun|].
  destruct (@printf_input_converts Sample.runtime host self w self' w' files ft
              (or_introl (ex_intro _ _ eq_refl)) Hrun) as (-> & -> & _).
  exists self', w'. split; [reflexivity|].
  vm_compute in Hrun. injection Hrun as <- <-. split; reflexivity.
Defined.

End PrintfInput.

(** * A printf-style name given to the constructor *)

Module PrintfConstructor.
Import Movie Logic Text Resolver.

Lemma has_magic_append s t :
  Glob.has_magic (s +:+ t) = Glob.has_magic s || Glob.has_magic t.
Proof.
  unfold Glob.has_magic. rewrite !contains_append.
  destruct (Str.contains "*" s), (Str.contains "?" s), (Str.contains "[" s),
    (Str.contains "*" t), (Str.contains "?" t); reflexivity.
Qed.

Lemma digits_plain s :
  Str.all_chars Str.is_digit s = true ->
  Str.contains "/" s = false /\ Glob.has_magic s = false.
Proof.
  intros Hs. unfold Glob.has_magic.
  rewrite !(fun c Hc => digits_without c s Hc Hs) by reflexivity.
  split; reflexivity.
Qed.

Lemma pattern_plain prefix width suffix :
  plain prefix = true -> plain suffix = true ->
  Str.contains "/" (pattern prefix width suffix) = false
  /\ Glob.has_magic (pattern prefix width suffix) = false.
Proof.
  intros Hp Hs.
  destruct (plain_inv _ Hp) as (_ & Hp1 & Hp2).
  destruct (plain_inv _ Hs) as (_ & Hs1 & Hs2).
  destruct (digits_plain (Str.dec (Z.of_nat width)) (dec_digits _ (Zle_0_nat width)))
    as [Hd1 Hd2].
  unfold pattern.
  rewrite !contains_append, !has_magic_append, Hp1, Hp2, Hs1, Hs2, Hd1, Hd2.
  split; reflexivity.
Qed.

Lemma rfind_absent c s : Str.contains c s = false -> Str.rfind c s = None.
Proof.
  induction s as [|a s IH]; [reflexivity|]. cbn [Str.contains Str.rfind].
  intros Hs. apply orb_false_iff in Hs as [Ha Hs]. rewrite (IH Hs), Ha. reflexivity.
Qed.

Lemma path_split_name s :
  Str.contains "/" s = false -> Str.path_split s = ("", s).
Proof.
  intros Hs. unfold Str.path_split. rewrite (rfind_absent _ _ Hs).
  destruct s; reflexivity.
Qed.

(** A path without slash and wildcard is looked up as it stands. *)
Lemma glob_plain `{Host} fs s :
  s <> "" -> Str.contains "/" s = false -> Glob.has_magic s = false ->
  Glob.glob fs s = inr (if Os.lexists fs s then [s] else []).
Proof.
  intros Hne Hs Hm. unfold Glob.glob. rewrite Hm, (path_split_name _ Hs).
  cbn [negb snd]. destruct s; [contradiction|reflexivity].
Qed.

Lemma zpad_head w n :
  (1 <= w)%nat -> exists a r, Str.zpad w n = String a r /\ Str.is_digit a = true.
Proof.
  intros Hw. pose proof (zpad_digits w n) as Hd. pose proof (zpad_length w n) as Hl.
  destruct (Str.zpad w n) as [|a r]; [cbn in Hl; lia|].
  cbn [Str.all_chars] in Hd. apply andb_true_iff in Hd as [Ha _].
  exists a, r. split; [reflexivity|exact Ha].
Qed.

(** The pattern is none of the names it stands for. *)
Lemma pattern_no_frame prefix suffix width n :
  (1 <= width)%nat -> 0 <= n <= 10 ^ Z.of_nat width ->
  ~ In (pattern prefix width suffix) (frames prefix width suffix n).
Proof.
  intros Hw Hn Hin.
  destruct (frames_elem prefix suffix width n Hw Hn _ Hin) as (i & Hi & Heq).
  unfold pattern in Heq. apply ConverterNames.append_cancel_l in Heq.
  destruct (zpad_head width i Hw) as (a & r & Hz & Ha).
  rewrite Hz in Heq. injection Heq as <- _. discriminate Ha.
Qed.

Section Rejected.
Context `{PyRuntime} `{Host}.

Lemma glob_pattern_empty prefix suffix width n fs :
  plain prefix = true -> plain suffix = true ->
  (1 <= width)%nat -> 0 <= n <= 10 ^ Z.of_nat width ->
  (forall p, is_Some (fs !! p) <-> In p (frames prefix width suffix n)) ->
  Glob.glob fs (pattern prefix width suffix) = inr [].
Proof.
  intros Hp Hs Hw Hn Hdir.
  destruct (pattern_plain prefix width suffix Hp Hs) as [Hslash Hmagic].
  rewrite glob_plain; [|destruct prefix; discriminate|exact Hslash|exact Hmagic].
  unfold Os.lexists.
  destruct (fs !! pattern prefix width suffix) as [x|] eqn:Hx; [|reflexivity].
  destruct (pattern_no_frame prefix suffix width n Hw Hn).
  apply Hdir. rewrite Hx. eexists. reflexivity.
Qed.

(** The constructor has raised before it looks at its input: what the
    encoder selection gives for every input is what it gives here. *)
Ltac early Hfail Hany :=
  eexists _, _; split; [reflexivity|]; right; apply Hfail;
  intros ? ? ? ? Hrun; specialize (Hany ltac:(eassumption));
  rewrite Hrun in Hany; cbn [is_none] in Hany; eexists; exact Hany.

Lemma init_no_match s kwargs self w :
  Glob.glob (w_fs w) s = inr [] ->
  exists self' e,
    __init__ (PStr s) kwargs self w = (self', w, inl e)
    /\ (e = NoMatchingFiles s
        \/ forall input_files,
             exists self'', __init__ input_files kwargs self w = (self'', w, inl e)).
Proof.
  intros Hglob.
  set (Q := fun e => forall input_files,
              exists self'', __init__ input_files kwargs self w = (self'', w, inl e)).
  change (exists self' e,
            __init__ (PStr s) kwargs self w = (self', w, inl e)
            /\ (e = NoMatchingFiles s \/ Q e)).
  assert (Hfail : forall e,
             (forall input_files self' w' r,
                __init__ input_files kwargs self w = (self', w', r) ->
                exists self0, (self', w', r) = (self0, w, inl e)) -> Q e).
  { intros e He input_files.
    destruct (__init__ input_files kwargs self w) as [[self' w'] r] eqn:Hrun.
    destruct (He _ _ _ _ Hrun) as [self0 Heq]. injection Heq as -> -> ->.
    exists self0. reflexivity. }
  assert (Htype : existsb (fun kv => String.eqb (fst kv) "self"
                                     || String.eqb (fst kv) "input_files") kwargs
                  = true -> Q (Builtin TypeError)).
  { intros Hk input_files. exists self. unfold __init__. rewrite Hk. reflexivity. }
  clearbody Q.
  destruct (existsb (fun kv => String.eqb (fst kv) "self"
                               || String.eqb (fst kv) "input_files") kwargs) eqn:Hk.
  { exists self, (Builtin TypeError).
    split; [|right; apply Htype; reflexivity]. unfold __init__. rewrite Hk. reflexivity. }
  pose proof (fun input_files => Selection.init_encoder input_files kwargs self w Hk)
    as Hany.
  cbv zeta in Hany.
  unfold __init__. rewrite Hk.
  unfold bind at 1. unfold assign_props at 1.
  unfold bind at 1. unfold prop at 1. cbn [_prop].
  rewrite Selection.encoder_of_kwargs.
  change (encoder (_local_prop (input_spec_of (PStr s)))) with PNone.
  destruct (is_none (Selection.keyword "encoder" kwargs PNone)) eqn:Hnone.
  - destruct (List.find findprograms _legal_encoders) as [enc|] eqn:Hfind.
    + unfold bind, assign, ret, on_fs. cbn. rewrite Hglob.
      eexists _, _. split; [reflexivity|left; reflexivity].
    + early Hfail Hany.
  - destruct (Selection.keyword "encoder" kwargs PNone) as [| | | |enc| |] eqn:Hreq;
      try discriminate Hnone; try solve [early Hfail Hany].
    destruct (negb (existsb (String.eqb enc) _legal_encoders)) eqn:Hlegal;
      [early Hfail Hany|].
    destruct (negb (findprograms enc)) eqn:Hinst; [early Hfail Hany|].
    unfold bind, assign, ret, on_fs. cbn. rewrite Hglob.
    eexists _, _. split; [reflexivity|left; reflexivity].
Qed.

(** C7. Let [prefix] and [suffix] hold no newline, no slash and no
    glob wildcard, let [suffix] hold a dot and no percent sign, let
    [width] be at least 1 and [n] at most the number of [width]-digit
    indices, and let the paths that exist be the [n] frame names of
    [prefix%0<width>d<suffix>]. The resolution of lines 139-148 would
    give these [n] names from index 0 upwards, but no call gets there:
    the constructor globs the string as it stands (lines 74-77), finds
    nothing and raises, and [movie] stops with that exception in the
    world it found. The exception is the IOError of lines 76-77, unless
    the keywords or the encoder selection have raised before, which they
    then do for every input. *)
Theorem printf_pattern_rejected prefix suffix width n kwargs w :
  plain prefix = true ->
  plain suffix = true ->
  Str.contains "." suffix = true ->
  Str.contains "%" suffix = false ->
  (1 <= width)%nat ->
  0 <= n <= 10 ^ Z.of_nat width ->
  (forall p, is_Some (w_fs w !! p) <-> In p (frames prefix width suffix n)) ->
  (forall self,
     expand_pattern (pattern prefix width suffix) self w
     = (self, w, inr (frames prefix width suffix n)))
  /\ exists e,
       new (PStr (pattern prefix width suffix)) kwargs w = (w, inl e)
       /\ movie (PStr (pattern prefix width suffix)) kwargs w = (w, inl e)
       /\ (e = NoMatchingFiles (pattern prefix width suffix)
           \/ forall input_files, new input_files kwargs w = (w, inl e)).
Proof.
  intros Hp Hs Hdot Hpc Hw Hn Hdir. split.
  - intros self.
    exact (proj1 (proj2 (proj2 (printf_frames_resolved prefix suffix width n self w
                                  Hp Hs Hdot Hpc Hw Hn Hdir)))).
  - destruct (init_no_match (pattern prefix width suffix) kwargs
                (mkEncoder (_local_prop (InSeq [])) None) w
                (glob_pattern_empty prefix suffix width n (w_fs w) Hp Hs Hw Hn Hdir))
      as (self' & e & Hinit & He).
    exists e. unfold movie, new. rewrite Hinit.
    split; [reflexivity|]. split; [reflexivity|].
    destruct He as [He | He]; [left; exact He|right].
    intros input_files. destruct (He input_files) as [self'' ->]. reflexivity.
Qed.

End Rejected.

(** Three frames frame_0000.png, frame_0001.png and frame_0002.png,
    and the call of [movie] on frame_%04d.png. *)
Lemma printf_pattern_rejected_witness :
  let host := Sample.host ["convert"] (fun _ => 0) in
  let names := ["frame_0000.png"; "frame_0001.png"; "frame_0002.png"] in
  let w := Sample.world names in
  @expand_pattern host "frame_%04d.png" Sample.blank w = (Sample.blank, w, inr names)
  /\ @new Sample.runtime host (PStr "frame_%04d.png") [] w
     = (w, inl (NoMatchingFiles "frame_%04d.png"))
  /\ @movie Sample.runtime host (PStr "frame_%04d.png") [] w
     = (w, inl (NoMatchingFiles "frame_%04d.png")).
Proof.
  intros host names w.
  destruct (@printf_pattern_rejected Sample.runtime host "frame_" ".png" 4%nat 3 [] w)
    as (Hexp & e & Hnew & Hmovie & He).
  - reflexivity.
  - reflexivity.
  - reflexivity.
  - reflexivity.
  - lia.
  - lia.
  - intros p. apply files_lookup.
  - assert (Heq : e = NoMatchingFiles "frame_%04d.png").
    { destruct He as [He | He]; [exact He|].
      specialize (He (PList [PStr "frame_0000.png"])).
      vm_compute in He. discriminate He. }
    subst e. split; [apply Hexp|]. split; [exact Hnew|exact Hmovie].
Defined.

End PrintfConstructor.
